(** * Python fundamentals notebooks: a shallow embedding

    The repository is a set of notebooks, each a sequence of small Python
    snippets.  The snippets are embedded over a model of the part of the
    Python object model they exercise: a heap of mutable objects addressed
    by identity, values that are either immediate (None, bool, int, str) or
    references into the heap, and computations that thread the heap and
    either return, raise a Python exception, or get stuck.  Stuck stands
    for a configuration the interpreter never reaches (a dangling
    reference) and for an operation outside the modelled fragment of the
    language; each such operation is named where it occurs, and no
    statement below depends on one.

    The notebooks record the outputs of their cells under CPython 3.10.5;
    where the language leaves a behaviour to the implementation (the hash
    of a tuple, the table of a dict), the model follows that interpreter
    on a 64-bit build.  Printing is not modelled: no snippet's control
    flow or heap depends on what was printed.  The last module checks the
    model against the recorded outputs. *)

From Stdlib Require Import ZArith String List Bool Lia.
From stdpp Require Import base option gmap strings list pretty.

(** ** Runtime model *)

Module Py.

Definition loc := nat.

(** Values.  Tuples, lists, dicts and class instances live in the heap and
    are denoted by [VRef]; the immutable scalars are immediate. *)
Inductive value :=
| VNone
| VBool (b : bool)
| VInt (n : Z)
| VStr (s : string)
| VRef (l : loc).

(** The classes deriving from [list]: the builtin itself and the subclass
    of DictionaryKeys.ipynb. *)
Inductive list_type := builtin_list | HashableList.

(** The classes deriving from [object] that the notebooks define. *)
Inductive class :=
| UserDefinedClass
| Person
| DcPerson
| PersonDefaultFactory
| PersonOrder
| PersonOrderAge
| PersonFrozen
| PersonPostInit
| MyClass.

(** A dict is CPython's compact table: [dk_indices] is the open-addressing
    index table (its length is the table size, a power of two), and
    [dk_entries] the entries in insertion order, each with the hash the key
    had when it was inserted. *)
Inductive dkix := DKIX_EMPTY | DKIX_DUMMY | DKIX (ix : nat).

Record dict_entry := DictEntry {
  me_hash : Z;
  me_key : value;
  me_value : value
}.

Record dict_keys := DictKeys {
  dk_indices : list dkix;
  dk_usable : nat;
  dk_entries : list dict_entry
}.

Inductive obj :=
| OTuple (items : list value)
| OList (t : list_type) (items : list value)
| ODict (keys : dict_keys)
| OInst (cls : class) (dict : gmap string value).

Inductive exn :=
| TypeError (msg : string)
| ValueError (msg : string)
| KeyError (key : value)
| AttributeError (msg : string)
| FrozenInstanceError (msg : string)
| RecursionError.

Inductive outcome (A : Type) :=
| Ok (a : A)
| Raise (e : exn)
| Stuck.
Arguments Ok {A} a.
Arguments Raise {A} e.
Arguments Stuck {A}.

Abbreviation heap := (gmap loc obj).

(** Computations: heap passing, with exceptions.  An exception keeps the
    heap as it was when it was raised. *)
Definition M (A : Type) : Type := heap → outcome A * heap.

Definition ret {A} (a : A) : M A := λ h, (Ok a, h).
Definition bind {A B} (m : M A) (k : A → M B) : M B :=
  λ h, match m h with
       | (Ok a, h') => k a h'
       | (Raise e, h') => (Raise e, h')
       | (Stuck, h') => (Stuck, h')
       end.
Definition raise {A} (e : exn) : M A := λ h, (Raise e, h).
Definition stuck {A} : M A := λ h, (Stuck, h).

#[global] Instance M_ret : MRet M := @ret.
#[global] Instance M_bind : MBind M := λ A B k m, bind m k.

(** A computation that reads the heap and leaves it as it is. *)
Definition lift {A} (f : heap → outcome A) : M A :=
  λ h, match f h with
       | Ok a => (Ok a, h)
       | Raise e => (Raise e, h)
       | Stuck => (Stuck, h)
       end.

(** [try: m except: handler]. *)
Definition try_except {A} (m : M A) (handler : exn → M A) : M A :=
  λ h, match m h with
       | (Raise e, h') => handler e h'
       | r => r
       end.

Fixpoint mapM {A B} (f : A → M B) (l : list A) : M (list B) :=
  match l with
  | [] => mret []
  | x :: l' => y ← f x; ys ← mapM f l'; mret (y :: ys)
  end.

(** Allocation gives the new object an identity no live object has. *)
Definition alloc (o : obj) : M value :=
  λ h, let l := fresh (dom h) in (Ok (VRef l), <[l := o]> h).

Definition deref (l : loc) : M obj :=
  λ h, match h !! l with
       | Some o => (Ok o, h)
       | None => (Stuck, h)
       end.

Definition store (l : loc) (o : obj) : M unit :=
  λ h, (Ok tt, <[l := o]> h).

(** [type(v).__name__], for messages. *)
Definition list_type_name (t : list_type) : string :=
  match t with
  | builtin_list => "list"
  | HashableList => "HashableList"
  end.

Definition class_name (c : class) : string :=
  match c with
  | UserDefinedClass => "UserDefinedClass"
  | Person => "Person"
  | DcPerson => "DcPerson"
  | PersonDefaultFactory => "PersonDefaultFactory"
  | PersonOrder => "PersonOrder"
  | PersonOrderAge => "PersonOrderAge"
  | PersonFrozen => "PersonFrozen"
  | PersonPostInit => "PersonPostInit"
  | MyClass => "MyClass"
  end.

Definition obj_type_name (o : obj) : string :=
  match o with
  | OTuple _ => "tuple"
  | OList t _ => list_type_name t
  | ODict _ => "dict"
  | OInst c _ => class_name c
  end.

Definition type_name (v : value) : M string :=
  match v with
  | VNone => mret "NoneType"
  | VBool _ => mret "bool"
  | VInt _ => mret "int"
  | VStr _ => mret "str"
  | VRef l => o ← deref l; mret (obj_type_name o)
  end.

(** Displays: [(a, b, ...)] and [[a, b, ...]] build a new object. *)
Definition new_tuple (items : list value) : M value := alloc (OTuple items).
Definition new_list (items : list value) : M value := alloc (OList builtin_list items).

(** Iterating over a value to exhaustion.  A dict yields its keys in
    insertion order.  Iterating a str is outside the fragment. *)
Definition iterate (v : value) : M (list value) :=
  match v with
  | VRef l =>
      o ← deref l;
      match o with
      | OTuple items | OList _ items => mret items
      | ODict keys => mret (me_key <$> dk_entries keys)
      | OInst c _ => raise (TypeError ("'" +:+ class_name c +:+ "' object is not iterable"))
      end
  | VStr _ => stuck
  | _ => t ← type_name v; raise (TypeError ("'" +:+ t +:+ "' object is not iterable"))
  end.

(** The double quote, as a string. *)
Definition dquote : string := String (Ascii.ascii_of_nat 34) EmptyString.

(** [x += y], for the operand types of the notebooks.  A list has
    [__iadd__]: it extends itself in place with the elements of the
    iterable on the right, and the result is the list itself.  A tuple has
    no [__iadd__], so [+=] falls back to [x + y], which concatenates two
    tuples into a new tuple and leaves both operands as they were.
    Arithmetic on scalars is outside the fragment. *)
Definition iadd (x y : value) : M value :=
  match x with
  | VRef lx =>
      ox ← deref lx;
      match ox with
      | OList t items =>
          more ← iterate y;
          store lx (OList t (items ++ more));;
          mret x
      | OTuple items =>
          oy ← (match y with VRef ly => o ← deref ly; mret (Some o) | _ => mret None end);
          match oy with
          | Some (OTuple more) => new_tuple (items ++ more)
          | _ =>
              ty ← type_name y;
              raise (TypeError ("can only concatenate tuple (not " +:+ dquote +:+ ty +:+ dquote +:+ ") to tuple"))
          end
      | _ =>
          ty ← type_name y;
          raise (TypeError ("unsupported operand type(s) for +=: '" +:+ obj_type_name ox +:+ "' and '" +:+ ty +:+ "'"))
      end
  | _ => stuck
  end.

(** [l.append(x)] *)
Definition append (l x : value) : M unit :=
  match l with
  | VRef a =>
      o ← deref a;
      match o with
      | OList t items => store a (OList t (items ++ [x]))
      | _ => stuck
      end
  | _ => stuck
  end.

(** What [print] shows of a returned container: the object as it is at
    that moment. *)
Definition shown (v : value) : M obj :=
  match v with
  | VRef l => deref l
  | _ => stuck
  end.

(** [str(v)] as an f-string substitutes it, for scalars.  Formatting a
    container or an instance is outside the fragment. *)
Definition format (v : value) : M string :=
  match v with
  | VNone => mret "None"
  | VBool b => mret (if b then "True" else "False")
  | VInt n => mret (pretty n)
  | VStr s => mret s
  | VRef _ => stuck
  end.

(** [repr] of a str that needs no escaping, as [{name!r}] gives it. *)
Definition quoted (s : string) : string := "'" +:+ s +:+ "'".

End Py.

(** ** CallByAssignment.ipynb *)

Module CallByAssignment.
Import Py.

(** A function object.  The body is the Rocq function below; the object
    holds what [def] evaluated: the default of the parameter [y]. *)
Record function := Function { y_default : value }.

(** [def func1(x: int, y: list[int] = []) -> list[int]]: the display [[]]
    is evaluated here, once. *)
Definition def_func1 : M function :=
  d ← new_list [];
  mret (Function d).

(** [def func2(x: int, y: tuple[int] = ()) -> tuple[int]]. *)
Definition def_func2 : M function :=
  d ← new_tuple [];
  mret (Function d).

(** Binding the parameter [y]: the argument if there is one, otherwise the
    object the function holds as default (no copy). *)
Definition bind_y (f : function) (y : option value) : value :=
  default (y_default f) y.

(** [y += [x]; return y]. *)
Definition func1 (f : function) (x : value) (y : option value) : M value :=
  let y := bind_y f y in
  rhs ← new_list [x];
  y ← iadd y rhs;
  mret y.

(** [y += (x,); return y]. *)
Definition func2 (f : function) (x : value) (y : option value) : M value :=
  let y := bind_y f y in
  rhs ← new_tuple [x];
  y ← iadd y rhs;
  mret y.

(** The code cells in order: the two definitions, then
    [print(func1(a)); print(func2(a))], then
    [print(func1(b)); print(func2(b))]. *)
Definition cells (a b : Z) : M (list obj) :=
  f1 ← def_func1;
  f2 ← def_func2;
  r1 ← func1 f1 (VInt a) None; p1 ← shown r1;
  r2 ← func2 f2 (VInt a) None; p2 ← shown r2;
  r3 ← func1 f1 (VInt b) None; p3 ← shown r3;
  r4 ← func2 f2 (VInt b) None; p4 ← shown r4;
  mret [p1; p2; p3; p4].

(** *** Definitions for the statements *)

(** Calling [f] without [y] on each of [xs] in turn: what [print] shows of
    each result, at the time. *)
Fixpoint calls (f : value → option value → M value) (xs : list Z) : M (list obj) :=
  match xs with
  | [] => mret []
  | x :: xs' =>
      r ← f (VInt x) None;
      p ← shown r;
      ps ← calls f xs';
      mret (p :: ps)
  end.

(** The list [items] after each of [xs] in turn was added to it. *)
Fixpoint accumulated (t : list_type) (items : list value) (xs : list Z) : list obj :=
  match xs with
  | [] => []
  | x :: xs' => OList t (items ++ [VInt x]) :: accumulated t (items ++ [VInt x]) xs'
  end.

End CallByAssignment.

(** ** Class declarations

    What the [class] statements of Dataclasses.ipynb declare statically:
    the arguments of the [@dataclass] decorator and the fields with their
    [field(...)] options.  The special methods the decorator generates from
    a declaration are in [Compare], [Descriptors] and [Dataclasses]. *)

Module Decl.
Import Py.

Inductive default_spec :=
| MISSING
| DefaultValue (v : value)
| DefaultFactory_list.          (* default_factory=list *)

Record field := Field {
  f_name : string;
  f_default : default_spec;
  f_init : bool;
  f_repr : bool;
  f_compare : bool
}.

Record dataclass := Dataclass {
  dc_order : bool;
  dc_frozen : bool;
  dc_fields : list field
}.

(** [name: T] *)
Definition plain (name : string) : field := Field name MISSING true true true.

(** The class statements.  [DcPerson] is the one of the cell headed
    "Defining a dataclass"; [Person] is the hand-written class that the
    notebook compares it with. *)
Definition dataclass_of (c : class) : option dataclass :=
  match c with
  | DcPerson =>
      (* @dataclass *)
      Some (Dataclass false false
              [plain "first_name"; plain "last_name"; plain "age"])
  | PersonDefaultFactory =>
      (* @dataclass *)
      Some (Dataclass false false
              [plain "name";
               Field "age" MISSING true false true;                    (* field(repr=False) *)
               Field "email" (DefaultValue (VStr EmptyString)) true true true; (* field(default='') *)
               Field "list_values" DefaultFactory_list true true true])  (* field(default_factory=list) *)
  | PersonOrder =>
      (* @dataclass(order=True) *)
      Some (Dataclass true false [plain "name"; plain "age"])
  | PersonOrderAge =>
      (* @dataclass(order=True) *)
      Some (Dataclass true false
              [Field "name" MISSING true true false;                   (* field(compare=False) *)
               plain "age"])
  | PersonFrozen =>
      (* @dataclass(frozen=True) *)
      Some (Dataclass false true [plain "name"; plain "age"])
  | PersonPostInit =>
      (* @dataclass *)
      Some (Dataclass false false
              [plain "name"; plain "age";
               Field "email" (DefaultValue (VStr EmptyString)) true true true; (* field(default='') *)
               Field "is_adult" MISSING false true true])              (* field(init=False) *)
  | UserDefinedClass | Person | MyClass => None
  end.

#[global] Instance class_eq_dec : EqDecision class.
Proof. solve_decision. Defined.

End Decl.

(** ** Comparisons: [==], [!=], [<], [<=], [>], [>=] *)

Module Compare.
Import Py Decl.

Inductive cmpop := Py_LT | Py_LE | Py_EQ | Py_NE | Py_GT | Py_GE.

Definition op_symbol (op : cmpop) : string :=
  match op with
  | Py_LT => "<" | Py_LE => "<=" | Py_EQ => "==" | Py_NE => "!="
  | Py_GT => ">" | Py_GE => ">="
  end.

(** The comparison [op] decided from a three-way comparison. *)
Definition of_comparison (op : cmpop) (c : comparison) : bool :=
  match op, c with
  | Py_LT, Lt => true
  | Py_LE, (Lt | Eq) => true
  | Py_EQ, Eq => true
  | Py_NE, (Lt | Gt) => true
  | Py_GT, Gt => true
  | Py_GE, (Gt | Eq) => true
  | _, _ => false
  end.

(** [x is y].  For int and str, whether two equal values are one object
    is up to the interpreter; every use below is of the form
    [x is y or x == y], which does not depend on it. *)
Definition is_ (x y : value) : bool :=
  match x, y with
  | VNone, VNone => true
  | VBool a, VBool b => Bool.eqb a b
  | VRef a, VRef b => bool_decide (a = b)
  | _, _ => false
  end.

(** How a comparison sees an operand. *)
Inductive operand :=
| Number (n : Z)                       (* int, and bool as 0 or 1 *)
| Text (s : string)
| NoneValue
| TupleOf (items : list value)
| ListOf (items : list value)
| DictObject
| Instance (l : loc) (c : class) (dict : gmap string value)
| Dangling.

Definition operand_of (h : heap) (v : value) : operand :=
  match v with
  | VNone => NoneValue
  | VBool b => Number (if b then 1 else 0)
  | VInt n => Number n
  | VStr s => Text s
  | VRef l =>
      match h !! l with
      | Some (OTuple items) => TupleOf items
      | Some (OList _ items) => ListOf items
      | Some (ODict _) => DictObject
      | Some (OInst c d) => Instance l c d
      | None => Dangling
      end
  end.

Definition operand_type_name (v : value) (o : operand) : string :=
  match o with
  | Number _ => match v with VBool _ => "bool" | _ => "int" end
  | Text _ => "str"
  | NoneValue => "NoneType"
  | TupleOf _ => "tuple"
  | ListOf _ => "list"
  | DictObject => "dict"
  | Instance _ c _ => class_name c
  | Dangling => EmptyString
  end.

(** Reading a field of a dataclass instance: the instance attribute, and
    failing that the class attribute the declaration left for a field with
    a default value. *)
Definition read_field (c : class) (d : gmap string value) (f : field) : outcome value :=
  match d !! f_name f with
  | Some v => Ok v
  | None =>
      match f_default f with
      | DefaultValue v => Ok v
      | _ => Raise (AttributeError ("'" +:+ class_name c +:+ "' object has no attribute '" +:+ f_name f +:+ "'"))
      end
  end.

Fixpoint read_fields (c : class) (d : gmap string value) (fs : list field) : outcome (list value) :=
  match fs with
  | [] => Ok []
  | f :: fs' =>
      match read_field c d f with
      | Ok v =>
          match read_fields c d fs' with
          | Ok vs => Ok (v :: vs)
          | err => err
          end
      | Raise e => Raise e
      | Stuck => Stuck
      end
  end.

(** The tuple of the fields that take part in comparisons:
    [(self.f1, self.f2, ...)] over the fields with [compare=True]. *)
Definition compare_tuple (c : class) (dc : dataclass) (d : gmap string value) : outcome (list value) :=
  read_fields c d (filter (λ f, f_compare f = true) (dc_fields dc)).

(** [sys.getrecursionlimit()], by default. *)
Definition recursion_limit : nat := 1000.

(** Comparing two sequences: the first pair of elements that are neither
    identical nor equal decides, by [==] and [!=] themselves and by
    comparing the two elements otherwise; when one sequence runs out, the
    lengths decide.  [equal] is [==] and [cmp] is [op] on elements. *)
Fixpoint compare_sequences (op : cmpop) (equal cmp : value → value → outcome bool)
    (xs ys : list value) {struct xs} : outcome bool :=
  match xs, ys with
  | x :: xs', y :: ys' =>
      match (if is_ x y then Ok true else equal x y) with
      | Ok true => compare_sequences op equal cmp xs' ys'
      | Ok false =>
          match op with
          | Py_EQ => Ok false
          | Py_NE => Ok true
          | _ => cmp x y
          end
      | err => err
      end
  | _, _ => Ok (of_comparison op (Nat.compare (length xs) (length ys)))
  end.

(** Neither operand implements the comparison for the other: [==] and
    [!=] fall back on identity, an ordering is a TypeError. *)
Definition not_implemented (h : heap) (op : cmpop) (a b : value) : outcome bool :=
  match op with
  | Py_EQ => Ok (is_ a b)
  | Py_NE => Ok (negb (is_ a b))
  | _ =>
      Raise (TypeError ("'" +:+ op_symbol op +:+ "' not supported between instances of '"
                        +:+ operand_type_name a (operand_of h a) +:+ "' and '"
                        +:+ operand_type_name b (operand_of h b) +:+ "'"))
  end.

(** [a op b].  Two lists of different lengths are unequal without a look
    at their elements.  The method a dataclass generates answers for an
    operand of its own class only, comparing the tuples of the fields; it
    generates the orderings only with [order=True].  The recursion is
    bounded as the interpreter bounds it.  Comparing two dicts is outside
    the fragment. *)
Fixpoint richcompare (depth : nat) (h : heap) (op : cmpop) (a b : value) {struct depth} : outcome bool :=
  match depth with
  | O => Raise RecursionError
  | S depth =>
      let sequences := compare_sequences op (richcompare depth h Py_EQ) (richcompare depth h op) in
      match operand_of h a, operand_of h b with
      | Dangling, _ | _, Dangling => Stuck
      | Number x, Number y => Ok (of_comparison op (Z.compare x y))
      | Text s, Text t => Ok (of_comparison op (String.compare s t))
      | TupleOf xs, TupleOf ys => sequences xs ys
      | ListOf xs, ListOf ys =>
          if negb (Nat.eqb (length xs) (length ys)) && (match op with Py_EQ | Py_NE => true | _ => false end)
          then Ok (match op with Py_EQ => false | _ => true end)
          else sequences xs ys
      | DictObject, DictObject => Stuck
      | Instance la ca da, Instance lb cb db =>
          match dataclass_of ca with
          | Some dc =>
              if bool_decide (ca = cb)
                 && (match op with Py_EQ | Py_NE => true | _ => dc_order dc end)
              then
                match compare_tuple ca dc da with
                | Ok xs =>
                    match compare_tuple cb dc db with
                    | Ok ys => sequences xs ys
                    | Raise e => Raise e
                    | Stuck => Stuck
                    end
                | Raise e => Raise e
                | Stuck => Stuck
                end
              else not_implemented h op a b
          | None => not_implemented h op a b
          end
      | _, _ => not_implemented h op a b
      end
  end.

Definition compare (op : cmpop) (a b : value) : M bool :=
  lift (λ h, richcompare recursion_limit h op a b).

End Compare.

(** ** DictionaryKeys.ipynb *)

Module DictionaryKeys.
Import Py Decl Compare.
Local Open Scope Z_scope.

(** *** The builtin [hash] (CPython 3.10, 64-bit, the notebook's kernel) *)

Definition u64 (x : Z) : Z := x mod 2 ^ 64.

(** Reading an unsigned 64-bit word as Py_hash_t. *)
Definition signed (x : Z) : Z := if x <? 2 ^ 63 then x else x - 2 ^ 64.

(** int: the value reduced modulo the Mersenne prime 2^61 - 1, keeping the
    sign, and -1 is never a hash. *)
Definition _PyHASH_MODULUS : Z := 2 ^ 61 - 1.

Definition hash_int (n : Z) : Z :=
  let x := Z.sgn n * (Z.abs n mod _PyHASH_MODULUS) in
  if x =? -1 then -2 else x.

(** tuple: xxHash-style mixing of the hashes of the items. *)
Definition _PyHASH_XXPRIME_1 : Z := 11400714785074694791.
Definition _PyHASH_XXPRIME_2 : Z := 14029467366897019727.
Definition _PyHASH_XXPRIME_5 : Z := 2870177450012600261.
Definition _PyHASH_XXROTATE (x : Z) : Z :=
  u64 (Z.lor (Z.shiftl x 31) (Z.shiftr x 33)).

Definition tuplehash (lanes : list Z) : Z :=
  let acc :=
    fold_left
      (λ acc lane,
         let acc := u64 (acc + u64 lane * _PyHASH_XXPRIME_2) in
         let acc := _PyHASH_XXROTATE acc in
         u64 (acc * _PyHASH_XXPRIME_1))
      lanes _PyHASH_XXPRIME_5 in
  let acc := u64 (acc + Z.lxor (Z.of_nat (length lanes)) (Z.lxor _PyHASH_XXPRIME_5 3527539)) in
  if acc =? 2 ^ 64 - 1 then 1546275796 else signed acc.

(** [object.__hash__]: a function of the identity alone.  Identities are
    laid out as 16-byte aligned addresses, and the hash rotates the
    address right by 4 bits. *)
Definition id_ (l : loc) : Z := 16 * (Z.of_nat l + 1).

Definition _Py_HashPointer (p : Z) : Z :=
  let y := u64 (Z.lor (Z.shiftr p 4) (Z.shiftl p 60)) in
  let x := signed y in
  if x =? -1 then -2 else x.

(** [tuple(v)]: [v] itself when it is a tuple, and otherwise a new tuple
    of the elements that iterating over [v] gives. *)
Definition tuple_ (v : value) : M value :=
  items ← iterate v;
  is_tuple ← (match v with
              | VRef l => o ← deref l; mret (match o with OTuple _ => true | _ => false end)
              | _ => mret false
              end);
  if is_tuple : bool then mret v else new_tuple items.

(** [class HashableList(list)]:
    [def __hash__(self): return hash(tuple(self))].
    The name [hash] is looked up when the method runs; it is the builtin. *)
Definition HashableList__hash__ (hash : value → M Z) (self : value) : M Z :=
  t ← tuple_ self;
  hash t.

Definition unhashable {A} (type : string) : M A :=
  raise (TypeError ("unhashable type: '" +:+ type +:+ "'")).

(** [hash(v)].  A class that defines [__eq__] without [__hash__] has its
    [__hash__] set to None: so it is for [list], [dict] and a dataclass
    that is not frozen.  A frozen dataclass hashes the tuple of its
    fields; a class that defines neither inherits [object.__hash__].  The
    hash of a str is salted per process and the hash of None is its
    address: the program does not determine them, and they are outside the
    fragment. *)
Fixpoint hash (depth : nat) (v : value) {struct depth} : M Z :=
  match depth with
  | O => raise RecursionError
  | S depth =>
      match v with
      | VInt n => mret (hash_int n)
      | VBool b => mret (if b then 1 else 0)
      | VStr _ | VNone => stuck
      | VRef l =>
          o ← deref l;
          match o with
          | OTuple items =>
              lanes ← mapM (hash depth) items;
              mret (tuplehash lanes)
          | OList builtin_list _ => unhashable "list"
          | OList HashableList _ => HashableList__hash__ (hash depth) v
          | ODict _ => unhashable "dict"
          | OInst c d =>
              match dataclass_of c with
              | None => mret (_Py_HashPointer (id_ l))
              | Some dc =>
                  if dc_frozen dc then
                    match compare_tuple c dc d with
                    | Ok items => t ← new_tuple items; hash depth t
                    | Raise e => raise e
                    | Stuck => stuck
                    end
                  else unhashable (class_name c)
              end
          end
      end
  end.

Definition builtin_hash (v : value) : M Z := hash recursion_limit v.

(** *** dict *)

Definition PyDict_MINSIZE : nat := 8.
Definition PERTURB_SHIFT : Z := 5.
Definition USABLE_FRACTION (n : nat) : nat := (n * 2 / 3)%nat.

Definition DK_MASK (dk : dict_keys) : Z := Z.of_nat (length (dk_indices dk)) - 1.

(** A new dict: a table of [PyDict_MINSIZE] slots, of which two thirds
    may hold an entry.  (The interpreter allocates this table at the first
    insertion; the dict is the same after it.) *)
Definition new_keys : dict_keys :=
  DictKeys (replicate PyDict_MINSIZE DKIX_EMPTY) (USABLE_FRACTION PyDict_MINSIZE) [].

Definition new_dict : M value := alloc (ODict new_keys).

(** The probe sequence visits every slot, and a table always has an empty
    one, so a probe loop ends within this many steps. *)
Definition probe_limit (dk : dict_keys) : nat := (13 + 2 * length (dk_indices dk))%nat.

Definition next_perturb (perturb : Z) : Z := Z.shiftr perturb PERTURB_SHIFT.
Definition next_slot (mask perturb i : Z) : Z := Z.land (i * 5 + perturb + 1) mask.

(** [lookdict]: the slot [hash & mask] and then the probe sequence are
    searched until an empty slot.  An entry matches when its key is the
    very object looked up, or when its stored hash is [hash] and its key
    compares equal. *)
Fixpoint lookdict_loop (fuel : nat) (h : heap) (dk : dict_keys) (key : value) (hash : Z)
    (perturb i : Z) {struct fuel} : outcome (option (nat * dict_entry)) :=
  match fuel with
  | O => Stuck
  | S fuel =>
      let continue :=
        let perturb := next_perturb perturb in
        lookdict_loop fuel h dk key hash perturb (next_slot (DK_MASK dk) perturb i) in
      match dk_indices dk !! Z.to_nat i with
      | None => Stuck
      | Some DKIX_EMPTY => Ok None
      | Some DKIX_DUMMY => continue
      | Some (DKIX ix) =>
          match dk_entries dk !! ix with
          | None => Stuck
          | Some ep =>
              if is_ (me_key ep) key then Ok (Some (ix, ep))
              else if me_hash ep =? hash then
                match richcompare recursion_limit h Py_EQ (me_key ep) key with
                | Ok true => Ok (Some (ix, ep))
                | Ok false => continue
                | Raise e => Raise e
                | Stuck => Stuck
                end
              else continue
          end
      end
  end.

Definition lookdict (h : heap) (dk : dict_keys) (key : value) (hash : Z)
    : outcome (option (nat * dict_entry)) :=
  lookdict_loop (probe_limit dk) h dk key hash (u64 hash) (Z.land (u64 hash) (DK_MASK dk)).

(** [find_empty_slot]: the first slot of the probe sequence that holds no
    entry. *)
Fixpoint find_empty_slot_loop (fuel : nat) (dk : dict_keys) (perturb i : Z) {struct fuel} : option Z :=
  match fuel with
  | O => None
  | S fuel =>
      match dk_indices dk !! Z.to_nat i with
      | None => None
      | Some (DKIX _) =>
          let perturb := next_perturb perturb in
          find_empty_slot_loop fuel dk perturb (next_slot (DK_MASK dk) perturb i)
      | Some _ => Some i
      end
  end.

Definition find_empty_slot (dk : dict_keys) (hash : Z) : option Z :=
  find_empty_slot_loop (probe_limit dk) dk (u64 hash) (Z.land (u64 hash) (DK_MASK dk)).

Definition deref_dict (d : value) : M (loc * dict_keys) :=
  match d with
  | VRef l =>
      o ← deref l;
      match o with
      | ODict dk => mret (l, dk)
      | _ => stuck
      end
  | _ => stuck
  end.

(** [d[key]] *)
Definition dict_getitem (d key : value) : M value :=
  '(l, dk) ← deref_dict d;
  hash ← builtin_hash key;
  found ← lift (λ h, lookdict h dk key hash);
  match found with
  | Some (_, ep) => mret (me_value ep)
  | None => raise (KeyError key)
  end.

(** [d[key] = v].  A key that is found has its value replaced; a new key
    takes the first empty slot of its probe sequence and the next entry.
    Growing the table when it has no usable entry left is outside the
    fragment. *)
Definition dict_setitem (d key v : value) : M unit :=
  '(l, dk) ← deref_dict d;
  hash ← builtin_hash key;
  found ← lift (λ h, lookdict h dk key hash);
  match found with
  | Some (ix, ep) =>
      store l (ODict (DictKeys (dk_indices dk) (dk_usable dk)
                        (<[ix := DictEntry (me_hash ep) (me_key ep) v]> (dk_entries dk))))
  | None =>
      match dk_usable dk, find_empty_slot dk hash with
      | S usable, Some i =>
          store l (ODict (DictKeys (<[Z.to_nat i := DKIX (length (dk_entries dk))]> (dk_indices dk))
                            usable
                            (dk_entries dk ++ [DictEntry hash key v])))
      | _, _ => stuck
      end
  end.

(** The display [{key: v}] *)
Definition dict_display (key v : value) : M value :=
  d ← new_dict;
  dict_setitem d key v;;
  mret d.

(** [HashableList(iterable)] *)
Definition new_HashableList (iterable : value) : M value :=
  items ← iterate iterable;
  alloc (OList HashableList items).

(** *** The cells *)

(** [listA = [1, 2, 3]] *)
Definition cell_listA : M value := new_list [VInt 1; VInt 2; VInt 3].

(** [dict = {listA: 1}] *)
Definition cell_dict (listA : value) : M value := dict_display listA (VInt 1).

(** [listB = HashableList([1, 2, 3]); dictB = {listB: 1}] *)
Definition cell_listB_dictB : M (value * value) :=
  arg ← new_list [VInt 1; VInt 2; VInt 3];
  listB ← new_HashableList arg;
  dictB ← dict_display listB (VInt 1);
  mret (listB, dictB).

(** [dictB[listB]] *)
Definition cell_lookup (dictB listB : value) : M value := dict_getitem dictB listB.

(** [listB.append(4)] *)
Definition cell_append (listB : value) : M unit := append listB (VInt 4).

(** *** Definitions for the statements *)

(** The slot where the probe sequence of a hash starts in a table of 8. *)
Definition first_slot (hash : Z) : Z := Z.land (u64 hash) 7.

(** What [{key: v}] holds when [hash] is the hash of [key]. *)
Definition single_entry (hash : Z) (key v : value) : dict_keys :=
  DictKeys (<[Z.to_nat (first_slot hash) := DKIX 0]> (replicate 8 DKIX_EMPTY)) 4
           [DictEntry hash key v].

(** A builtin list and a [HashableList] side by side. *)
Definition heap_listA_listB : heap :=
  <[1%nat := OList HashableList (VInt <$> [1; 2; 3])]>
    {[ 0%nat := OList builtin_list [VInt 1; VInt 2; VInt 3] ]}.

End DictionaryKeys.

(** ** Descriptors.ipynb *)

Module Descriptors.
Import Py Decl Compare.

(** *** [class ValidationDescriptor]

    The two descriptors are made while the class statement of [MyClass]
    runs and nothing assigns to their attributes afterwards, so a
    descriptor is a record and not a heap object.  [name] is unset until
    [__set_name__] has run. *)
Record ValidationDescriptor := {
  default_value : value;
  min : value;
  max : value;
  name : option string
}.

(** [def __init__(self, min_=None, max_=None)] *)
Definition ValidationDescriptor__init__ (min_ max_ : option value) : ValidationDescriptor :=
  {| default_value := VInt 0;
     min := default VNone min_;
     max := default VNone max_;
     name := None |}.

(** [def __set_name__(self, owner, name)] *)
Definition ValidationDescriptor__set_name__ (self : ValidationDescriptor) (owner : class)
    (name : string) : ValidationDescriptor :=
  {| default_value := default_value self;
     min := min self;
     max := max self;
     name := Some name |}.

(** [self.name] *)
Definition self_name (self : ValidationDescriptor) : M string :=
  match name self with
  | Some n => mret n
  | None => raise (AttributeError "'ValidationDescriptor' object has no attribute 'name'")
  end.

(** [instance.__dict__] *)
Definition instance_dict (instance : value) : M (loc * class * gmap string value) :=
  match instance with
  | VRef l =>
      o ← deref l;
      match o with
      | OInst c d => mret (l, c, d)
      | OList HashableList _ => stuck   (* it has a __dict__, which the model of lists leaves out *)
      | _ => raise (AttributeError ("'" +:+ obj_type_name o +:+ "' object has no attribute '__dict__'"))
      end
  | _ =>
      t ← type_name instance;
      raise (AttributeError ("'" +:+ t +:+ "' object has no attribute '__dict__'"))
  end.

(** [def __get__(self, instance, owner)]:
    [return instance.__dict__.get(self.name, self.default_value)] *)
Definition ValidationDescriptor__get__ (self : ValidationDescriptor) (instance : value)
    (owner : class) : M value :=
  '(_, _, d) ← instance_dict instance;
  n ← self_name self;
  mret (default (default_value self) (d !! n)).

(** [def __set__(self, instance, value)]:
    [if not self.min <= value <= self.max: raise ValueError(...)] and then
    [instance.__dict__[self.name] = value].  The chained comparison
    evaluates [value <= self.max] only when [self.min <= value] holds. *)
Definition ValidationDescriptor__set__ (self : ValidationDescriptor) (instance : value)
    (value : value) : M unit :=
  lower ← compare Py_LE (min self) value;
  in_range ← (if lower : bool then compare Py_LE value (max self) else mret false);
  if negb in_range then
    v ← format value; lo ← format (min self); hi ← format (max self);
    raise (ValueError (v +:+ " must be between " +:+ lo +:+ " and " +:+ hi))
  else
    '(l, c, d) ← instance_dict instance;
    n ← self_name self;
    store l (OInst c (<[n := value]> d)).

(** *** Attribute access on instances *)

(** What the class statement of a class left in the class, by name: for
    [MyClass] the two descriptors, each told its name by [__set_name__];
    for a dataclass the default value of a field that has one. *)
Inductive class_attribute :=
| DataDescriptor (d : ValidationDescriptor)
| ClassValue (v : value).

Definition field_default_attribute (name : string) (f : field) : option class_attribute :=
  if bool_decide (f_name f = name) then
    match f_default f with
    | DefaultValue v => Some (ClassValue v)
    | _ => None
    end
  else None.

Definition type_lookup (c : class) (name : string) : option class_attribute :=
  match c with
  | MyClass =>
      (* value1 = ValidationDescriptor(min_=0, max_=100)
         value2 = ValidationDescriptor(min_=0, max_=100) *)
      if bool_decide (name = "value1") || bool_decide (name = "value2") then
        Some (DataDescriptor
                (ValidationDescriptor__set_name__
                   (ValidationDescriptor__init__ (Some (VInt 0)) (Some (VInt 100))) MyClass name))
      else None
  | _ =>
      match dataclass_of c with
      | Some dc => head (omap (field_default_attribute name) (dc_fields dc))
      | None => None
      end
  end.

(** Names of the form [__x__] reach the methods and the special attributes
    of the object; attribute access to them is outside the fragment. *)
Definition is_special (name : string) : bool :=
  String.prefix "__" name.

(** [obj.name]: a data descriptor of the class first, then the instance
    [__dict__], then a plain class attribute. *)
Definition getattr (obj : value) (name : string) : M value :=
  match obj with
  | VRef l =>
      o ← deref l;
      match o with
      | OInst c d =>
          if is_special name then stuck else
          match type_lookup c name with
          | Some (DataDescriptor descr) => ValidationDescriptor__get__ descr obj c
          | other =>
              match d !! name, other with
              | Some v, _ => mret v
              | None, Some (ClassValue v) => mret v
              | None, _ =>
                  raise (AttributeError ("'" +:+ class_name c +:+ "' object has no attribute '" +:+ name +:+ "'"))
              end
          end
      | _ => stuck
      end
  | _ => stuck
  end.

(** [object.__setattr__(obj, name, value)]: a data descriptor of the class
    takes the assignment; otherwise it goes to the instance [__dict__]. *)
Definition object__setattr__ (obj : value) (name : string) (v : value) : M unit :=
  match obj with
  | VRef l =>
      o ← deref l;
      match o with
      | OInst c d =>
          if is_special name then stuck else
          match type_lookup c name with
          | Some (DataDescriptor descr) => ValidationDescriptor__set__ descr obj v
          | _ => store l (OInst c (<[name := v]> d))
          end
      | _ => stuck
      end
  | _ => stuck
  end.

(** [obj.name = value].  A frozen dataclass has a generated [__setattr__]
    that refuses; every other class of the notebooks inherits
    [object.__setattr__]. *)
Definition setattr (obj : value) (name : string) (v : value) : M unit :=
  match obj with
  | VRef l =>
      o ← deref l;
      match o with
      | OInst c d =>
          match dataclass_of c with
          | Some dc =>
              if dc_frozen dc
              then raise (FrozenInstanceError ("cannot assign to field " +:+ quoted name))
              else object__setattr__ obj name v
          | None => object__setattr__ obj name v
          end
      | _ => stuck
      end
  | _ => stuck
  end.

(** *** [class MyClass], the one with the two [ValidationDescriptor]s *)

(** [def __init__(self, value1, value2)] *)
Definition MyClass__init__ (self : value) (value1 value2 : value) : M unit :=
  setattr self "value1" value1;;
  setattr self "value2" value2.

(** [MyClass(value1, value2)] *)
Definition new_MyClass (value1 value2 : value) : M value :=
  self ← alloc (OInst MyClass ∅);
  MyClass__init__ self value1 value2;;
  mret self.

(** The usage cell: what the four [print]s show. *)
Definition cells : M (list value) :=
  obj ← new_MyClass (VInt 40) (VInt 65);
  p1 ← getattr obj "value1";
  p2 ← getattr obj "value2";
  setattr obj "int_value1" (VInt 50);;
  p3 ← getattr obj "value1";
  p4 ← getattr obj "value2";
  mret [p1; p2; p3; p4].

(** *** Definitions for the statements *)

(** The attributes of [MyClass] that a [ValidationDescriptor] manages. *)
Definition managed (attr : string) : Prop := attr = "value1" ∨ attr = "value2".

(** [try: obj.attr = v] / [except ValueError: pass], for each of [vs] in
    turn. *)
Fixpoint attempts (obj : value) (attr : string) (vs : list Z) : M unit :=
  match vs with
  | [] => mret tt
  | v :: vs' =>
      try_except (setattr obj attr (VInt v))
                 (λ e, match e with
                       | ValueError _ => mret tt
                       | _ => raise e
                       end);;
      attempts obj attr vs'
  end.

(** The last of [vs] that lies in [0, 100], if any. *)
Definition last_valid (vs : list Z) : option Z :=
  last (filter (λ v, 0 ≤ v ≤ 100)%Z vs).

(** The instance that [MyClass(40, 65)] makes in the empty heap. *)
Definition dict_40_65 : gmap string value :=
  <["value2" := VInt 65]> (<["value1" := VInt 40]> ∅).

Definition obj_40_65 : heap := {[ 0%nat := OInst MyClass dict_40_65 ]}.

(** An instance of [MyClass] on which nothing was set. *)
Definition obj_unset : heap := {[ 0%nat := OInst MyClass ∅ ]}.

End Descriptors.

(** ** DictionaryKeys.ipynb, the cells on a user defined class *)

Module UserDefinedKey.
Import Py DictionaryKeys Descriptors.

(** [class UserDefinedClass]: [def __init__(self, a: int, b: int)] *)
Definition UserDefinedClass__init__ (self : value) (a b : value) : M unit :=
  setattr self "a" a;;
  setattr self "b" b.

(** [UserDefinedClass(a, b)] *)
Definition new_UserDefinedClass (a b : value) : M value :=
  self ← alloc (OInst UserDefinedClass ∅);
  UserDefinedClass__init__ self a b;;
  mret self.

(** [class_inst = UserDefinedClass(1, 2); dictC = {class_inst: 1}] *)
Definition cell_dictC : M (value * value) :=
  class_inst ← new_UserDefinedClass (VInt 1) (VInt 2);
  dictC ← dict_display class_inst (VInt 1);
  mret (class_inst, dictC).

(** [class_inst.a = 10; dictC[class_inst]] *)
Definition cell_mutate_lookup (class_inst dictC : value) : M value :=
  setattr class_inst "a" (VInt 10);;
  dict_getitem dictC class_inst.

End UserDefinedKey.

(** ** Dataclasses.ipynb *)

Module Dataclasses.
Import Py Decl Compare Descriptors.

(** *** The generated [__init__] *)

Definition has_default (f : field) : bool :=
  match f_default f with
  | MISSING => false
  | _ => true
  end.

(** The parameters after [self]: the fields with [init=True], in the
    order of declaration. *)
Definition init_params (dc : dataclass) : list field :=
  filter (λ f, f_init f = true) (dc_fields dc).

(** [__init__.__qualname__] *)
Definition qualname (c : class) : string := class_name c +:+ ".__init__".

Definition plural (n : nat) : string := if bool_decide (n = 1) then EmptyString else "s".

(** ['a'], ['a' and 'b'], ['a', 'b', and 'c'] *)
Fixpoint comma_separated (names : list string) : string :=
  match names with
  | [] => EmptyString
  | [n] => "and " +:+ quoted n
  | n :: rest => quoted n +:+ ", " +:+ comma_separated rest
  end.

Definition format_missing (names : list string) : string :=
  match names with
  | [a] => quoted a
  | [a; b] => quoted a +:+ " and " +:+ quoted b
  | _ => comma_separated names
  end.

Definition too_many_positional (c : class) (params : list field) (given : nat) : exn :=
  let argcount := S (length params) in
  let defcount := length (filter (λ f, has_default f = true) params) in
  let sig :=
    if bool_decide (defcount = 0) then pretty argcount +:+ " positional argument" +:+ plural argcount
    else "from " +:+ pretty (argcount - defcount) +:+ " to " +:+ pretty argcount +:+ " positional arguments" in
  TypeError (qualname c +:+ "() takes " +:+ sig +:+ " but " +:+ pretty (S given) +:+ " "
             +:+ "were" +:+ " given").

Definition missing_arguments (c : class) (names : list string) : exn :=
  TypeError (qualname c +:+ "() missing " +:+ pretty (length names) +:+ " required positional argument"
             +:+ plural (length names) +:+ ": " +:+ format_missing names).

(** The position of the parameter called [name]. *)
Definition param_index (params : list field) (name : string) : option nat :=
  fst <$> list_find (λ f, f_name f = name) params.

(** Keyword arguments, in the order given, over the slots the positional
    arguments filled. *)
Fixpoint bind_keywords (c : class) (params : list field) (kwargs : list (string * value))
    (slots : list (option value)) : M (list (option value)) :=
  match kwargs with
  | [] => mret slots
  | (name, v) :: kwargs' =>
      match param_index params name with
      | None =>
          raise (TypeError (qualname c +:+ "() got an unexpected keyword argument " +:+ quoted name))
      | Some i =>
          match slots !! i with
          | Some None => bind_keywords c params kwargs' (<[i := Some v]> slots)
          | _ =>
              raise (TypeError (qualname c +:+ "() got multiple values for argument " +:+ quoted name))
          end
      end
  end.

(** Binding a call [C(args, kwargs)] to the parameters: positional
    arguments first, then the keywords, then the check for too many
    positional arguments, then the one for parameters without a default
    that got no argument.  A slot left [None] takes its default. *)
Definition bind_arguments (c : class) (params : list field) (args : list value)
    (kwargs : list (string * value)) : M (list (option value)) :=
  let n := length params in
  let slots := (Some <$> take n args) ++ replicate (n - length args) None in
  slots ← bind_keywords c params kwargs slots;
  if bool_decide (n < length args) then raise (too_many_positional c params (length args))
  else
    let missing :=
      omap (λ '(f, s), match s with
                       | None => if has_default f then None else Some (f_name f)
                       | Some _ => None
                       end) (zip params slots) in
    match missing with
    | [] => mret slots
    | _ => raise (missing_arguments c missing)
    end.

(** [object.__setattr__(self, name, value)] on an instance of a class
    without data descriptors, as the [__init__] of a frozen dataclass
    writes its fields, and [self.name = value] otherwise. *)
Definition init_assign (frozen : bool) (self : value) (name : string) (v : value) : M unit :=
  if frozen then object__setattr__ self name v else setattr self name v.

(** The body of the generated [__init__]: one statement per field, in the
    order of declaration.  A field with [default_factory=list] that got no
    argument calls the factory here, in the call. *)
Fixpoint init_body (frozen : bool) (self : value) (fields : list field)
    (slots : list (option value)) : M unit :=
  match fields with
  | [] => mret tt
  | f :: fields' =>
      if f_init f then
        match slots with
        | slot :: slots' =>
            v ← match slot, f_default f with
                | Some v, _ => mret v
                | None, DefaultValue v => mret v
                | None, DefaultFactory_list => new_list []
                | None, MISSING => stuck
                end;
            init_assign frozen self (f_name f) v;;
            init_body frozen self fields' slots'
        | [] => stuck
        end
      else
        match f_default f with
        | DefaultFactory_list =>
            v ← new_list [];
            init_assign frozen self (f_name f) v;;
            init_body frozen self fields' slots
        | _ => init_body frozen self fields' slots
        end
  end.

(** *** [class PersonPostInit]: [def __post_init__(self)] *)
Definition PersonPostInit__post_init__ (self : value) : M unit :=
  age ← getattr self "age";
  negative ← compare Py_LT age (VInt 0);
  if negative : bool then
    age ← getattr self "age";
    shown ← format age;
    raise (ValueError ("Age " +:+ shown +:+ " is not valid"))
  else
    age ← getattr self "age";
    is_adult ← compare Py_GE age (VInt 18);
    setattr self "is_adult" (VBool is_adult).

(** The classes that define [__post_init__]. *)
Definition post_init_of (c : class) : option (value → M unit) :=
  match c with
  | PersonPostInit => Some PersonPostInit__post_init__
  | _ => None
  end.

(** [C(args, kwargs)] for a dataclass [C]. *)
Definition new (c : class) (args : list value) (kwargs : list (string * value)) : M value :=
  match dataclass_of c with
  | None => stuck
  | Some dc =>
      self ← alloc (OInst c ∅);
      slots ← bind_arguments c (init_params dc) args kwargs;
      init_body (dc_frozen dc) self (dc_fields dc) slots;;
      match post_init_of c with
      | Some post_init => post_init self
      | None => mret tt
      end;;
      mret self
  end.

(** *** The hand-written [class Person] *)

(** [def __init__(self, first_name, last_name, age)] *)
Definition Person__init__ (self : value) (first_name last_name age : value) : M unit :=
  setattr self "first_name" first_name;;
  setattr self "last_name" last_name;;
  setattr self "age" age.

(** [Person(first_name, last_name, age)] *)
Definition new_Person (first_name last_name age : value) : M value :=
  self ← alloc (OInst Person ∅);
  Person__init__ self first_name last_name age;;
  mret self.

(** *** The cells *)

(** [personA = Person(...); personB = Person(...); personA == personB] *)
Definition cell_Person_eq (first_name last_name age : value) : M bool :=
  personA ← new_Person first_name last_name age;
  personB ← new_Person first_name last_name age;
  compare Py_EQ personA personB.

(** [dc_personA = DcPerson(...); dc_personB = DcPerson(...);
    dc_personA == dc_personB] *)
Definition cell_DcPerson_eq (first_name last_name age : value) : M bool :=
  dc_personA ← new DcPerson [first_name; last_name; age] [];
  dc_personB ← new DcPerson [first_name; last_name; age] [];
  compare Py_EQ dc_personA dc_personB.

(** [person10 = PersonDefaultFactory('Eve', 45, 'test@test.com');
    person10.list_values.append(1);
    person11 = PersonDefaultFactory('Dave', 40, 'dave@tests.com')],
    and what the [print] shows of the two [list_values]. *)
Definition cell_default_factory : M (obj * obj) :=
  person10 ← new PersonDefaultFactory [VStr "Eve"; VInt 45; VStr "test@test.com"] [];
  l ← getattr person10 "list_values";
  append l (VInt 1);;
  person11 ← new PersonDefaultFactory [VStr "Dave"; VInt 40; VStr "dave@tests.com"] [];
  l10 ← getattr person10 "list_values";
  l11 ← getattr person11 "list_values";
  p10 ← shown l10;
  p11 ← shown l11;
  mret (p10, p11).

(** [person12 = PersonOrder('Alice', 30); person13 = PersonOrder('Bob', 25);
    person12 > person13], for any two names and ages. *)
Definition cell_PersonOrder (name12 : string) (age12 : Z) (name13 : string) (age13 : Z) : M bool :=
  person12 ← new PersonOrder [VStr name12; VInt age12] [];
  person13 ← new PersonOrder [VStr name13; VInt age13] [];
  compare Py_GT person12 person13.

(** [person14 = PersonOrderAge('Alice', 30);
    person15 = PersonOrderAge('Bob', 25); person14 > person15], for any two
    names and ages. *)
Definition cell_PersonOrderAge (name14 : string) (age14 : Z) (name15 : string) (age15 : Z) : M bool :=
  person14 ← new PersonOrderAge [VStr name14; VInt age14] [];
  person15 ← new PersonOrderAge [VStr name15; VInt age15] [];
  compare Py_GT person14 person15.

(** [str(e)], for the exceptions that carry a message. *)
Definition exn_message (e : exn) : option string :=
  match e with
  | TypeError m | ValueError m | AttributeError m | FrozenInstanceError m => Some m
  | _ => None
  end.

(** [person16 = PersonFrozen('Alice', 30)] and then
    [try: person16.age = 40] / [except Exception as e: print(str(e))]:
    the instance, and what was printed if anything. *)
Definition cell_PersonFrozen : M (value * option string) :=
  person16 ← new PersonFrozen [VStr "Alice"; VInt 30] [];
  printed ← try_except (setattr person16 "age" (VInt 40);; mret None)
                       (λ e, mret (exn_message e));
  mret (person16, printed).

(** [try: person = PersonPostInit('Alice', 25, 'test', is_adult=False)] /
    [except TypeError as e: print(str(e))], then
    [person = PersonPostInit('Alice', 25, 'test')] and [person.is_adult]:
    what the two [print]s show. *)
Definition cell_PersonPostInit : M (option string * value) :=
  printed ← try_except
               (new PersonPostInit [VStr "Alice"; VInt 25; VStr "test"] [("is_adult", VBool false)];;
                mret None)
               (λ e, match e with
                     | TypeError m => mret (Some m)
                     | _ => raise e
                     end);
  person ← new PersonPostInit [VStr "Alice"; VInt 25; VStr "test"] [];
  is_adult ← getattr person "is_adult";
  mret (printed, is_adult).

(** *** Definitions for the statements *)

(** The class is a dataclass with [frozen=True]. *)
Definition frozen (c : class) : bool :=
  match dataclass_of c with
  | Some dc => dc_frozen dc
  | None => false
  end.

(** The class has a data descriptor under this name. *)
Definition has_descriptor (c : class) (attr : string) : bool :=
  match type_lookup c attr with
  | Some (DataDescriptor _) => true
  | _ => false
  end.

(** The instance [__dict__] after assigning the fields in order. *)
Definition assign_all (d : gmap string value) (fields : list field) (vs : list value)
    : gmap string value :=
  fold_left (λ d fv, <[f_name fv.1 := fv.2]> d) (zip fields vs) d.

(** A field that is a parameter of [__init__] and that [__init__] assigns
    to the instance [__dict__]. *)
Definition plain_field (c : class) (f : field) : Prop :=
  f_init f = true ∧ is_special (f_name f) = false ∧ has_descriptor c (f_name f) = false.

(** [(name1, age1) > (name2, age2)] on a str and an int: the names decide
    unless they are equal. *)
Definition name_then_age (name1 : string) (age1 : Z) (name2 : string) (age2 : Z) : bool :=
  match String.compare name1 name2 with
  | Lt => false
  | Gt => true
  | Eq => (age1 >? age2)%Z
  end.

(** [PersonFrozen('Alice', 30)] in the empty heap. *)
Definition dict_Alice_30 : gmap string value :=
  <["age" := VInt 30]> (<["name" := VStr "Alice"]> ∅).

Definition heap_Alice_30 : heap := {[ 0%nat := OInst PersonFrozen dict_Alice_30 ]}.

(** The [__dict__] that the generated [__init__] of [PersonPostInit]
    leaves for [__post_init__]. *)
Definition dict_PersonPostInit (name age email : value) : gmap string value :=
  <["email" := email]> (<["age" := age]> (<["name" := name]> ∅)).

(** A call with [name] and [age], and with or without [email]. *)
Definition call_args (name age : value) (email : option value) : list value :=
  match email with
  | Some e => [name; age; e]
  | None => [name; age]
  end.

(** The [__dict__] of a [PersonDefaultFactory] instance. *)
Definition dict_PersonDefaultFactory (name age email list_values : value) : gmap string value :=
  <["list_values" := list_values]> (<["email" := email]> (<["age" := age]> (<["name" := name]> ∅))).

(** Two instances made one after the other, and then
    [first.list_values.append(x)]: what the second instance's
    [list_values] shows before the call, and what the two show after it. *)
Definition append_to_first (args1 args2 : list value) (x : value) : M (obj * obj * obj) :=
  first ← new PersonDefaultFactory args1 [];
  second ← new PersonDefaultFactory args2 [];
  l2 ← getattr second "list_values";
  before ← shown l2;
  l1 ← getattr first "list_values";
  append l1 x;;
  l1 ← getattr first "list_values";
  l2 ← getattr second "list_values";
  after1 ← shown l1;
  after2 ← shown l2;
  mret (before, after1, after2).

(** The instance [__dict__] holds these values for the three fields of
    [DcPerson]. *)
Definition built_from (d : gmap string value) (first_name last_name age : value) : Prop :=
  d !! "first_name" = Some first_name
  ∧ d !! "last_name" = Some last_name
  ∧ d !! "age" = Some age.

Definition dict_Jas : gmap string value :=
  <["age" := VInt 35]> (<["last_name" := VStr "Gujral"]> (<["first_name" := VStr "Jas"]> ∅)).

(** Two [DcPerson] and two [Person] instances, all built from 'Jas',
    'Gujral' and 35. *)
Definition heap_Jas : heap :=
  <[3%nat := OInst Person dict_Jas]>
    (<[2%nat := OInst Person dict_Jas]>
       (<[1%nat := OInst DcPerson dict_Jas]> {[ 0%nat := OInst DcPerson dict_Jas ]})).

End Dataclasses.

(** ** Descriptors.ipynb, the cells on [MyDescriptor]

    The notebook has two class statements for the name [MyClass].  Up to
    the cell that defines [ValidationDescriptor], the name denotes the
    class of this module, whose one class attribute is a [MyDescriptor];
    its instances are [OInst MyClass] objects here, as those of the later
    class are in [Descriptors]. *)

Module MyDescriptorCells.
Import Py Compare Descriptors.

(** [class MyDescriptor].  The class has no [__init__] and its methods
    keep nothing in the descriptor, so the object that the class statement
    of [MyClass] makes is a constant.  The methods reach the instance
    through attribute access, which is passed to them here.  Each method
    begins with a [print] of a line that names [owner] or [instance]; what
    is written to the output is no part of the state here, and formatting
    the line raises nothing for the values of [Py.value]. *)
Inductive MyDescriptor := MyDescriptor_object.

(** [def __get__(self, instance, owner)]: [return instance._value] *)
Definition MyDescriptor__get__ (getattr : value → string → M value)
    (self : MyDescriptor) (instance : value) (owner : class) : M value :=
  getattr instance "_value".

(** [def __set__(self, instance, value)]: [instance._value = value] *)
Definition MyDescriptor__set__ (setattr : value → string → value → M unit)
    (self : MyDescriptor) (instance : value) (value : value) : M unit :=
  setattr instance "_value" value.

(** [def __delete__(self, instance)]: [del instance._value] *)
Definition MyDescriptor__delete__ (delattr : value → string → M unit)
    (self : MyDescriptor) (instance : value) : M unit :=
  delattr instance "_value".

(** [class MyClass]: [descriptor_attribute = MyDescriptor()] is what the
    class statement leaves in the class, besides [__init__]. *)
Definition type_lookup (name : string) : option MyDescriptor :=
  if bool_decide (name = "descriptor_attribute") then Some MyDescriptor_object else None.

Definition no_attribute (type name : string) : exn :=
  AttributeError ("'" +:+ type +:+ "' object has no attribute '" +:+ name +:+ "'").

(** None, bool, int and str have no attribute whose name starts with one
    underscore, and none can be set on them or deleted from them.  Their
    other attributes are outside the fragment. *)
Definition is_private (name : string) : bool :=
  String.prefix "_" name && negb (is_special name).

(** [obj.name].  A call of a method of the descriptor is one more frame,
    and the interpreter bounds their number. *)
Fixpoint getattr_at (depth : nat) (obj : value) (name : string) {struct depth} : M value :=
  match depth with
  | O => raise RecursionError
  | S depth =>
      match obj with
      | VRef l =>
          o ← deref l;
          match o with
          | OInst MyClass d =>
              if is_special name then stuck else
              match type_lookup name with
              | Some descr => MyDescriptor__get__ (getattr_at depth) descr obj MyClass
              | None =>
                  match d !! name with
                  | Some v => mret v
                  | None => raise (no_attribute "MyClass" name)
                  end
              end
          | _ => stuck
          end
      | _ =>
          if is_private name then t ← type_name obj; raise (no_attribute t name)
          else stuck
      end
  end.

(** [obj.name = v] *)
Fixpoint setattr_at (depth : nat) (obj : value) (name : string) (v : value) {struct depth} : M unit :=
  match depth with
  | O => raise RecursionError
  | S depth =>
      match obj with
      | VRef l =>
          o ← deref l;
          match o with
          | OInst MyClass d =>
              if is_special name then stuck else
              match type_lookup name with
              | Some descr => MyDescriptor__set__ (setattr_at depth) descr obj v
              | None => store l (OInst MyClass (<[name := v]> d))
              end
          | _ => stuck
          end
      | _ =>
          if is_private name then t ← type_name obj; raise (no_attribute t name)
          else stuck
      end
  end.

(** [del obj.name].  Deleting a name that the instance [__dict__] does
    not hold is an AttributeError whose message is the name alone. *)
Fixpoint delattr_at (depth : nat) (obj : value) (name : string) {struct depth} : M unit :=
  match depth with
  | O => raise RecursionError
  | S depth =>
      match obj with
      | VRef l =>
          o ← deref l;
          match o with
          | OInst MyClass d =>
              if is_special name then stuck else
              match type_lookup name with
              | Some descr => MyDescriptor__delete__ (delattr_at depth) descr obj
              | None =>
                  match d !! name with
                  | Some _ => store l (OInst MyClass (delete name d))
                  | None => raise (AttributeError name)
                  end
              end
          | _ => stuck
          end
      | _ =>
          if is_private name then t ← type_name obj; raise (no_attribute t name)
          else stuck
      end
  end.

Definition getattr (obj : value) (name : string) : M value := getattr_at recursion_limit obj name.
Definition setattr (obj : value) (name : string) (v : value) : M unit :=
  setattr_at recursion_limit obj name v.
Definition delattr (obj : value) (name : string) : M unit := delattr_at recursion_limit obj name.


(** [def __init__(self, initial_value): self._value = initial_value] *)
Definition MyClass__init__ (self : value) (initial_value : value) : M unit :=
  setattr self "_value" initial_value.

(** [MyClass(initial_value)] *)
Definition new_MyClass (initial_value : value) : M value :=
  self ← alloc (OInst MyClass ∅);
  MyClass__init__ self initial_value;;
  mret self.

(** The cell under "Example usage":
    [obj = MyClass(initial_value=42)], [print(obj.descriptor_attribute)],
    [obj.descriptor_attribute = 99], [del obj.descriptor_attribute]:
    the instance, and the value that the [print] of the cell shows. *)
Definition cells : M (value * value) :=
  obj ← new_MyClass (VInt 42);
  printed ← getattr obj "descriptor_attribute";
  setattr obj "descriptor_attribute" (VInt 99);;
  delattr obj "descriptor_attribute";;
  mret (obj, printed).

(** *** Definitions for the statements *)



End MyDescriptorCells.

(** ** Dataclasses.ipynb, the utility functions and the decorator's checks *)

Module DataclassUtilities.
Import Py Decl Compare Descriptors Dataclasses.

(** [type(obj)], when it is one of the classes of the notebooks. *)
Definition class_of (obj : value) : M (option class) :=
  match obj with
  | VRef l =>
      o ← deref l;
      mret (match o with
            | OInst c _ => Some c
            | _ => None
            end)
  | _ => mret None
  end.

(** [fields(obj)] for an instance [obj], with its class; None when the
    class is no dataclass. *)
Definition instance_fields (obj : value) : M (option (class * list field)) :=
  c ← class_of obj;
  mret (match c with
        | Some c =>
            match dataclass_of c with
            | Some dc => Some (c, dc_fields dc)
            | None => None
            end
        | None => None
        end).

(** [is_dataclass(obj)], for an [obj] that is not itself a class. *)
Definition is_dataclass (obj : value) : M bool :=
  fs ← instance_fields obj;
  mret (match fs with
        | Some _ => true
        | None => false
        end).

(** [_astuple_inner(obj, tuple)]: a dataclass instance becomes the tuple
    of its fields, a list or a tuple is rebuilt with the same type, and
    both recursively; [copy.deepcopy] of None, a bool, an int or a str is
    the object itself.  Dicts, and [copy.deepcopy] of an instance of a
    class that is no dataclass, are outside the fragment. *)
Fixpoint _astuple_inner (depth : nat) (obj : value) {struct depth} : M value :=
  match depth with
  | O => raise RecursionError
  | S depth =>
      match obj with
      | VRef l =>
          o ← deref l;
          match o with
          | OInst c _ =>
              match dataclass_of c with
              | Some dc =>
                  result ← mapM (λ f, v ← getattr obj (f_name f); _astuple_inner depth v)
                                (dc_fields dc);
                  new_tuple result
              | None => stuck
              end
          | OTuple items =>
              result ← mapM (_astuple_inner depth) items;
              new_tuple result
          | OList t items =>
              result ← mapM (_astuple_inner depth) items;
              alloc (OList t result)
          | ODict _ => stuck
          end
      | _ => mret obj
      end
  end.

(** [astuple(obj)] *)
Definition astuple (obj : value) : M value :=
  is_instance ← is_dataclass obj;
  if is_instance : bool then _astuple_inner recursion_limit obj
  else raise (TypeError "astuple() should be called on dataclass instances").

(** The loop of [replace] over the fields: a field with [init=False] may
    not be among the changes, and a parameter that is not among them is
    added at the end, with the value the instance has for it. *)
Fixpoint replace_changes (obj : value) (fields : list field) (changes : list (string * value))
    : M (list (string * value)) :=
  match fields with
  | [] => mret changes
  | f :: fields' =>
      if negb (f_init f) then
        if bool_decide (f_name f ∈ changes.*1) then
          raise (ValueError ("field " +:+ f_name f +:+ " is declared with init=False, "
                             +:+ "it cannot be specified with replace()"))
        else replace_changes obj fields' changes
      else if bool_decide (f_name f ∈ changes.*1) then replace_changes obj fields' changes
      else
        v ← getattr obj (f_name f);
        replace_changes obj fields' (changes ++ [(f_name f, v)])
  end.

(** [replace(obj, **changes)]: the changes are keyword arguments, each
    name once, in the order given.  The new object is made by a call of
    the class with keywords only. *)
Definition replace (obj : value) (changes : list (string * value)) : M value :=
  fs ← instance_fields obj;
  match fs with
  | None => raise (TypeError "replace() should be called on dataclass instances")
  | Some (c, fields) =>
      changes ← replace_changes obj fields changes;
      new c [] changes
  end.

(** *** What the decorator checks of a class statement *)

(** [type(default)] as a message shows it, when the default is an
    instance of list or dict.  (Sets are not modelled.) *)
Definition mutable_default (h : heap) (v : value) : option string :=
  match v with
  | VRef l =>
      match h !! l with
      | Some (OList builtin_list _) => Some "<class 'list'>"
      | Some (OList HashableList _) => Some "<class '__main__.HashableList'>"
      | Some (ODict _) => Some "<class 'dict'>"
      | _ => None
      end
  | _ => None
  end.

(** [_get_field]:
    [if f._field_type is _FIELD and isinstance(f.default, (list, dict, set)): raise ValueError(...)] *)
Definition _get_field (f : field) : M unit :=
  match f_default f with
  | DefaultValue v =>
      t ← lift (λ h, Ok (mutable_default h v));
      match t with
      | Some t =>
          raise (ValueError ("mutable default " +:+ t +:+ " for field " +:+ f_name f
                             +:+ " is not allowed: use default_factory"))
      | None => mret tt
      end
  | _ => mret tt
  end.

(** The check of the generated [__init__]: a parameter without a default
    may not follow a parameter that has one. *)
Fixpoint check_parameters (seen_default : bool) (fields : list field) : M unit :=
  match fields with
  | [] => mret tt
  | f :: fields' =>
      if f_init f then
        if has_default f then check_parameters true fields'
        else if seen_default then
          raise (TypeError ("non-default argument " +:+ quoted (f_name f)
                            +:+ " follows default argument"))
        else check_parameters seen_default fields'
      else check_parameters seen_default fields'
  end.

(** [_process_class], as far as it can refuse a declaration of the
    notebooks: every field first, then the parameters of [__init__]. *)
Definition _process_class (dc : dataclass) : M dataclass :=
  mapM _get_field (dc_fields dc);;
  check_parameters false (dc_fields dc);;
  mret dc.

(** The body of [class PersonMutableDefault]: [list_values: list = []]
    evaluates the display. *)
Definition class_PersonMutableDefault : M dataclass :=
  d ← new_list [];
  mret (Dataclass false false
          [plain "name";
           Field "age" MISSING true false true;                            (* field(repr=False) *)
           Field "email" (DefaultValue (VStr EmptyString)) true true true; (* field(default='') *)
           Field "list_values" (DefaultValue d) true true true]).          (* = [] *)

(** [try: @dataclass class PersonMutableDefault: ...] /
    [except ValueError as e: print(str(e))]: what was printed, if
    anything. *)
Definition cell_PersonMutableDefault : M (option string) :=
  try_except (cls ← class_PersonMutableDefault; _process_class cls;; mret None)
             (λ e, match e with
                   | ValueError m => mret (Some m)
                   | _ => raise e
                   end).

End DataclassUtilities.

(** ** Definitions for the statements on composed operations *)

Module Scenarios.
Import Py.

(** A list and a tuple that a caller holds: [[1]] and [(1,)]. *)
Definition heap_list_tuple : heap :=
  <[1%nat := OTuple [VInt 1]]> {[ 0%nat := OList builtin_list [VInt 1] ]}.

(** Beside [heap_listA_listB], a second [HashableList] of the same
    elements. *)
Definition heap_two_HashableLists : heap :=
  <[2%nat := OList HashableList (VInt <$> [1; 2; 3]%Z)]> DictionaryKeys.heap_listA_listB.

(** [inner = [3]] and [HashableList([1, 2, inner, 4])]. *)
Definition heap_nested_list : heap :=
  <[1%nat := OList HashableList [VInt 1; VInt 2; VRef 0%nat; VInt 4]]>
    {[ 0%nat := OList builtin_list [VInt 3] ]}.

(** [person = PersonDefaultFactory('Eve', 45, 'e')] after
    [person.list_values.append(1)]. *)
Definition heap_Eve : heap :=
  <[1%nat := OInst PersonDefaultFactory
               (Dataclasses.dict_PersonDefaultFactory (VStr "Eve") (VInt 45) (VStr "e")
                  (VRef 0%nat))]>
    {[ 0%nat := OList builtin_list [VInt 1] ]}.

End Scenarios.

(** ** Reasoning about computations *)

Section Run.
Import Py.

Lemma run_bind {A B} (m : M A) (k : A → M B) (h : heap) :
  (m ≫= k) h = match m h with
               | (Ok a, h') => k a h'
               | (Raise e, h') => (Raise e, h')
               | (Stuck, h') => (Stuck, h')
               end.
Proof. reflexivity. Qed.

Lemma run_ret {A} (a : A) (h : heap) : (mret a : M A) h = (Ok a, h).
Proof. reflexivity. Qed.

Lemma run_alloc (o : obj) (h : heap) :
  alloc o h = (Ok (VRef (fresh (dom h))), <[fresh (dom h) := o]> h).
Proof. reflexivity. Qed.

Lemma run_deref (l : loc) (o : obj) (h : heap) :
  h !! l = Some o → deref l h = (Ok o, h).
Proof. intros E. unfold deref. by rewrite E. Qed.

Lemma run_bind_ok {A B} (m : M A) (k : A → M B) (h h1 : heap) (a : A) (r : outcome B * heap) :
  m h = (Ok a, h1) → k a h1 = r → (m ≫= k) h = r.
Proof. intros Hm Hk. by rewrite run_bind, Hm. Qed.

Lemma run_lift {A} (f : heap → outcome A) (h : heap) (a : A) :
  f h = Ok a → lift f h = (Ok a, h).
Proof. intros E. unfold lift. by rewrite E. Qed.

Lemma recursion_limit_S : Compare.recursion_limit = S (pred Compare.recursion_limit).
Proof. reflexivity. Qed.

(** Comparing two ints is comparing the numbers. *)
Lemma compare_int (op : Compare.cmpop) (x y : Z) (h : heap) :
  Compare.compare op (VInt x) (VInt y) h = (Ok (Compare.of_comparison op (x ?= y)%Z), h).
Proof.
  apply run_lift. rewrite recursion_limit_S. reflexivity.
Qed.

Lemma of_comparison_le (x y : Z) : Compare.of_comparison Compare.Py_LE (x ?= y)%Z = (x <=? y)%Z.
Proof. unfold Z.leb. by destruct (x ?= y)%Z. Qed.

Lemma of_comparison_lt (x y : Z) : Compare.of_comparison Compare.Py_LT (x ?= y)%Z = (x <? y)%Z.
Proof. unfold Z.ltb. by destruct (x ?= y)%Z. Qed.

Lemma of_comparison_ge (x y : Z) : Compare.of_comparison Compare.Py_GE (x ?= y)%Z = (x >=? y)%Z.
Proof. unfold Z.geb. by destruct (x ?= y)%Z. Qed.

Lemma string_compare_refl (s : string) : String.compare s s = Eq.
Proof.
  pose proof (String.compare_antisym s s) as H.
  destruct (String.compare s s); simpl in H; congruence.
Qed.

Lemma richcompare_unfold (depth : nat) (h : heap) (op : Compare.cmpop) (a b : value) :
  Compare.richcompare (S depth) h op a b =
    let sequences :=
      Compare.compare_sequences op (Compare.richcompare depth h Compare.Py_EQ)
        (Compare.richcompare depth h op) in
    match Compare.operand_of h a, Compare.operand_of h b with
    | Compare.Dangling, _ | _, Compare.Dangling => Stuck
    | Compare.Number x, Compare.Number y => Ok (Compare.of_comparison op (Z.compare x y))
    | Compare.Text s, Compare.Text t => Ok (Compare.of_comparison op (String.compare s t))
    | Compare.TupleOf xs, Compare.TupleOf ys => sequences xs ys
    | Compare.ListOf xs, Compare.ListOf ys =>
        if negb (Nat.eqb (length xs) (length ys))
           && (match op with Compare.Py_EQ | Compare.Py_NE => true | _ => false end)
        then Ok (match op with Compare.Py_EQ => false | _ => true end)
        else sequences xs ys
    | Compare.DictObject, Compare.DictObject => Stuck
    | Compare.Instance la ca da, Compare.Instance lb cb db =>
        match Decl.dataclass_of ca with
        | Some dc =>
            if bool_decide (ca = cb)
               && (match op with Compare.Py_EQ | Compare.Py_NE => true | _ => Decl.dc_order dc end)
            then
              match Compare.compare_tuple ca dc da with
              | Ok xs =>
                  match Compare.compare_tuple cb dc db with
                  | Ok ys => sequences xs ys
                  | Raise e => Raise e
                  | Stuck => Stuck
                  end
              | Raise e => Raise e
              | Stuck => Stuck
              end
            else Compare.not_implemented h op a b
        | None => Compare.not_implemented h op a b
        end
    | _, _ => Compare.not_implemented h op a b
    end.
Proof. reflexivity. Qed.

(** [x is x or x == x] holds of every value. *)
Lemma identical_or_equal (depth : nat) (h : heap) (x : value) :
  (if Compare.is_ x x then Ok true else Compare.richcompare (S depth) h Compare.Py_EQ x x) = Ok true.
Proof.
  destruct x as [|b|n|s|l]; simpl.
  - reflexivity.
  - by rewrite Bool.eqb_reflx.
  - by rewrite Z.compare_refl.
  - by rewrite string_compare_refl.
  - by rewrite bool_decide_true.
Qed.

(** A sequence is equal to itself. *)
Lemma compare_sequences_same (depth : nat) (h : heap) (cmp : value → value → outcome bool)
    (xs : list value) :
  Compare.compare_sequences Compare.Py_EQ (Compare.richcompare (S depth) h Compare.Py_EQ) cmp xs xs
  = Ok true.
Proof.
  induction xs as [|x xs IH]; [reflexivity|].
  cbn [Compare.compare_sequences]. by rewrite identical_or_equal.
Qed.

Lemma shown_run (h : heap) (l : loc) (o : obj) :
  h !! l = Some o → shown (VRef l) h = (Ok o, h).
Proof. apply run_deref. Qed.

Lemma fresh_lookup (h : heap) : h !! fresh (dom h) = None.
Proof. apply not_elem_of_dom, is_fresh. Qed.

Lemma fresh_ne (h : heap) (l : loc) : is_Some (h !! l) → fresh (dom h) ≠ l.
Proof.
  intros Hl E. subst l. rewrite fresh_lookup in Hl. by destruct Hl.
Qed.

Lemma ne_fresh (h : heap) (l : loc) : is_Some (h !! l) → l ≠ fresh (dom h).
Proof. intros Hl E. by apply (fresh_ne h l). Qed.

End Run.

(** [heap_lookup] evaluates a lookup in a heap built by allocations and
    stores over an arbitrary heap. *)
Ltac heap_lookup :=
  repeat first
    [ rewrite lookup_insert_eq
    | rewrite lookup_insert_ne by heap_ne
    | rewrite fresh_lookup ];
  try reflexivity
with heap_ne :=
  first
    [ apply fresh_ne; eexists; heap_lookup
    | apply ne_fresh; eexists; heap_lookup
    | congruence ].

Module CallByAssignmentProofs.
Import Py CallByAssignment.

(** [y += rhs] on a list [y]: the same object comes back, extended. *)
Lemma iadd_list (h : heap) (ly lr : loc) (t t' : list_type) (items more : list value) :
  h !! ly = Some (OList t items) →
  h !! lr = Some (OList t' more) →
  iadd (VRef ly) (VRef lr) h = (Ok (VRef ly), <[ly := OList t (items ++ more)]> h).
Proof.
  intros Hy Hr. unfold iadd, iterate.
  rewrite run_bind, (run_deref _ _ _ Hy). cbv beta iota.
  rewrite run_bind, run_bind, (run_deref _ _ _ Hr). cbv beta iota.
  reflexivity.
Qed.

(** [y += rhs] on a tuple [y]: a new object, and the heap is only extended. *)
Lemma iadd_tuple (h : heap) (ly lr : loc) (items more : list value) :
  h !! ly = Some (OTuple items) →
  h !! lr = Some (OTuple more) →
  iadd (VRef ly) (VRef lr) h =
    (Ok (VRef (fresh (dom h))), <[fresh (dom h) := OTuple (items ++ more)]> h).
Proof.
  intros Hy Hr. unfold iadd.
  rewrite run_bind, (run_deref _ _ _ Hy). cbv beta iota.
  rewrite run_bind, run_bind, (run_deref _ _ _ Hr). cbv beta iota.
  reflexivity.
Qed.

(** A call of [func1] without [y]: the default object itself is extended
    and returned; every other object that existed is as it was. *)
Lemma func1_default (h : heap) (d : loc) (t : list_type) (items : list value) (x : value) :
  h !! d = Some (OList t items) →
  ∃ h', func1 (Function (VRef d)) x None h = (Ok (VRef d), h')
        ∧ h' !! d = Some (OList t (items ++ [x]))
        ∧ ∀ l o, l ≠ d → h !! l = Some o → h' !! l = Some o.
Proof.
  intros Hd. eexists. split; [|split].
  - unfold func1, bind_y, new_list. cbn [default y_default].
    rewrite run_bind, run_alloc. cbv beta iota.
    rewrite run_bind.
    erewrite iadd_list; [reflexivity | |].
    + rewrite lookup_insert_ne; [exact Hd|]. apply fresh_ne; eauto.
    + apply lookup_insert_eq.
  - apply lookup_insert_eq.
  - intros l o Hne Hl.
    rewrite lookup_insert_ne by congruence.
    rewrite lookup_insert_ne; [exact Hl|]. apply fresh_ne; eauto.
Qed.

(** A call of [func2] without [y]: the result is a new tuple, and every
    object that existed, the default among them, is as it was. *)
Lemma func2_default (h : heap) (d : loc) (items : list value) (x : value) :
  h !! d = Some (OTuple items) →
  ∃ r h', func2 (Function (VRef d)) x None h = (Ok (VRef r), h')
          ∧ h !! r = None
          ∧ h' !! r = Some (OTuple (items ++ [x]))
          ∧ ∀ l o, h !! l = Some o → h' !! l = Some o.
Proof.
  intros Hd. do 2 eexists. split; [|split; [|split]].
  - unfold func2, bind_y, new_tuple. cbn [default y_default].
    rewrite run_bind, run_alloc. cbv beta iota.
    rewrite run_bind.
    erewrite iadd_tuple; [reflexivity | |].
    + rewrite lookup_insert_ne; [exact Hd|]. apply fresh_ne; eauto.
    + apply lookup_insert_eq.
  - set (h1 := <[_ := _]> h).
    destruct (h !! fresh (dom h1)) eqn:E; [|done].
    exfalso. apply (fresh_ne h1 (fresh (dom h1))); [|done].
    subst h1. rewrite lookup_insert_ne; [eauto|].
    intros E'. rewrite <- E' in E. by rewrite fresh_lookup in E.
  - apply lookup_insert_eq.
  - intros l o Hl.
    set (h1 := <[_ := _]> h).
    assert (h1 !! l = Some o) as Hl1.
    { subst h1. rewrite lookup_insert_ne; [exact Hl|]. apply fresh_ne; eauto. }
    rewrite lookup_insert_ne; [exact Hl1|]. apply fresh_ne; eauto.
Qed.

Lemma def_func1_run (h : heap) :
  def_func1 h = (Ok (Function (VRef (fresh (dom h)))),
                 <[fresh (dom h) := OList builtin_list []]> h).
Proof. reflexivity. Qed.

Lemma def_func2_run (h : heap) :
  def_func2 h = (Ok (Function (VRef (fresh (dom h)))),
                 <[fresh (dom h) := OTuple []]> h).
Proof. reflexivity. Qed.

(** Any number of calls of [func1] without [y]: each result shows all the
    arguments so far. *)
Lemma func1_accumulates (xs : list Z) :
  ∀ (h : heap) (d : loc) (t : list_type) (items : list value),
    h !! d = Some (OList t items) →
    ∃ h', calls (func1 (Function (VRef d))) xs h = (Ok (accumulated t items xs), h')
          ∧ h' !! d = Some (OList t (items ++ (VInt <$> xs))).
Proof.
  induction xs as [|x xs IH]; intros h d t items Hd.
  - exists h. split; [reflexivity|]. by rewrite app_nil_r.
  - destruct (func1_default h d t items (VInt x) Hd) as (h1 & E1 & H1 & _).
    destruct (IH h1 d t (items ++ [VInt x]) H1) as (h2 & E2 & H2).
    exists h2. split.
    + cbn [calls accumulated].
      rewrite run_bind, E1. cbv beta iota.
      rewrite run_bind, (shown_run _ _ _ H1). cbv beta iota.
      rewrite run_bind, E2. reflexivity.
    + by rewrite fmap_cons, cons_middle, app_assoc.
Qed.

(** Any number of calls of [func2] without [y]: each result shows its own
    argument after the elements of the default, which stays as it was. *)
Lemma func2_independent (xs : list Z) :
  ∀ (h : heap) (d : loc) (items : list value),
    h !! d = Some (OTuple items) →
    ∃ h', calls (func2 (Function (VRef d))) xs h
          = (Ok ((λ x, OTuple (items ++ [VInt x])) <$> xs), h')
          ∧ h' !! d = Some (OTuple items).
Proof.
  induction xs as [|x xs IH]; intros h d items Hd.
  - exists h. split; [reflexivity|done].
  - destruct (func2_default h d items (VInt x) Hd) as (r & h1 & E1 & _ & H1 & F1).
    destruct (IH h1 d items (F1 _ _ Hd)) as (h2 & E2 & H2).
    exists h2. split; [|done].
    cbn [calls]. rewrite fmap_cons.
    rewrite run_bind, E1. cbv beta iota.
    rewrite run_bind, (shown_run _ _ _ H1). cbv beta iota.
    rewrite run_bind, E2. reflexivity.
Qed.

(** C1.  From any heap, running the cells of the notebook with arguments
    [a] and then [b] (1 and then 2 in the notebook) prints, in order:
    [[a]] from [func1(a)], [(a,)] from [func2(a)], [[a, b]] from
    [func1(b)], because the default list is one object shared by the
    calls, and [(b,)] from [func2(b)], because [+=] on the default tuple
    made a new tuple. *)
Theorem default_argument_shared_or_rebound (h : heap) (a b : Z) :
  ∃ h', cells a b h =
    (Ok [OList builtin_list [VInt a]; OTuple [VInt a];
         OList builtin_list [VInt a; VInt b]; OTuple [VInt b]], h').
Proof.
  unfold cells.
  rewrite run_bind, def_func1_run. cbv beta iota.
  set (d1 := fresh (dom h)). set (h1 := <[d1 := _]> h).
  rewrite run_bind, def_func2_run. cbv beta iota.
  set (d2 := fresh (dom h1)). set (h2 := <[d2 := _]> h1).
  assert (h2 !! d2 = Some (OTuple [])) as H2 by apply lookup_insert_eq.
  assert (h2 !! d1 = Some (OList builtin_list [])) as H1.
  { subst h2. rewrite lookup_insert_ne; [apply lookup_insert_eq|].
    apply fresh_ne. subst h1. rewrite lookup_insert_eq. eauto. }
  (* func1(a) *)
  destruct (func1_default h2 d1 _ _ (VInt a) H1) as (h3 & E3 & H3 & F3).
  rewrite run_bind, E3. cbv beta iota.
  rewrite run_bind, (shown_run _ _ _ H3). cbv beta iota.
  (* func2(a) *)
  assert (h3 !! d2 = Some (OTuple [])) as H3'.
  { apply F3; [|done]. subst d2. apply fresh_ne. subst h1. rewrite lookup_insert_eq. eauto. }
  destruct (func2_default h3 d2 _ (VInt a) H3') as (r4 & h4 & E4 & N4 & H4 & F4).
  rewrite run_bind, E4. cbv beta iota.
  rewrite run_bind, (shown_run _ _ _ H4). cbv beta iota.
  (* func1(b) *)
  destruct (func1_default h4 d1 _ _ (VInt b) (F4 _ _ H3)) as (h5 & E5 & H5 & F5).
  rewrite run_bind, E5. cbv beta iota.
  rewrite run_bind, (shown_run _ _ _ H5). cbv beta iota.
  (* func2(b) *)
  assert (h5 !! d2 = Some (OTuple [])) as H5'.
  { apply F5; [|by apply F4]. subst d2. apply fresh_ne. subst h1. rewrite lookup_insert_eq. eauto. }
  destruct (func2_default h5 d2 _ (VInt b) H5') as (r6 & h6 & E6 & N6 & H6 & F6).
  rewrite run_bind, E6. cbv beta iota.
  rewrite run_bind, (shown_run _ _ _ H6). cbv beta iota.
  eexists. reflexivity.
Qed.

End CallByAssignmentProofs.




Module DescriptorsProofs.
Import Py Decl Compare Descriptors.
Local Open Scope Z_scope.

(** The descriptor that the class statement of [MyClass] binds to a
    managed attribute: minimum 0, maximum 100, default 0, and the name of
    the attribute. *)
Lemma type_lookup_managed (attr : string) :
  managed attr →
  type_lookup MyClass attr =
    Some (DataDescriptor {| default_value := VInt 0; min := VInt 0; max := VInt 100;
                            name := Some attr |})
  ∧ is_special attr = false.
Proof. by intros [-> | ->]. Qed.

(** An assignment to a managed attribute is a call of [__set__]. *)
Lemma setattr_managed (h : heap) (l : loc) (d : gmap string value) (attr : string) (v : value) :
  h !! l = Some (OInst MyClass d) →
  managed attr →
  setattr (VRef l) attr v h =
    ValidationDescriptor__set__
      {| default_value := VInt 0; min := VInt 0; max := VInt 100; name := Some attr |}
      (VRef l) v h.
Proof.
  intros Hl [Hty Hsp]%type_lookup_managed.
  unfold setattr. rewrite run_bind, (run_deref _ _ _ Hl). cbn [dataclass_of].
  unfold object__setattr__. rewrite run_bind, (run_deref _ _ _ Hl). cbv beta iota.
  by rewrite Hsp, Hty.
Qed.

(** Reading a managed attribute is a call of [__get__], which reads the
    instance [__dict__] and falls back on the default. *)
Lemma getattr_managed (h : heap) (l : loc) (d : gmap string value) (attr : string) :
  h !! l = Some (OInst MyClass d) →
  managed attr →
  getattr (VRef l) attr h = (Ok (default (VInt 0) (d !! attr)), h).
Proof.
  intros Hl [Hty Hsp]%type_lookup_managed.
  unfold getattr. rewrite run_bind, (run_deref _ _ _ Hl). cbv beta iota.
  rewrite Hsp, Hty. unfold ValidationDescriptor__get__, instance_dict.
  rewrite !run_bind, (run_deref _ _ _ Hl). reflexivity.
Qed.

(** [__set__] with an int outside of [0, 100]: ValueError, and the heap is
    the one before the call. *)
Lemma set_out_of_range (h : heap) (l : loc) (attr : string) (v : Z) :
  v < 0 ∨ 100 < v →
  ValidationDescriptor__set__
    {| default_value := VInt 0; min := VInt 0; max := VInt 100; name := Some attr |}
    (VRef l) (VInt v) h
  = (Raise (ValueError (pretty v +:+ " must be between 0 and 100")), h).
Proof.
  intros Hv. unfold ValidationDescriptor__set__. cbn [min max].
  rewrite run_bind, compare_int, of_comparison_le. cbv beta iota.
  destruct (0 <=? v) eqn:Hlo.
  - rewrite run_bind, compare_int, of_comparison_le. cbv beta iota.
    destruct (v <=? 100) eqn:Hhi; [lia|]. reflexivity.
  - reflexivity.
Qed.

(** [__set__] with an int of [0, 100]: the value goes into the instance
    [__dict__] under the name of the attribute. *)
Lemma set_in_range (h : heap) (l : loc) (c : class) (d : gmap string value) (attr : string) (v : Z) :
  h !! l = Some (OInst c d) →
  0 ≤ v ≤ 100 →
  ValidationDescriptor__set__
    {| default_value := VInt 0; min := VInt 0; max := VInt 100; name := Some attr |}
    (VRef l) (VInt v) h
  = (Ok tt, <[l := OInst c (<[attr := VInt v]> d)]> h).
Proof.
  intros Hl Hv. unfold ValidationDescriptor__set__. cbn [min max].
  rewrite run_bind, compare_int, of_comparison_le. cbv beta iota.
  destruct (0 <=? v) eqn:Hlo; [|lia].
  rewrite run_bind, compare_int, of_comparison_le. cbv beta iota.
  destruct (v <=? 100) eqn:Hhi; [|lia]. cbn [negb].
  unfold instance_dict. rewrite !run_bind, (run_deref _ _ _ Hl). reflexivity.
Qed.

(** C8.  For every instance of [MyClass], every managed attribute
    ([value1] or [value2], each with minimum 0 and maximum 100) and every
    int [v]: the assignment [obj.attr = v] raises ValueError when [v] is
    outside of [0, 100]; when [v] is inside, it returns normally, the
    instance [__dict__] then maps the name of the attribute to [v] and is
    otherwise as before, and reading [obj.attr] gives [v]. *)
Theorem validation_descriptor_set (h : heap) (l : loc) (d : gmap string value)
    (attr : string) (v : Z) :
  h !! l = Some (OInst MyClass d) →
  managed attr →
  (v < 0 ∨ 100 < v →
     setattr (VRef l) attr (VInt v) h
     = (Raise (ValueError (pretty v +:+ " must be between 0 and 100")), h))
  ∧ (0 ≤ v ≤ 100 →
     ∃ h', setattr (VRef l) attr (VInt v) h = (Ok tt, h')
           ∧ h' !! l = Some (OInst MyClass (<[attr := VInt v]> d))
           ∧ getattr (VRef l) attr h' = (Ok (VInt v), h')).
Proof.
  intros Hl Hm. split.
  - intros Hv. rewrite (setattr_managed _ _ _ _ _ Hl Hm). by apply set_out_of_range.
  - intros Hv. eexists. split; [|split].
    + rewrite (setattr_managed _ _ _ _ _ Hl Hm). by apply set_in_range.
    + apply lookup_insert_eq.
    + erewrite getattr_managed; [|apply lookup_insert_eq|done].
      by rewrite lookup_insert_eq.
Qed.

Lemma validation_descriptor_set_witness :
  (setattr (VRef 0%nat) "value1" (VInt 101) obj_40_65
   = (Raise (ValueError (pretty 101 +:+ " must be between 0 and 100")), obj_40_65))
  ∧ (∃ h', setattr (VRef 0%nat) "value2" (VInt 100) obj_40_65 = (Ok tt, h')
           ∧ h' !! 0%nat = Some (OInst MyClass (<["value2" := VInt 100]> dict_40_65))
           ∧ getattr (VRef 0%nat) "value2" h' = (Ok (VInt 100), h')).
Proof.
  split.
  - apply (validation_descriptor_set obj_40_65 0%nat dict_40_65 "value1" 101);
      [reflexivity | left; reflexivity | right; lia].
  - apply (validation_descriptor_set obj_40_65 0%nat dict_40_65 "value2" 100);
      [reflexivity | right; reflexivity | lia].
Defined.

(** C9.  For every instance of [MyClass] and managed attribute: an
    assignment of an int outside of [0, 100] raises ValueError and leaves
    the heap, and so the instance [__dict__], exactly as it was; and
    reading the attribute gives what the [__dict__] holds under its name,
    or 0, the descriptor's [default_value], when it holds nothing there.
    So after a failed assignment the read gives the value stored before,
    and on an instance where no assignment succeeded it gives 0. *)
Theorem validation_descriptor_atomic_default (h : heap) (l : loc) (d : gmap string value)
    (attr : string) :
  h !! l = Some (OInst MyClass d) →
  managed attr →
  (∀ v : Z, v < 0 ∨ 100 < v →
     ∃ msg, setattr (VRef l) attr (VInt v) h = (Raise (ValueError msg), h))
  ∧ (∀ w, d !! attr = Some w → getattr (VRef l) attr h = (Ok w, h))
  ∧ (d !! attr = None → getattr (VRef l) attr h = (Ok (VInt 0), h)).
Proof.
  intros Hl Hm. split; [|split].
  - intros v Hv. eexists.
    rewrite (setattr_managed _ _ _ _ _ Hl Hm). by apply set_out_of_range.
  - intros w Hw. rewrite (getattr_managed _ _ _ _ Hl Hm). by rewrite Hw.
  - intros Hw. rewrite (getattr_managed _ _ _ _ Hl Hm). by rewrite Hw.
Qed.

Lemma validation_descriptor_atomic_default_witness :
  (∃ msg, setattr (VRef 0%nat) "value1" (VInt (-1)) obj_40_65 = (Raise (ValueError msg), obj_40_65))
  ∧ getattr (VRef 0%nat) "value1" obj_40_65 = (Ok (VInt 40), obj_40_65)
  ∧ getattr (VRef 0%nat) "value1" obj_unset = (Ok (VInt 0), obj_unset).
Proof.
  split; [|split].
  - apply (validation_descriptor_atomic_default obj_40_65 0%nat dict_40_65 "value1");
      [reflexivity | left; reflexivity | lia].
  - apply (validation_descriptor_atomic_default obj_40_65 0%nat dict_40_65 "value1");
      [reflexivity | left; reflexivity | reflexivity].
  - apply (validation_descriptor_atomic_default obj_unset 0%nat ∅ "value1");
      [reflexivity | left; reflexivity | reflexivity].
Defined.

Lemma last_cons {A} (x : A) (l : list A) :
  last (x :: l) = Some (default x (last l)).
Proof.
  revert x. induction l as [|a l IH]; intros x; [reflexivity|].
  change (last (x :: a :: l)) with (last (a :: l)). by rewrite IH.
Qed.

(** After any attempts to assign ints to a managed attribute, out of
    range ones caught, reading it gives the last one that was in range;
    when there was none, it gives what the [__dict__] held before, or 0. *)
Lemma attempts_then_get (attr : string) (vs : list Z) :
  managed attr →
  ∀ (h : heap) (l : loc) (d : gmap string value),
    h !! l = Some (OInst MyClass d) →
    ∃ h', attempts (VRef l) attr vs h = (Ok tt, h')
          ∧ getattr (VRef l) attr h'
            = (Ok (default (default (VInt 0) (d !! attr)) (VInt <$> last_valid vs)), h').
Proof.
  intros Hm. induction vs as [|v vs IH]; intros h l d Hl.
  - exists h. split; [reflexivity|]. by rewrite (getattr_managed _ _ _ _ Hl Hm).
  - cbn [attempts]. unfold last_valid. destruct (decide (0 ≤ v ≤ 100)) as [Hv|Hv].
    + rewrite filter_cons_True by done. rewrite last_cons. fold (last_valid vs).
      destruct (IH (<[l := OInst MyClass (<[attr := VInt v]> d)]> h) l (<[attr := VInt v]> d))
        as (h' & E & G); [apply lookup_insert_eq|].
      exists h'. split.
      * rewrite run_bind. unfold try_except.
        rewrite (setattr_managed _ _ _ _ _ Hl Hm), (set_in_range _ _ _ _ _ _ Hl Hv).
        exact E.
      * rewrite G, lookup_insert_eq. by destruct (last_valid vs).
    + rewrite filter_cons_False by done. fold (last_valid vs).
      destruct (IH h l d Hl) as (h' & E & G).
      exists h'. split; [|exact G].
      rewrite run_bind. unfold try_except.
      rewrite (setattr_managed _ _ _ _ _ Hl Hm), set_out_of_range by lia.
      rewrite run_ret. exact E.
Qed.

End DescriptorsProofs.

Module DataclassesProofs.
Import Py Decl Compare Descriptors Dataclasses.
Local Open Scope Z_scope.

(** *** Attribute access without descriptors *)

Lemma object_setattr_store (h : heap) (l : loc) (c : class) (d : gmap string value)
    (attr : string) (v : value) :
  h !! l = Some (OInst c d) →
  is_special attr = false →
  has_descriptor c attr = false →
  object__setattr__ (VRef l) attr v h = (Ok tt, <[l := OInst c (<[attr := v]> d)]> h).
Proof.
  intros Hl Hsp Hd. unfold object__setattr__.
  rewrite run_bind, (run_deref _ _ _ Hl). cbv beta iota. rewrite Hsp.
  unfold has_descriptor in Hd.
  destruct (type_lookup c attr) as [[?|?]|]; try discriminate; reflexivity.
Qed.

Lemma setattr_store (h : heap) (l : loc) (c : class) (d : gmap string value)
    (attr : string) (v : value) :
  h !! l = Some (OInst c d) →
  frozen c = false →
  is_special attr = false →
  has_descriptor c attr = false →
  setattr (VRef l) attr v h = (Ok tt, <[l := OInst c (<[attr := v]> d)]> h).
Proof.
  intros Hl Hf Hsp Hd. unfold setattr.
  rewrite run_bind, (run_deref _ _ _ Hl). cbv beta iota.
  unfold frozen in Hf.
  destruct (dataclass_of c) as [dc|]; [rewrite Hf|]; by apply object_setattr_store.
Qed.

Lemma getattr_dict (h : heap) (l : loc) (c : class) (d : gmap string value)
    (attr : string) (v : value) :
  h !! l = Some (OInst c d) →
  is_special attr = false →
  has_descriptor c attr = false →
  d !! attr = Some v →
  getattr (VRef l) attr h = (Ok v, h).
Proof.
  intros Hl Hsp Hd Hv. unfold getattr.
  rewrite run_bind, (run_deref _ _ _ Hl). cbv beta iota. rewrite Hsp.
  unfold has_descriptor in Hd.
  destruct (type_lookup c attr) as [[?|?]|]; try discriminate; by rewrite Hv.
Qed.

(** *** Construction *)

(** [init_assign] of a field of a class without descriptors. *)
Lemma init_assign_store (h : heap) (l : loc) (c : class) (d : gmap string value)
    (attr : string) (v : value) :
  h !! l = Some (OInst c d) →
  is_special attr = false →
  has_descriptor c attr = false →
  init_assign (frozen c) (VRef l) attr v h = (Ok tt, <[l := OInst c (<[attr := v]> d)]> h).
Proof.
  intros Hl Hsp Hd. unfold init_assign.
  destruct (frozen c) eqn:Hf.
  - by apply object_setattr_store.
  - by apply setattr_store.
Qed.

(** The statement of the generated [__init__] for a field that is a
    parameter and got an argument, on a class without descriptors. *)
Lemma init_body_supplied (c : class) (l : loc) (d : gmap string value) (f : field)
    (fields : list field) (v : value) (slots : list (option value)) (h : heap)
    (r : outcome unit * heap) :
  h !! l = Some (OInst c d) →
  f_init f = true →
  is_special (f_name f) = false →
  has_descriptor c (f_name f) = false →
  init_body (frozen c) (VRef l) fields slots (<[l := OInst c (<[f_name f := v]> d)]> h) = r →
  init_body (frozen c) (VRef l) (f :: fields) (Some v :: slots) h = r.
Proof.
  intros Hl Hi Hsp Hd Hr. cbn [init_body]. rewrite Hi.
  rewrite run_bind, run_ret. cbv beta iota.
  rewrite run_bind, (init_assign_store _ _ _ _ _ _ Hl Hsp Hd). exact Hr.
Qed.

Lemma init_body_all_supplied (c : class) (l : loc) (fields : list field) :
  Forall (plain_field c) fields →
  ∀ (vs : list value) (d : gmap string value) (h : heap),
    length vs = length fields →
    h !! l = Some (OInst c d) →
    init_body (frozen c) (VRef l) fields (Some <$> vs) h
    = (Ok tt, <[l := OInst c (assign_all d fields vs)]> h).
Proof.
  induction 1 as [|f fields (Hi & Hsp & Hd) _ IH]; intros vs d h Hlen Hl.
  - destruct vs; [|discriminate]. cbn. by rewrite (insert_id _ _ _ Hl).
  - destruct vs as [|v vs]; [discriminate|]. cbn [fmap list_fmap].
    eapply init_body_supplied; [exact Hl | exact Hi | exact Hsp | exact Hd |].
    rewrite (IH vs (<[f_name f := v]> d)); [| by injection Hlen | by rewrite lookup_insert_eq].
    by rewrite insert_insert_eq.
Qed.

Lemma no_missing (params : list field) (vs : list value) :
  omap (λ '(f, s), match s with
                   | None => if has_default f then None else Some (f_name f)
                   | Some _ => None
                   end) (zip params (Some <$> vs)) = [].
Proof.
  revert vs. induction params as [|f params IH]; intros [|v vs]; try reflexivity.
  cbn. apply IH.
Qed.

Lemma bind_arguments_positional (c : class) (params : list field) (vs : list value) (h : heap) :
  length vs = length params →
  bind_arguments c params vs [] h = (Ok (Some <$> vs), h).
Proof.
  intros Hlen. unfold bind_arguments.
  rewrite <- Hlen, firstn_all, Nat.sub_diag. cbn [replicate bind_keywords].
  rewrite app_nil_r, run_bind, run_ret. cbv beta iota.
  rewrite bool_decide_false by lia.
  by rewrite no_missing.
Qed.

(** [C(v1, ..., vn)] for a dataclass [C] of [n] fields, all of them
    parameters, without [__post_init__]: a new instance whose [__dict__]
    holds the arguments under the names of the fields. *)
Lemma new_plain (c : class) (dc : dataclass) (vs : list value) (h : heap) :
  dataclass_of c = Some dc →
  post_init_of c = None →
  Forall (plain_field c) (dc_fields dc) →
  length vs = length (dc_fields dc) →
  new c vs [] h =
    (Ok (VRef (fresh (dom h))),
     <[fresh (dom h) := OInst c (assign_all ∅ (dc_fields dc) vs)]> h).
Proof.
  intros Hdc Hpost Hplain Hlen. unfold new. rewrite Hdc, Hpost.
  rewrite run_bind, run_alloc. cbv beta iota.
  assert (init_params dc = dc_fields dc) as ->.
  { unfold init_params. clear Hlen Hdc. induction Hplain as [|f fs (Hi & _) _ IH]; [done|].
    rewrite filter_cons_True by done. by rewrite IH. }
  rewrite run_bind, bind_arguments_positional by done. cbv beta iota.
  assert (dc_frozen dc = frozen c) as -> by (unfold frozen; by rewrite Hdc).
  rewrite run_bind, (init_body_all_supplied c _ _ Hplain vs ∅) by (done || apply lookup_insert_eq).
  cbv beta iota. rewrite insert_insert_eq. reflexivity.
Qed.

Lemma plain_fields_DcPerson : Forall (plain_field DcPerson) [plain "first_name"; plain "last_name"; plain "age"].
Proof. repeat constructor. Qed.

Lemma new_DcPerson (h : heap) (a b c : value) :
  new DcPerson [a; b; c] [] h =
    (Ok (VRef (fresh (dom h))),
     <[fresh (dom h) :=
         OInst DcPerson (<["age" := c]> (<["last_name" := b]> (<["first_name" := a]> ∅)))]> h).
Proof.
  by rewrite (new_plain DcPerson _ [a; b; c] h eq_refl eq_refl plain_fields_DcPerson eq_refl).
Qed.

(** [Person(first_name, last_name, age)] of the hand-written class. *)
Lemma new_Person_run (h : heap) (a b c : value) :
  new_Person a b c h =
    (Ok (VRef (fresh (dom h))),
     <[fresh (dom h) :=
         OInst Person (<["age" := c]> (<["last_name" := b]> (<["first_name" := a]> ∅)))]> h).
Proof.
  unfold new_Person, Person__init__.
  rewrite run_bind, run_alloc. cbv beta iota.
  do 3 (rewrite ?run_bind; erewrite setattr_store; [|heap_lookup|reflexivity..]; cbv beta iota).
  by rewrite !insert_insert_eq.
Qed.

(** Two instances made one after the other are both in the heap. *)
Lemma two_allocations (h : heap) (o1 o2 : obj) :
  let l1 := fresh (dom h) in
  let h1 := <[l1 := o1]> h in
  let l2 := fresh (dom h1) in
  let h2 := <[l2 := o2]> h1 in
  h2 !! l1 = Some o1 ∧ h2 !! l2 = Some o2 ∧ l1 ≠ l2.
Proof.
  intros l1 h1 l2 h2.
  assert (l2 ≠ l1) as Hne by (apply fresh_ne; subst h1; rewrite lookup_insert_eq; eauto).
  subst h2. rewrite lookup_insert_eq, lookup_insert_ne by done.
  subst h1. by rewrite lookup_insert_eq.
Qed.

(** Reading the fields of a [DcPerson] for a comparison. *)
Lemma compare_tuple_DcPerson (dc : dataclass) (d : gmap string value) (a b c : value) :
  dataclass_of DcPerson = Some dc →
  built_from d a b c →
  compare_tuple DcPerson dc d = Ok [a; b; c].
Proof.
  intros [= <-] (Ha & Hb & Hc). unfold compare_tuple.
  replace (filter _ _) with [plain "first_name"; plain "last_name"; plain "age"]
    by (vm_compute; reflexivity).
  cbn [read_fields]. unfold read_field, plain. cbn [f_name]. by rewrite Ha, Hb, Hc.
Qed.

(** Two [DcPerson] instances with the same values in their fields are
    equal. *)
Lemma DcPerson_eq (h : heap) (l1 l2 : loc) (d1 d2 : gmap string value) (a b c : value) :
  h !! l1 = Some (OInst DcPerson d1) →
  h !! l2 = Some (OInst DcPerson d2) →
  built_from d1 a b c →
  built_from d2 a b c →
  compare Py_EQ (VRef l1) (VRef l2) h = (Ok true, h).
Proof.
  intros H1 H2 Hd1 Hd2. apply run_lift.
  rewrite recursion_limit_S, richcompare_unfold. cbn [operand_of]. rewrite H1, H2.
  cbn [dataclass_of]. rewrite bool_decide_true by done. cbn [andb].
  rewrite (compare_tuple_DcPerson _ _ a b c eq_refl Hd1).
  rewrite (compare_tuple_DcPerson _ _ a b c eq_refl Hd2).
  change (pred recursion_limit) with (S (pred (pred recursion_limit))).
  apply compare_sequences_same.
Qed.

(** Two [Person] instances are equal only when they are one object. *)
Lemma Person_eq (h : heap) (l1 l2 : loc) (d1 d2 : gmap string value) :
  h !! l1 = Some (OInst Person d1) →
  h !! l2 = Some (OInst Person d2) →
  compare Py_EQ (VRef l1) (VRef l2) h = (Ok (bool_decide (l1 = l2)), h).
Proof.
  intros H1 H2. apply run_lift.
  rewrite recursion_limit_S, richcompare_unfold. cbn [operand_of]. rewrite H1, H2.
  reflexivity.
Qed.

Lemma built_from_new (a b c : value) :
  built_from (<["age" := c]> (<["last_name" := b]> (<["first_name" := a]> ∅))) a b c.
Proof. repeat split. Qed.

(** C4.  In any heap: every two [DcPerson] instances whose fields hold
    the same three values compare equal, because the generated [__eq__]
    compares the fields; every two distinct [Person] instances of the
    hand-written class compare unequal whatever their fields hold,
    because [object.__eq__] compares identities.  So it is for the
    instances the cells of the notebook build, from 'Jas', 'Gujral' and
    35 or from any other three values: [dc_personA == dc_personB] is
    True and [personA == personB] is False. *)
Theorem dataclass_eq_by_fields_class_eq_by_identity (h : heap) :
  (∀ l1 l2 d1 d2 first_name last_name age,
     h !! l1 = Some (OInst DcPerson d1) →
     h !! l2 = Some (OInst DcPerson d2) →
     built_from d1 first_name last_name age →
     built_from d2 first_name last_name age →
     compare Py_EQ (VRef l1) (VRef l2) h = (Ok true, h))
  ∧ (∀ l1 l2 d1 d2,
     h !! l1 = Some (OInst Person d1) →
     h !! l2 = Some (OInst Person d2) →
     l1 ≠ l2 →
     compare Py_EQ (VRef l1) (VRef l2) h = (Ok false, h))
  ∧ (∀ first_name last_name age,
     ∃ h', cell_DcPerson_eq first_name last_name age h = (Ok true, h'))
  ∧ (∀ first_name last_name age,
     ∃ h', cell_Person_eq first_name last_name age h = (Ok false, h')).
Proof.
  split; [|split; [|split]].
  - intros l1 l2 d1 d2 a b c H1 H2 Hd1 Hd2. by apply (DcPerson_eq h l1 l2 d1 d2 a b c).
  - intros l1 l2 d1 d2 H1 H2 Hne.
    rewrite (Person_eq h l1 l2 d1 d2 H1 H2). by rewrite bool_decide_false.
  - intros a b c. unfold cell_DcPerson_eq.
    rewrite run_bind, new_DcPerson. cbv beta iota.
    rewrite run_bind, new_DcPerson. cbv beta iota.
    eexists.
    destruct (two_allocations h
                (OInst DcPerson (<["age" := c]> (<["last_name" := b]> (<["first_name" := a]> ∅))))
                (OInst DcPerson (<["age" := c]> (<["last_name" := b]> (<["first_name" := a]> ∅)))))
      as (H1 & H2 & _).
    apply (DcPerson_eq _ _ _ _ _ a b c H1 H2); apply built_from_new.
  - intros a b c. unfold cell_Person_eq.
    rewrite run_bind, new_Person_run. cbv beta iota.
    rewrite run_bind, new_Person_run. cbv beta iota.
    eexists.
    destruct (two_allocations h
                (OInst Person (<["age" := c]> (<["last_name" := b]> (<["first_name" := a]> ∅))))
                (OInst Person (<["age" := c]> (<["last_name" := b]> (<["first_name" := a]> ∅)))))
      as (H1 & H2 & Hne).
    rewrite (Person_eq _ _ _ _ _ H1 H2). by rewrite bool_decide_false.
Qed.

Lemma dataclass_eq_by_fields_class_eq_by_identity_witness :
  compare Py_EQ (VRef 0%nat) (VRef 1%nat) heap_Jas = (Ok true, heap_Jas)
  ∧ compare Py_EQ (VRef 2%nat) (VRef 3%nat) heap_Jas = (Ok false, heap_Jas).
Proof.
  split.
  - apply (proj1 (dataclass_eq_by_fields_class_eq_by_identity heap_Jas)
             0%nat 1%nat dict_Jas dict_Jas (VStr "Jas") (VStr "Gujral") (VInt 35));
      [reflexivity | reflexivity | repeat split | repeat split].
  - apply (proj1 (proj2 (dataclass_eq_by_fields_class_eq_by_identity heap_Jas))
             2%nat 3%nat dict_Jas dict_Jas);
      [reflexivity | reflexivity | lia].
Defined.

(** *** Ordering *)

Lemma plain_fields_PersonOrder : Forall (plain_field PersonOrder) [plain "name"; plain "age"].
Proof. repeat constructor. Qed.

Lemma plain_fields_PersonOrderAge :
  Forall (plain_field PersonOrderAge) [Field "name" MISSING true true false; plain "age"].
Proof. repeat constructor. Qed.

Lemma new_PersonOrder (h : heap) (a b : value) :
  new PersonOrder [a; b] [] h =
    (Ok (VRef (fresh (dom h))),
     <[fresh (dom h) := OInst PersonOrder (<["age" := b]> (<["name" := a]> ∅))]> h).
Proof.
  by rewrite (new_plain PersonOrder _ [a; b] h eq_refl eq_refl plain_fields_PersonOrder eq_refl).
Qed.

Lemma new_PersonOrderAge (h : heap) (a b : value) :
  new PersonOrderAge [a; b] [] h =
    (Ok (VRef (fresh (dom h))),
     <[fresh (dom h) := OInst PersonOrderAge (<["age" := b]> (<["name" := a]> ∅))]> h).
Proof.
  by rewrite (new_plain PersonOrderAge _ [a; b] h eq_refl eq_refl plain_fields_PersonOrderAge eq_refl).
Qed.

Lemma richcompare_str (depth : nat) (h : heap) (op : cmpop) (s t : string) :
  richcompare (S depth) h op (VStr s) (VStr t) = Ok (of_comparison op (String.compare s t)).
Proof. reflexivity. Qed.

Lemma richcompare_int (depth : nat) (h : heap) (op : cmpop) (x y : Z) :
  richcompare (S depth) h op (VInt x) (VInt y) = Ok (of_comparison op (x ?= y)).
Proof. reflexivity. Qed.

Lemma gt_name_age (depth : nat) (h : heap) (name1 name2 : string) (age1 age2 : Z) :
  compare_sequences Py_GT (richcompare (S depth) h Py_EQ) (richcompare (S depth) h Py_GT)
    [VStr name1; VInt age1] [VStr name2; VInt age2]
  = Ok (name_then_age name1 age1 name2 age2).
Proof.
  cbn [compare_sequences is_]. rewrite !richcompare_str, !richcompare_int.
  unfold name_then_age.
  unfold Z.gtb.
  destruct (String.compare name1 name2); cbn [of_comparison]; try reflexivity.
  destruct (age1 ?= age2); reflexivity.
Qed.

Lemma gt_age (depth : nat) (h : heap) (age1 age2 : Z) :
  compare_sequences Py_GT (richcompare (S depth) h Py_EQ) (richcompare (S depth) h Py_GT)
    [VInt age1] [VInt age2]
  = Ok (age1 >? age2).
Proof.
  cbn [compare_sequences is_]. rewrite !richcompare_int.
  unfold Z.gtb. destruct (age1 ?= age2); reflexivity.
Qed.

Lemma compare_tuple_PersonOrder (dc : dataclass) (a b : value) :
  dataclass_of PersonOrder = Some dc →
  compare_tuple PersonOrder dc (<["age" := b]> (<["name" := a]> ∅)) = Ok [a; b].
Proof. intros [= <-]. vm_compute. reflexivity. Qed.

Lemma compare_tuple_PersonOrderAge (dc : dataclass) (a b : value) :
  dataclass_of PersonOrderAge = Some dc →
  compare_tuple PersonOrderAge dc (<["age" := b]> (<["name" := a]> ∅)) = Ok [b].
Proof. intros [= <-]. vm_compute. reflexivity. Qed.

Lemma cell_PersonOrder_run (h : heap) (name12 name13 : string) (age12 age13 : Z) :
  ∃ h', cell_PersonOrder name12 age12 name13 age13 h
        = (Ok (name_then_age name12 age12 name13 age13), h').
Proof.
  unfold cell_PersonOrder.
  rewrite run_bind, new_PersonOrder. cbv beta iota.
  rewrite run_bind, new_PersonOrder. cbv beta iota.
  eexists. apply run_lift. rewrite recursion_limit_S, richcompare_unfold.
  destruct (two_allocations h
              (OInst PersonOrder (<["age" := VInt age12]> (<["name" := VStr name12]> ∅)))
              (OInst PersonOrder (<["age" := VInt age13]> (<["name" := VStr name13]> ∅))))
    as (H1 & H2 & _).
  cbn [operand_of]. rewrite H1, H2. cbn [dataclass_of dc_order].
  rewrite bool_decide_true by done. cbn [andb].
  rewrite !(compare_tuple_PersonOrder _ _ _ eq_refl).
  apply gt_name_age.
Qed.

Lemma cell_PersonOrderAge_run (h : heap) (name14 name15 : string) (age14 age15 : Z) :
  ∃ h', cell_PersonOrderAge name14 age14 name15 age15 h = (Ok (age14 >? age15), h').
Proof.
  unfold cell_PersonOrderAge.
  rewrite run_bind, new_PersonOrderAge. cbv beta iota.
  rewrite run_bind, new_PersonOrderAge. cbv beta iota.
  eexists. apply run_lift. rewrite recursion_limit_S, richcompare_unfold.
  destruct (two_allocations h
              (OInst PersonOrderAge (<["age" := VInt age14]> (<["name" := VStr name14]> ∅)))
              (OInst PersonOrderAge (<["age" := VInt age15]> (<["name" := VStr name15]> ∅))))
    as (H1 & H2 & _).
  cbn [operand_of]. rewrite H1, H2. cbn [dataclass_of dc_order].
  rewrite bool_decide_true by done. cbn [andb].
  rewrite !(compare_tuple_PersonOrderAge _ _ _ eq_refl).
  apply gt_age.
Qed.

(** C5.  From any heap, for any names and ages: [>] between two
    [PersonOrder] instances is decided by the names, and by the ages only
    when the names are equal (the fields in the order of declaration);
    [>] between two [PersonOrderAge] instances is decided by the ages alone
    ([name] has [compare=False]).  So
    [PersonOrder('Alice', 30) > PersonOrder('Bob', 25)] is False and
    [PersonOrderAge('Alice', 30) > PersonOrderAge('Bob', 25)] is True. *)
Theorem order_by_compared_fields_in_declaration_order (h : heap) :
  (∀ name12 age12 name13 age13,
     ∃ h', cell_PersonOrder name12 age12 name13 age13 h
           = (Ok (match String.compare name12 name13 with
                  | Lt => false
                  | Gt => true
                  | Eq => age12 >? age13
                  end), h'))
  ∧ (∀ name14 age14 name15 age15,
     ∃ h', cell_PersonOrderAge name14 age14 name15 age15 h = (Ok (age14 >? age15), h'))
  ∧ (∃ h', cell_PersonOrder "Alice" 30 "Bob" 25 h = (Ok false, h'))
  ∧ (∃ h', cell_PersonOrderAge "Alice" 30 "Bob" 25 h = (Ok true, h')).
Proof.
  split; [|split; [|split]].
  - intros. apply cell_PersonOrder_run.
  - intros. apply cell_PersonOrderAge_run.
  - apply (cell_PersonOrder_run h "Alice" "Bob" 30 25).
  - apply (cell_PersonOrderAge_run h "Alice" "Bob" 30 25).
Qed.

(** *** Frozen instances *)

Lemma plain_fields_PersonFrozen : Forall (plain_field PersonFrozen) [plain "name"; plain "age"].
Proof. repeat constructor. Qed.

Lemma new_PersonFrozen (h : heap) (a b : value) :
  new PersonFrozen [a; b] [] h =
    (Ok (VRef (fresh (dom h))),
     <[fresh (dom h) := OInst PersonFrozen (<["age" := b]> (<["name" := a]> ∅))]> h).
Proof.
  by rewrite (new_plain PersonFrozen _ [a; b] h eq_refl eq_refl plain_fields_PersonFrozen eq_refl).
Qed.

Lemma setattr_frozen (h : heap) (l : loc) (d : gmap string value) (attr : string) (v : value) :
  h !! l = Some (OInst PersonFrozen d) →
  setattr (VRef l) attr v h
  = (Raise (FrozenInstanceError ("cannot assign to field '" +:+ attr +:+ "'")), h).
Proof.
  intros Hl. unfold setattr. rewrite run_bind, (run_deref _ _ _ Hl). reflexivity.
Qed.

(** C6.  For every [PersonFrozen] instance in any heap, an assignment to
    an attribute, a declared field or not, raises FrozenInstanceError
    with the message [cannot assign to field '<name>'] and the heap after
    it is the heap before it, so the fields of the instance are
    unchanged.  In particular the cell of the notebook prints
    [cannot assign to field 'age'], and afterwards [person16.name] is
    still 'Alice' and [person16.age] is still 30. *)
Theorem frozen_dataclass_refuses_assignment (h : heap) :
  (∀ l d attr v,
     h !! l = Some (OInst PersonFrozen d) →
     setattr (VRef l) attr v h
     = (Raise (FrozenInstanceError ("cannot assign to field '" +:+ attr +:+ "'")), h))
  ∧ (∃ person16 h',
       cell_PersonFrozen h = (Ok (person16, Some "cannot assign to field 'age'"), h')
       ∧ getattr person16 "name" h' = (Ok (VStr "Alice"), h')
       ∧ getattr person16 "age" h' = (Ok (VInt 30), h')).
Proof.
  split; [intros l d attr v Hl; exact (setattr_frozen _ _ _ _ _ Hl)|].
  do 2 eexists. split; [|split].
  - unfold cell_PersonFrozen.
    rewrite run_bind, new_PersonFrozen. cbv beta iota.
    rewrite run_bind. unfold try_except.
    rewrite run_bind.
    rewrite (setattr_frozen _ _ _ _ _ (lookup_insert_eq _ _ _)).
    cbv beta iota. reflexivity.
  - eapply getattr_dict; [apply lookup_insert_eq | reflexivity | reflexivity | reflexivity].
  - eapply getattr_dict; [apply lookup_insert_eq | reflexivity | reflexivity | reflexivity].
Qed.

Lemma frozen_dataclass_refuses_assignment_witness :
  setattr (VRef 0%nat) "age" (VInt 40) heap_Alice_30
  = (Raise (FrozenInstanceError "cannot assign to field 'age'"), heap_Alice_30).
Proof.
  apply (proj1 (frozen_dataclass_refuses_assignment heap_Alice_30) 0%nat dict_Alice_30 "age" (VInt 40)).
  reflexivity.
Defined.

(** *** Post-construction hook *)

Lemma bind_arguments_unexpected (c : class) (params : list field) (args : list value)
    (attr : string) (v : value) (kwargs : list (string * value)) (h : heap) :
  param_index params attr = None →
  bind_arguments c params args ((attr, v) :: kwargs) h
  = (Raise (TypeError (qualname c +:+ "() got an unexpected keyword argument '" +:+ attr +:+ "'")), h).
Proof.
  intros Hp. unfold bind_arguments. rewrite run_bind. cbn [bind_keywords]. by rewrite Hp.
Qed.

Lemma init_params_PersonPostInit (dc : dataclass) :
  dataclass_of PersonPostInit = Some dc →
  init_params dc = [plain "name"; plain "age"; Field "email" (DefaultValue (VStr EmptyString)) true true true].
Proof. intros [= <-]. vm_compute. reflexivity. Qed.

(** The statement of the generated [__init__] for a parameter that got no
    argument and has a default value. *)
Lemma init_body_defaulted (c : class) (l : loc) (d : gmap string value) (f : field)
    (fields : list field) (v : value) (slots : list (option value)) (h : heap)
    (r : outcome unit * heap) :
  h !! l = Some (OInst c d) →
  f_init f = true →
  f_default f = DefaultValue v →
  is_special (f_name f) = false →
  has_descriptor c (f_name f) = false →
  init_body (frozen c) (VRef l) fields slots (<[l := OInst c (<[f_name f := v]> d)]> h) = r →
  init_body (frozen c) (VRef l) (f :: fields) (None :: slots) h = r.
Proof.
  intros Hl Hi Hdef Hsp Hd Hr. cbn [init_body]. rewrite Hi, Hdef.
  rewrite run_bind, run_ret. cbv beta iota.
  rewrite run_bind, (init_assign_store _ _ _ _ _ _ Hl Hsp Hd). exact Hr.
Qed.

(** The generated [__init__] up to the call of [__post_init__]: [slot] is
    the argument for [email], if there is one. *)
Lemma init_body_PersonPostInit (h : heap) (l : loc) (name age : value) (slot : option value) :
  h !! l = Some (OInst PersonPostInit ∅) →
  init_body false (VRef l)
    [plain "name"; plain "age"; Field "email" (DefaultValue (VStr EmptyString)) true true true;
     Field "is_adult" MISSING false true true]
    [Some name; Some age; slot] h
  = (Ok tt, <[l := OInst PersonPostInit
                     (dict_PersonPostInit name age (default (VStr EmptyString) slot))]> h).
Proof.
  intros Hl. change false with (frozen PersonPostInit).
  eapply init_body_supplied; [exact Hl | reflexivity.. |].
  eapply init_body_supplied; [apply lookup_insert_eq | reflexivity.. |].
  rewrite insert_insert_eq.
  destruct slot as [email|].
  - eapply init_body_supplied; [apply lookup_insert_eq | reflexivity.. |].
    rewrite insert_insert_eq. reflexivity.
  - eapply init_body_defaulted; [apply lookup_insert_eq | reflexivity.. |].
    rewrite insert_insert_eq. reflexivity.
Qed.

Lemma post_init_negative (h : heap) (l : loc) (d : gmap string value) (age : Z) :
  h !! l = Some (OInst PersonPostInit d) →
  d !! "age" = Some (VInt age) →
  age < 0 →
  PersonPostInit__post_init__ (VRef l) h
  = (Raise (ValueError ("Age " +:+ pretty age +:+ " is not valid")), h).
Proof.
  intros Hl Hage Hneg. unfold PersonPostInit__post_init__.
  rewrite run_bind, (getattr_dict _ _ _ _ "age" _ Hl eq_refl eq_refl Hage). cbv beta iota.
  rewrite run_bind, compare_int, of_comparison_lt. cbv beta iota.
  destruct (age <? 0) eqn:E; [|lia].
  rewrite run_bind, (getattr_dict _ _ _ _ "age" _ Hl eq_refl eq_refl Hage). reflexivity.
Qed.

Lemma post_init_valid (h : heap) (l : loc) (d : gmap string value) (age : Z) :
  h !! l = Some (OInst PersonPostInit d) →
  d !! "age" = Some (VInt age) →
  0 ≤ age →
  PersonPostInit__post_init__ (VRef l) h
  = (Ok tt, <[l := OInst PersonPostInit (<["is_adult" := VBool (age >=? 18)]> d)]> h).
Proof.
  intros Hl Hage Hpos. unfold PersonPostInit__post_init__.
  rewrite run_bind, (getattr_dict _ _ _ _ "age" _ Hl eq_refl eq_refl Hage). cbv beta iota.
  rewrite run_bind, compare_int, of_comparison_lt. cbv beta iota.
  destruct (age <? 0) eqn:E; [lia|].
  rewrite run_bind, (getattr_dict _ _ _ _ "age" _ Hl eq_refl eq_refl Hage). cbv beta iota.
  rewrite run_bind, compare_int, of_comparison_ge. cbv beta iota.
  by apply setattr_store.
Qed.

Lemma dict_PersonPostInit_age (name email : value) (age : Z) :
  dict_PersonPostInit name (VInt age) email !! "age" = Some (VInt age).
Proof. vm_compute. reflexivity. Qed.

Lemma bind_arguments_PersonPostInit (name age : value) (email : option value) (h : heap) :
  bind_arguments PersonPostInit
    [plain "name"; plain "age"; Field "email" (DefaultValue (VStr EmptyString)) true true true]
    (call_args name age email) [] h
  = (Ok [Some name; Some age; email], h).
Proof. destruct email; reflexivity. Qed.

Lemma new_PersonPostInit_valid (h : heap) (name : value) (age : Z) (email : option value) :
  0 ≤ age →
  new PersonPostInit (call_args name (VInt age) email) [] h
  = (Ok (VRef (fresh (dom h))),
     <[fresh (dom h) :=
         OInst PersonPostInit
           (<["is_adult" := VBool (age >=? 18)]>
              (dict_PersonPostInit name (VInt age) (default (VStr EmptyString) email)))]> h).
Proof.
  intros Hage. unfold new. cbn [dataclass_of post_init_of dc_frozen dc_fields].
  rewrite run_bind, run_alloc. cbv beta iota.
  rewrite (init_params_PersonPostInit _ eq_refl).
  rewrite run_bind, bind_arguments_PersonPostInit. cbv beta iota.
  rewrite run_bind, init_body_PersonPostInit by apply lookup_insert_eq. cbv beta iota.
  rewrite insert_insert_eq.
  rewrite run_bind.
  erewrite post_init_valid; [| apply lookup_insert_eq | apply dict_PersonPostInit_age | done].
  cbv beta iota. by rewrite insert_insert_eq.
Qed.

Lemma new_PersonPostInit_negative (h : heap) (name : value) (age : Z) (email : option value) :
  age < 0 →
  ∃ h', new PersonPostInit (call_args name (VInt age) email) [] h
        = (Raise (ValueError ("Age " +:+ pretty age +:+ " is not valid")), h').
Proof.
  intros Hage. unfold new. cbn [dataclass_of post_init_of dc_frozen dc_fields].
  rewrite run_bind, run_alloc. cbv beta iota.
  rewrite (init_params_PersonPostInit _ eq_refl).
  rewrite run_bind, bind_arguments_PersonPostInit. cbv beta iota.
  rewrite run_bind, init_body_PersonPostInit by apply lookup_insert_eq. cbv beta iota.
  rewrite insert_insert_eq.
  rewrite run_bind.
  erewrite post_init_negative; [| apply lookup_insert_eq | apply dict_PersonPostInit_age | done].
  eexists. reflexivity.
Qed.

Lemma new_PersonPostInit_is_adult_keyword (h : heap) (args : list value) (v : value) :
  ∃ h', new PersonPostInit args [("is_adult", v)] h
        = (Raise (TypeError "PersonPostInit.__init__() got an unexpected keyword argument 'is_adult'"), h').
Proof.
  unfold new. cbn [dataclass_of].
  rewrite run_bind, run_alloc. cbv beta iota.
  rewrite (init_params_PersonPostInit _ eq_refl).
  rewrite run_bind, bind_arguments_unexpected by reflexivity.
  eexists. reflexivity.
Qed.

(** C7.  From any heap: a call of [PersonPostInit] with the keyword
    [is_adult], whatever the positional arguments, raises TypeError (the
    field has [init=False] and is no parameter); a call with a name, an
    int [age] that is not negative and with or without an email returns an
    instance whose [is_adult] is [age >= 18]; the same call with a negative
    [age] raises ValueError.  The cell of the notebook prints the TypeError
    message and then [True]. *)
Theorem post_init_hook (h : heap) :
  (∀ args v,
     ∃ h', new PersonPostInit args [("is_adult", v)] h
           = (Raise (TypeError "PersonPostInit.__init__() got an unexpected keyword argument 'is_adult'"), h'))
  ∧ (∀ name age email, 0 ≤ age →
     ∃ person h', new PersonPostInit (call_args name (VInt age) email) [] h = (Ok person, h')
                  ∧ getattr person "is_adult" h' = (Ok (VBool (age >=? 18)), h'))
  ∧ (∀ name age email, age < 0 →
     ∃ h', new PersonPostInit (call_args name (VInt age) email) [] h
           = (Raise (ValueError ("Age " +:+ pretty age +:+ " is not valid")), h'))
  ∧ (∃ h', cell_PersonPostInit h
           = (Ok (Some "PersonPostInit.__init__() got an unexpected keyword argument 'is_adult'",
                  VBool true), h')).
Proof.
  split; [|split; [|split]].
  - intros. apply new_PersonPostInit_is_adult_keyword.
  - intros name age email Hage. do 2 eexists. split.
    + by apply new_PersonPostInit_valid.
    + eapply getattr_dict; [apply lookup_insert_eq | reflexivity | reflexivity |].
      apply lookup_insert_eq.
  - intros name age email Hage. by apply new_PersonPostInit_negative.
  - unfold cell_PersonPostInit.
    destruct (new_PersonPostInit_is_adult_keyword h [VStr "Alice"; VInt 25; VStr "test"] (VBool false))
      as [h1 E1].
    rewrite run_bind. unfold try_except at 1. rewrite run_bind, E1. cbv beta iota.
    rewrite run_ret.
    rewrite run_bind.
    assert (0 ≤ 25) as Hage by lia.
    pose proof (new_PersonPostInit_valid h1 (VStr "Alice") 25 (Some (VStr "test")) Hage) as E2.
    cbn [call_args] in E2. rewrite E2.
    cbv beta iota.
    rewrite run_bind.
    erewrite getattr_dict; [| apply lookup_insert_eq | reflexivity | reflexivity | apply lookup_insert_eq].
    eexists. reflexivity.
Qed.

Lemma post_init_hook_witness :
  (∃ person h', new PersonPostInit [VStr "Alice"; VInt 25; VStr "test"] [] ∅ = (Ok person, h')
                ∧ getattr person "is_adult" h' = (Ok (VBool true), h'))
  ∧ (∃ h', new PersonPostInit [VStr "Alice"; VInt (-5)] [] ∅
           = (Raise (ValueError "Age -5 is not valid"), h')).
Proof.
  split.
  - apply (proj1 (proj2 (post_init_hook ∅)) (VStr "Alice") 25 (Some (VStr "test"))). lia.
  - apply (proj1 (proj2 (proj2 (post_init_hook ∅))) (VStr "Alice") (-5) None). lia.
Defined.

(** *** Default factory *)

Lemma append_run (h : heap) (l : loc) (t : list_type) (items : list value) (x : value) :
  h !! l = Some (OList t items) →
  append (VRef l) x h = (Ok tt, <[l := OList t (items ++ [x])]> h).
Proof.
  intros Hl. unfold append. by rewrite run_bind, (run_deref _ _ _ Hl).
Qed.

Lemma init_params_PersonDefaultFactory (dc : dataclass) :
  dataclass_of PersonDefaultFactory = Some dc →
  init_params dc = dc_fields dc.
Proof. intros [= <-]. vm_compute. reflexivity. Qed.

Lemma bind_arguments_PersonDefaultFactory (f1 f2 f3 : field) (a b c : value) (h : heap) :
  bind_arguments PersonDefaultFactory
    [f1; f2; f3; Field "list_values" DefaultFactory_list true true true] [a; b; c] [] h
  = (Ok [Some a; Some b; Some c; None], h).
Proof. reflexivity. Qed.

(** [PersonDefaultFactory(name, age, email)]: a new instance and a new
    empty list, which the instance has as [list_values]; what was in the
    heap is as it was. *)
Lemma new_PersonDefaultFactory (h : heap) (name age email : value) :
  ∃ (p lv : loc) (h' : heap),
    new PersonDefaultFactory [name; age; email] [] h = (Ok (VRef p), h')
    ∧ h !! p = None ∧ h !! lv = None ∧ p ≠ lv
    ∧ h' !! p = Some (OInst PersonDefaultFactory (dict_PersonDefaultFactory name age email (VRef lv)))
    ∧ h' !! lv = Some (OList builtin_list [])
    ∧ ∀ l o, h !! l = Some o → h' !! l = Some o.
Proof.
  set (p := fresh (dom h)).
  set (d3 := <["email" := email]> (<["age" := age]> (<["name" := name]> ∅)) : gmap string value).
  set (h3 := <[p := OInst PersonDefaultFactory d3]> h).
  set (lv := fresh (dom h3)).
  assert (h !! p = None) as Hp by apply fresh_lookup.
  assert (lv ≠ p) as Hne.
  { apply fresh_ne. subst h3. rewrite lookup_insert_eq. eauto. }
  assert (h !! lv = None) as Hlv.
  { pose proof (fresh_lookup h3) as H3. fold lv in H3. subst h3.
    by rewrite lookup_insert_ne in H3. }
  exists p, lv,
    (<[p := OInst PersonDefaultFactory (dict_PersonDefaultFactory name age email (VRef lv))]>
       (<[lv := OList builtin_list []]> h3)).
  split; [|split; [done|split; [done|split; [done|split; [|split]]]]].
  - unfold new. cbn [dataclass_of post_init_of dc_frozen].
    rewrite run_bind, run_alloc. cbv beta iota. fold p.
    rewrite (init_params_PersonDefaultFactory _ eq_refl). cbn [dc_fields].
    rewrite run_bind, bind_arguments_PersonDefaultFactory. cbv beta iota.
    change false with (frozen PersonDefaultFactory).
    eapply run_bind_ok; [|reflexivity].
    eapply init_body_supplied; [apply lookup_insert_eq | reflexivity.. |].
    rewrite insert_insert_eq.
    eapply init_body_supplied; [apply lookup_insert_eq | reflexivity.. |].
    rewrite insert_insert_eq.
    eapply init_body_supplied; [apply lookup_insert_eq | reflexivity.. |].
    rewrite insert_insert_eq. cbn [f_name plain]. fold d3. fold h3.
    cbn [init_body f_init f_default].
    rewrite run_bind. unfold new_list. rewrite run_alloc. cbv beta iota. fold lv.
    rewrite run_bind.
    erewrite init_assign_store;
      [| rewrite lookup_insert_ne by done; apply lookup_insert_eq | reflexivity | reflexivity].
    reflexivity.
  - apply lookup_insert_eq.
  - rewrite lookup_insert_ne by done. apply lookup_insert_eq.
  - intros l o Hl.
    assert (l ≠ p) by (intros ->; congruence).
    assert (l ≠ lv) by (intros ->; congruence).
    subst h3. by rewrite !lookup_insert_ne by done.
Qed.

Lemma getattr_list_values (h : heap) (p : loc) (name age email lv : value) :
  h !! p = Some (OInst PersonDefaultFactory (dict_PersonDefaultFactory name age email lv)) →
  getattr (VRef p) "list_values" h = (Ok lv, h).
Proof.
  intros Hp. eapply getattr_dict; [exact Hp | reflexivity | reflexivity |].
  apply lookup_insert_eq.
Qed.

(** C10.  From any heap: for any two [PersonDefaultFactory] instances made
    by separate calls, each with a name, an age and an email, appending
    [x] to the first one's [list_values] makes that list [[x]] and leaves
    the second one's the empty list it was; and the cell of the notebook
    shows [[1]] for [person10.list_values] and [[]] for
    [person11.list_values]. *)
Theorem default_factory_list_per_instance (h : heap) :
  (∀ name1 age1 email1 name2 age2 email2 x,
     ∃ h', append_to_first [name1; age1; email1] [name2; age2; email2] x h
           = (Ok (OList builtin_list [], OList builtin_list [x], OList builtin_list []), h'))
  ∧ (∃ h', cell_default_factory h
           = (Ok (OList builtin_list [VInt 1], OList builtin_list []), h')).
Proof.
  split.
  - intros name1 age1 email1 name2 age2 email2 x. unfold append_to_first.
    destruct (new_PersonDefaultFactory h name1 age1 email1)
      as (p1 & lv1 & h1 & E1 & _ & _ & Hne1 & Hp1 & Hlv1 & _).
    rewrite run_bind, E1. cbv beta iota.
    destruct (new_PersonDefaultFactory h1 name2 age2 email2)
      as (p2 & lv2 & h2 & E2 & Hp2 & Hlv2 & Hne2 & Hp2' & Hlv2' & F2).
    rewrite run_bind, E2. cbv beta iota.
    assert (lv1 ≠ lv2) as Hlv by (intros ->; congruence).
    assert (p1 ≠ lv2) as Hp1lv2 by (intros ->; congruence).
    assert (lv1 ≠ p2) as Hlv1p2 by (intros ->; congruence).
    rewrite run_bind, (getattr_list_values _ _ _ _ _ _ Hp2'). cbv beta iota.
    rewrite run_bind, (shown_run _ _ _ Hlv2'). cbv beta iota.
    rewrite run_bind, (getattr_list_values _ _ _ _ _ _ (F2 _ _ Hp1)). cbv beta iota.
    rewrite run_bind, (append_run _ _ _ _ _ (F2 _ _ Hlv1)). cbv beta iota.
    set (h3 := <[lv1 := _]> h2).
    assert (h3 !! p1 = h2 !! p1) as Hp13 by (subst h3; by rewrite lookup_insert_ne).
    assert (h3 !! p2 = h2 !! p2) as Hp23 by (subst h3; by rewrite lookup_insert_ne).
    assert (h3 !! lv2 = h2 !! lv2) as Hlv23 by (subst h3; by rewrite lookup_insert_ne).
    assert (h3 !! lv1 = Some (OList builtin_list [x])) as Hlv13
      by (subst h3; by rewrite lookup_insert_eq).
    rewrite (F2 _ _ Hp1) in Hp13. rewrite Hp2' in Hp23. rewrite Hlv2' in Hlv23.
    rewrite run_bind, (getattr_list_values _ _ _ _ _ _ Hp13). cbv beta iota.
    rewrite run_bind, (getattr_list_values _ _ _ _ _ _ Hp23). cbv beta iota.
    rewrite run_bind, (shown_run _ _ _ Hlv13). cbv beta iota.
    rewrite run_bind, (shown_run _ _ _ Hlv23). cbv beta iota.
    eexists. reflexivity.
  - unfold cell_default_factory.
    destruct (new_PersonDefaultFactory h (VStr "Eve") (VInt 45) (VStr "test@test.com"))
      as (p1 & lv1 & h1 & E1 & _ & _ & Hne1 & Hp1 & Hlv1 & _).
    rewrite run_bind, E1. cbv beta iota.
    rewrite run_bind, (getattr_list_values _ _ _ _ _ _ Hp1). cbv beta iota.
    rewrite run_bind, (append_run _ _ _ _ _ Hlv1). cbv beta iota.
    set (h2 := <[lv1 := _]> h1).
    assert (h2 !! p1 = h1 !! p1) as Hp12 by (subst h2; by rewrite lookup_insert_ne).
    assert (h2 !! lv1 = Some (OList builtin_list [VInt 1])) as Hlv12
      by (subst h2; by rewrite lookup_insert_eq).
    rewrite Hp1 in Hp12.
    destruct (new_PersonDefaultFactory h2 (VStr "Dave") (VInt 40) (VStr "dave@tests.com"))
      as (p2 & lv2 & h3 & E3 & _ & _ & _ & Hp3 & Hlv3 & F3).
    rewrite run_bind, E3. cbv beta iota.
    rewrite run_bind, (getattr_list_values _ _ _ _ _ _ (F3 _ _ Hp12)). cbv beta iota.
    rewrite run_bind, (getattr_list_values _ _ _ _ _ _ Hp3). cbv beta iota.
    rewrite run_bind, (shown_run _ _ _ (F3 _ _ Hlv12)). cbv beta iota.
    rewrite run_bind, (shown_run _ _ _ Hlv3). cbv beta iota.
    eexists. reflexivity.
Qed.

End DataclassesProofs.

Module DictionaryKeysProofs.
Import Py Decl Compare DictionaryKeys.
Local Open Scope Z_scope.

(** *** Hashing *)

Lemma recursion_limit_SSS : recursion_limit = S (S (S (pred (pred (pred recursion_limit))))).
Proof. reflexivity. Qed.

(** One step of [hash] on a reference. *)
Lemma hash_ref_at (depth : nat) (h : heap) (l : loc) (o : obj) :
  h !! l = Some o →
  hash (S depth) (VRef l) h =
    match o with
    | OTuple items => (mapM (hash depth) items ≫= λ lanes, mret (tuplehash lanes)) h
    | OList builtin_list _ => unhashable "list" h
    | OList HashableList _ => HashableList__hash__ (hash depth) (VRef l) h
    | ODict _ => unhashable "dict" h
    | OInst c d =>
        match dataclass_of c with
        | None => (mret (_Py_HashPointer (id_ l)) : M Z) h
        | Some dc =>
            if dc_frozen dc then
              match compare_tuple c dc d with
              | Ok items => (new_tuple items ≫= λ t, hash depth t) h
              | Raise e => raise e h
              | Stuck => stuck h
              end
            else unhashable (class_name c) h
        end
    end.
Proof.
  intros Hl. cbn [hash]. rewrite run_bind, (run_deref _ _ _ Hl). cbv beta iota.
  destruct o as [items|[] items|dk|c d]; try reflexivity.
  destruct (dataclass_of c) as [dc|]; [|reflexivity].
  destruct (dc_frozen dc); [|reflexivity].
  destruct (compare_tuple c dc d); reflexivity.
Qed.

Lemma hash_builtin_list (h : heap) (l : loc) (items : list value) :
  h !! l = Some (OList builtin_list items) →
  builtin_hash (VRef l) h = (Raise (TypeError "unhashable type: 'list'"), h).
Proof.
  intros Hl. unfold builtin_hash. rewrite recursion_limit_S.
  by rewrite (hash_ref_at _ _ _ _ Hl).
Qed.

Lemma hash_int_at (depth : nat) (n : Z) (h : heap) :
  hash (S depth) (VInt n) h = (Ok (hash_int n), h).
Proof. reflexivity. Qed.

Lemma mapM_hash_ints (depth : nat) (ns : list Z) (h : heap) :
  mapM (hash (S depth)) (VInt <$> ns) h = (Ok (hash_int <$> ns), h).
Proof.
  induction ns as [|n ns IH]; [reflexivity|].
  rewrite !fmap_cons. cbn [mapM].
  rewrite run_bind, hash_int_at. cbv beta iota.
  rewrite run_bind, IH. reflexivity.
Qed.

Lemma hash_HashableList_at (depth : nat) (h : heap) (l : loc) (ns : list Z) :
  h !! l = Some (OList HashableList (VInt <$> ns)) →
  hash (S (S (S depth))) (VRef l) h
  = (Ok (tuplehash (hash_int <$> ns)), <[fresh (dom h) := OTuple (VInt <$> ns)]> h).
Proof.
  intros Hl. rewrite (hash_ref_at _ _ _ _ Hl).
  unfold HashableList__hash__, tuple_, iterate, new_tuple.
  rewrite !run_bind, (run_deref _ _ _ Hl). cbv beta iota.
  rewrite !run_ret. cbv beta iota.
  rewrite !run_bind, (run_deref _ _ _ Hl). cbv beta iota.
  rewrite run_ret. cbv beta iota.
  rewrite run_alloc. cbv beta iota.
  rewrite (hash_ref_at _ _ _ (OTuple (VInt <$> ns))) by apply lookup_insert_eq.
  rewrite run_bind, mapM_hash_ints. reflexivity.
Qed.

(** The hash of a [HashableList] of ints is the hash of the tuple of its
    elements now; computing it leaves a tuple behind. *)
Lemma hash_HashableList (h : heap) (l : loc) (ns : list Z) :
  h !! l = Some (OList HashableList (VInt <$> ns)) →
  builtin_hash (VRef l) h
  = (Ok (tuplehash (hash_int <$> ns)), <[fresh (dom h) := OTuple (VInt <$> ns)]> h).
Proof.
  intros Hl. unfold builtin_hash. rewrite recursion_limit_SSS.
  by apply hash_HashableList_at.
Qed.

(** *** A dict with one key *)

Lemma first_slot_bound (hash : Z) : (Z.to_nat (first_slot hash) < 8)%nat.
Proof.
  unfold first_slot. change 7 with (Z.ones 3). rewrite Z.land_ones by lia.
  pose proof (Z.mod_pos_bound (u64 hash) (2 ^ 3) eq_refl). lia.
Qed.

(** One round of the probe loops. *)
Lemma lookdict_loop_S (fuel : nat) (h : heap) (dk : dict_keys) (key : value) (hash perturb i : Z) :
  lookdict_loop (S fuel) h dk key hash perturb i =
    match dk_indices dk !! Z.to_nat i with
    | None => Stuck
    | Some DKIX_EMPTY => Ok None
    | Some DKIX_DUMMY =>
        lookdict_loop fuel h dk key hash (next_perturb perturb)
          (next_slot (DK_MASK dk) (next_perturb perturb) i)
    | Some (DKIX ix) =>
        match dk_entries dk !! ix with
        | None => Stuck
        | Some ep =>
            if is_ (me_key ep) key then Ok (Some (ix, ep))
            else if me_hash ep =? hash then
              match richcompare recursion_limit h Py_EQ (me_key ep) key with
              | Ok true => Ok (Some (ix, ep))
              | Ok false =>
                  lookdict_loop fuel h dk key hash (next_perturb perturb)
                    (next_slot (DK_MASK dk) (next_perturb perturb) i)
              | Raise e => Raise e
              | Stuck => Stuck
              end
            else lookdict_loop fuel h dk key hash (next_perturb perturb)
                   (next_slot (DK_MASK dk) (next_perturb perturb) i)
        end
    end.
Proof. reflexivity. Qed.

Lemma find_empty_slot_loop_S (fuel : nat) (dk : dict_keys) (perturb i : Z) :
  find_empty_slot_loop (S fuel) dk perturb i =
    match dk_indices dk !! Z.to_nat i with
    | None => None
    | Some (DKIX _) =>
        find_empty_slot_loop fuel dk (next_perturb perturb)
          (next_slot (DK_MASK dk) (next_perturb perturb) i)
    | Some _ => Some i
    end.
Proof. reflexivity. Qed.

Lemma new_keys_limit : probe_limit new_keys = S 28 ∧ DK_MASK new_keys = 7.
Proof. split; reflexivity. Qed.

Lemma lookdict_new_keys (h : heap) (key : value) (hash : Z) :
  lookdict h new_keys key hash = Ok None.
Proof.
  unfold lookdict. destruct new_keys_limit as [-> ->]. rewrite lookdict_loop_S.
  fold (first_slot hash).
  replace (dk_indices new_keys) with (replicate 8 DKIX_EMPTY) by reflexivity.
  rewrite lookup_replicate_2 by apply first_slot_bound. reflexivity.
Qed.

Lemma find_empty_slot_new_keys (hash : Z) :
  find_empty_slot new_keys hash = Some (first_slot hash).
Proof.
  unfold find_empty_slot. destruct new_keys_limit as [-> ->]. rewrite find_empty_slot_loop_S.
  fold (first_slot hash).
  replace (dk_indices new_keys) with (replicate 8 DKIX_EMPTY) by reflexivity.
  rewrite lookup_replicate_2 by apply first_slot_bound. reflexivity.
Qed.

Lemma single_entry_limit (hash : Z) (key v : value) :
  probe_limit (single_entry hash key v) = S 28 ∧ DK_MASK (single_entry hash key v) = 7.
Proof.
  unfold probe_limit, DK_MASK, single_entry. cbn [dk_indices].
  rewrite length_insert, length_replicate. split; reflexivity.
Qed.

(** Looking up the very object that is the key: it is found whenever the
    probe for the hash it has now starts at the slot of its entry, also
    when that hash is not the stored one. *)
Lemma lookdict_found (h : heap) (stored now : Z) (l : loc) (v : value) :
  first_slot now = first_slot stored →
  lookdict h (single_entry stored (VRef l) v) (VRef l) now
  = Ok (Some (0%nat, DictEntry stored (VRef l) v)).
Proof.
  intros Hslot. unfold lookdict.
  destruct (single_entry_limit stored (VRef l) v) as [-> ->].
  rewrite lookdict_loop_S. fold (first_slot now). rewrite Hslot.
  cbn [single_entry dk_indices dk_entries].
  rewrite list_lookup_insert_eq by (rewrite length_replicate; apply first_slot_bound).
  cbn [lookup list_lookup me_key is_]. by rewrite bool_decide_true.
Qed.

(** When the probe starts at another slot, that slot is empty and the
    key is not found. *)
Lemma lookdict_missing (h : heap) (stored now : Z) (key key' v : value) :
  first_slot now ≠ first_slot stored →
  lookdict h (single_entry stored key v) key' now = Ok None.
Proof.
  intros Hslot. unfold lookdict.
  destruct (single_entry_limit stored key v) as [-> ->].
  rewrite lookdict_loop_S. fold (first_slot now).
  cbn [single_entry dk_indices dk_entries].
  pose proof (first_slot_bound now). pose proof (first_slot_bound stored).
  assert (0 ≤ first_slot now ∧ 0 ≤ first_slot stored) as [? ?].
  { unfold first_slot. split; apply Z.land_nonneg; lia. }
  rewrite list_lookup_insert_ne by lia.
  rewrite lookup_replicate_2 by done. reflexivity.
Qed.

(** [d[key] = v] on a new dict. *)
Lemma dict_setitem_new (h h' : heap) (dl : loc) (key v : value) (hash : Z) :
  h !! dl = Some (ODict new_keys) →
  builtin_hash key h = (Ok hash, h') →
  dict_setitem (VRef dl) key v h = (Ok tt, <[dl := ODict (single_entry hash key v)]> h').
Proof.
  intros Hdl Hhash. unfold dict_setitem, deref_dict.
  rewrite !run_bind, (run_deref _ _ _ Hdl). cbv beta iota.
  rewrite run_ret. cbv beta iota.
  rewrite run_bind, Hhash. cbv beta iota.
  rewrite run_bind, (run_lift _ _ _ (lookdict_new_keys h' key hash)). cbv beta iota.
  replace (dk_usable new_keys) with 5%nat by reflexivity.
  rewrite find_empty_slot_new_keys. reflexivity.
Qed.

Lemma dict_setitem_raise (h h' : heap) (dl : loc) (dk : dict_keys) (key v : value) (e : exn) :
  h !! dl = Some (ODict dk) →
  builtin_hash key h = (Raise e, h') →
  dict_setitem (VRef dl) key v h = (Raise e, h').
Proof.
  intros Hdl Hhash. unfold dict_setitem, deref_dict.
  rewrite !run_bind, (run_deref _ _ _ Hdl). cbv beta iota.
  rewrite run_ret. cbv beta iota.
  by rewrite run_bind, Hhash.
Qed.

(** [d[key]] *)
Lemma dict_getitem_run (h h' : heap) (dl : loc) (dk : dict_keys) (key : value) (hash : Z)
    (found : option (nat * dict_entry)) :
  h !! dl = Some (ODict dk) →
  builtin_hash key h = (Ok hash, h') →
  lookdict h' dk key hash = Ok found →
  dict_getitem (VRef dl) key h
  = (match found with
     | Some (_, ep) => Ok (me_value ep)
     | None => Raise (KeyError key)
     end, h').
Proof.
  intros Hdl Hhash Hfound. unfold dict_getitem, deref_dict.
  rewrite !run_bind, (run_deref _ _ _ Hdl). cbv beta iota.
  rewrite run_ret. cbv beta iota.
  rewrite run_bind, Hhash. cbv beta iota.
  rewrite run_bind, (run_lift _ _ _ Hfound). cbv beta iota.
  by destruct found as [[ix ep]|].
Qed.

(** *** The cells *)

(** A display with a builtin list as key. *)
Lemma dict_display_builtin_list (h : heap) (l : loc) (items : list value) (v : value) :
  h !! l = Some (OList builtin_list items) →
  ∃ h', dict_display (VRef l) v h = (Raise (TypeError "unhashable type: 'list'"), h').
Proof.
  intros Hl. unfold dict_display, new_dict.
  rewrite run_bind, run_alloc. cbv beta iota.
  set (dl := fresh (dom h)). set (h1 := <[dl := _]> h).
  assert (h1 !! l = Some (OList builtin_list items)) as Hl1.
  { subst h1. rewrite lookup_insert_ne; [done|]. apply fresh_ne; eauto. }
  rewrite run_bind.
  rewrite (dict_setitem_raise h1 _ dl new_keys _ _ _ (lookup_insert_eq _ _ _)
             (hash_builtin_list _ _ _ Hl1)).
  eexists. reflexivity.
Qed.

(** A display with a [HashableList] of ints as key. *)
Lemma dict_display_HashableList (h : heap) (b : loc) (ns : list Z) (v : value) :
  h !! b = Some (OList HashableList (VInt <$> ns)) →
  ∃ (dl : loc) (h' : heap),
    dict_display (VRef b) v h = (Ok (VRef dl), h')
    ∧ h' !! b = Some (OList HashableList (VInt <$> ns))
    ∧ h' !! dl = Some (ODict (single_entry (tuplehash (hash_int <$> ns)) (VRef b) v)).
Proof.
  intros Hb. unfold dict_display, new_dict.
  rewrite run_bind, run_alloc. cbv beta iota.
  set (dl := fresh (dom h)). set (h1 := <[dl := ODict new_keys]> h).
  assert (dl ≠ b) as Hne by (apply fresh_ne; eauto).
  assert (h1 !! b = Some (OList HashableList (VInt <$> ns))) as Hb1.
  { subst h1. by rewrite lookup_insert_ne. }
  assert (h1 !! dl = Some (ODict new_keys)) as Hdl1 by apply lookup_insert_eq.
  set (t := fresh (dom h1)).
  assert (t ≠ b) as Htb by (apply fresh_ne; eauto).
  rewrite run_bind.
  rewrite (dict_setitem_new _ _ _ _ _ _ Hdl1 (hash_HashableList _ _ _ Hb1)).
  cbv beta iota. fold t.
  exists dl, (<[dl := ODict (single_entry (tuplehash (hash_int <$> ns)) (VRef b) v)]>
                (<[t := OTuple (VInt <$> ns)]> h1)).
  split; [reflexivity|]. split.
  - by rewrite !lookup_insert_ne.
  - apply lookup_insert_eq.
Qed.

(** [d[key]] on a one-key dict, with the key object itself, a
    [HashableList] of ints: found when the hash it has now starts its
    probe at the slot of the entry, KeyError otherwise. *)
Lemma dict_getitem_key_object (h : heap) (dl b : loc) (stored : Z) (v : value) (ns : list Z) :
  h !! dl = Some (ODict (single_entry stored (VRef b) v)) →
  h !! b = Some (OList HashableList (VInt <$> ns)) →
  ∃ h', dict_getitem (VRef dl) (VRef b) h
        = (if bool_decide (first_slot (tuplehash (hash_int <$> ns)) = first_slot stored)
           then Ok v else Raise (KeyError (VRef b)), h').
Proof.
  intros Hdl Hb. eexists. case_bool_decide as Hslot.
  - rewrite (dict_getitem_run _ _ _ _ _ _ _ Hdl (hash_HashableList _ _ _ Hb)
               (lookdict_found _ _ _ _ _ Hslot)).
    reflexivity.
  - rewrite (dict_getitem_run _ _ _ _ _ _ _ Hdl (hash_HashableList _ _ _ Hb)
               (lookdict_missing _ _ _ _ _ _ Hslot)).
    reflexivity.
Qed.

Lemma new_HashableList_run (h : heap) (a : loc) (t : list_type) (items : list value) :
  h !! a = Some (OList t items) →
  new_HashableList (VRef a) h
  = (Ok (VRef (fresh (dom h))), <[fresh (dom h) := OList HashableList items]> h).
Proof.
  intros Ha. unfold new_HashableList, iterate.
  by rewrite !run_bind, (run_deref _ _ _ Ha).
Qed.

(** The cell that makes [listB] and [dictB]. *)
Lemma cell_listB_dictB_run (h : heap) :
  ∃ (b dl : loc) (h' : heap),
    cell_listB_dictB h = (Ok (VRef b, VRef dl), h')
    ∧ h' !! b = Some (OList HashableList (VInt <$> [1; 2; 3]))
    ∧ h' !! dl = Some (ODict (single_entry 529344067295497451 (VRef b) (VInt 1))).
Proof.
  unfold cell_listB_dictB, new_list.
  rewrite run_bind, run_alloc. cbv beta iota.
  rewrite run_bind.
  erewrite new_HashableList_run by apply lookup_insert_eq. cbv beta iota.
  set (h2 := <[_ := OList HashableList _]> _). set (b := fresh _) in *.
  destruct (dict_display_HashableList h2 b [1; 2; 3] (VInt 1)) as (dl & h' & E & Hb & Hdl).
  { apply lookup_insert_eq. }
  rewrite run_bind, E. cbv beta iota.
  exists b, dl, h'. split; [reflexivity|]. split; [exact Hb|exact Hdl].
Qed.

Lemma cell_append_run (h : heap) (b : loc) (ns : list Z) :
  h !! b = Some (OList HashableList (VInt <$> ns)) →
  cell_append (VRef b) h = (Ok tt, <[b := OList HashableList (VInt <$> (ns ++ [4]))]> h).
Proof.
  intros Hb. unfold cell_append, append.
  by rewrite run_bind, (run_deref _ _ _ Hb), fmap_app.
Qed.

(** C2.  From any heap: a dict display with a builtin list as key raises
    TypeError, unhashable type, whatever the list holds, and so does the
    cell of the notebook; a display with a [HashableList] of ints as key
    returns a dict in which looking up that key gives the value stored,
    and in the notebook [dictB[listB]] is 1. *)
Theorem hashable_decides_dict_key (h : heap) :
  (∀ l items v,
     h !! l = Some (OList builtin_list items) →
     ∃ h', dict_display (VRef l) v h = (Raise (TypeError "unhashable type: 'list'"), h'))
  ∧ (∃ h', (cell_listA ≫= cell_dict) h = (Raise (TypeError "unhashable type: 'list'"), h'))
  ∧ (∀ b ns v,
     h !! b = Some (OList HashableList (VInt <$> ns)) →
     ∃ d h1 h2, dict_display (VRef b) v h = (Ok d, h1)
                ∧ dict_getitem d (VRef b) h1 = (Ok v, h2))
  ∧ (∃ listB dictB h1 h2,
       cell_listB_dictB h = (Ok (listB, dictB), h1)
       ∧ cell_lookup dictB listB h1 = (Ok (VInt 1), h2)).
Proof.
  split; [|split; [|split]].
  - intros l items v Hl. by apply (dict_display_builtin_list _ _ items).
  - unfold cell_listA, new_list. rewrite run_bind, run_alloc. cbv beta iota.
    unfold cell_dict.
    exact (dict_display_builtin_list _ _ [VInt 1; VInt 2; VInt 3] _ (lookup_insert_eq _ _ _)).
  - intros b ns v Hb.
    destruct (dict_display_HashableList h b ns v Hb) as (dl & h1 & E & Hb1 & Hdl1).
    destruct (dict_getitem_key_object h1 dl b _ v ns Hdl1 Hb1) as (h2 & E2).
    rewrite bool_decide_true in E2 by done.
    by exists (VRef dl), h1, h2.
  - destruct (cell_listB_dictB_run h) as (b & dl & h1 & E & Hb1 & Hdl1).
    destruct (dict_getitem_key_object h1 dl b _ (VInt 1) [1; 2; 3] Hdl1 Hb1) as (h2 & E2).
    rewrite bool_decide_true in E2 by (vm_compute; reflexivity).
    by exists (VRef b), (VRef dl), h1, h2.
Qed.

Lemma hashable_decides_dict_key_witness :
  (∃ h', dict_display (VRef 0%nat) (VInt 1) heap_listA_listB
         = (Raise (TypeError "unhashable type: 'list'"), h'))
  ∧ (∃ d h1 h2, dict_display (VRef 1%nat) (VInt 1) heap_listA_listB = (Ok d, h1)
                ∧ dict_getitem d (VRef 1%nat) h1 = (Ok (VInt 1), h2)).
Proof.
  split.
  - apply (proj1 (hashable_decides_dict_key heap_listA_listB) 0%nat [VInt 1; VInt 2; VInt 3]).
    reflexivity.
  - apply (proj1 (proj2 (proj2 (hashable_decides_dict_key heap_listA_listB))) 1%nat [1; 2; 3]).
    reflexivity.
Defined.

(** C3.  From any heap: after the cell that makes [listB] and [dictB],
    [listB.append(4)] returns, and then [dictB[listB]] raises KeyError
    with [listB] as the key; [hash(listB)] was 529344067295497451 when
    the key was stored and is 590899387183067792 after the append. *)
Theorem mutated_key_lookup_fails (h : heap) :
  ∃ listB dictB h1 h2,
    cell_listB_dictB h = (Ok (listB, dictB), h1)
    ∧ cell_append listB h1 = (Ok tt, h2)
    ∧ (∃ h', cell_lookup dictB listB h2 = (Raise (KeyError listB), h'))
    ∧ (∃ h', builtin_hash listB h1 = (Ok 529344067295497451, h'))
    ∧ (∃ h', builtin_hash listB h2 = (Ok 590899387183067792, h')).
Proof.
  destruct (cell_listB_dictB_run h) as (b & dl & h1 & E & Hb1 & Hdl1).
  exists (VRef b), (VRef dl), h1, (<[b := OList HashableList (VInt <$> ([1; 2; 3] ++ [4]))]> h1).
  assert (dl ≠ b) as Hne by (intros ->; congruence).
  split; [exact E|]. split; [by apply cell_append_run|]. split; [|split].
  - edestruct (dict_getitem_key_object
                 (<[b := OList HashableList (VInt <$> ([1; 2; 3] ++ [4]))]> h1)
                 dl b 529344067295497451 (VInt 1) ([1; 2; 3] ++ [4])) as (h' & E').
    { by rewrite lookup_insert_ne. }
    { apply lookup_insert_eq. }
    rewrite bool_decide_false in E' by (vm_compute; discriminate).
    by exists h'.
  - eexists. by rewrite (hash_HashableList _ _ _ Hb1).
  - eexists. erewrite hash_HashableList by apply lookup_insert_eq. reflexivity.
Qed.

(** The changed hash makes the lookup of the notebook fail by starting
    the probe at an empty slot.  A changed hash need not do so: had 6 been
    appended, the probe for the new hash would start at the slot of the
    entry, and the key, being the same object, would be found. *)
Lemma mutated_key_found_in_same_slot (h : heap) :
  ∃ listB dictB h1 h2,
    cell_listB_dictB h = (Ok (listB, dictB), h1)
    ∧ append listB (VInt 6) h1 = (Ok tt, h2)
    ∧ (∃ h', cell_lookup dictB listB h2 = (Ok (VInt 1), h'))
    ∧ (∃ h', builtin_hash listB h1 = (Ok 529344067295497451, h'))
    ∧ (∃ h', builtin_hash listB h2 = (Ok 2205466114312369851, h')).
Proof.
  destruct (cell_listB_dictB_run h) as (b & dl & h1 & E & Hb1 & Hdl1).
  exists (VRef b), (VRef dl), h1, (<[b := OList HashableList (VInt <$> ([1; 2; 3] ++ [6]))]> h1).
  assert (dl ≠ b) as Hne by (intros ->; congruence).
  split; [exact E|]. split; [|split; [|split]].
  - unfold append. by rewrite run_bind, (run_deref _ _ _ Hb1).
  - edestruct (dict_getitem_key_object
                 (<[b := OList HashableList (VInt <$> ([1; 2; 3] ++ [6]))]> h1)
                 dl b 529344067295497451 (VInt 1) ([1; 2; 3] ++ [6])) as (h' & E').
    { by rewrite lookup_insert_ne. }
    { apply lookup_insert_eq. }
    rewrite bool_decide_true in E' by (vm_compute; reflexivity).
    by exists h'.
  - eexists. by rewrite (hash_HashableList _ _ _ Hb1).
  - eexists. erewrite hash_HashableList by apply lookup_insert_eq. reflexivity.
Qed.

(** *** A user defined class as key *)

Lemma hash_UserDefinedClass (h : heap) (l : loc) (d : gmap string value) :
  h !! l = Some (OInst UserDefinedClass d) →
  builtin_hash (VRef l) h = (Ok (_Py_HashPointer (id_ l)), h).
Proof.
  intros Hl. unfold builtin_hash. rewrite recursion_limit_S.
  by rewrite (hash_ref_at _ _ _ _ Hl).
Qed.

Lemma new_UserDefinedClass_run (h : heap) (a b : value) :
  UserDefinedKey.new_UserDefinedClass a b h =
    (Ok (VRef (fresh (dom h))),
     <[fresh (dom h) := OInst UserDefinedClass (<["b" := b]> (<["a" := a]> ∅))]> h).
Proof.
  unfold UserDefinedKey.new_UserDefinedClass, UserDefinedKey.UserDefinedClass__init__.
  rewrite run_bind, run_alloc. cbv beta iota.
  do 2 (rewrite ?run_bind; erewrite DataclassesProofs.setattr_store;
        [|heap_lookup|reflexivity..]; cbv beta iota).
  by rewrite !insert_insert_eq.
Qed.

(** The instance of the notebook as a key: its hash is a function of its
    identity, so the lookup finds the key after [class_inst.a = 10]. *)
Lemma user_defined_key_survives_mutation (h : heap) :
  ∃ class_inst dictC h1 h2,
    UserDefinedKey.cell_dictC h = (Ok (class_inst, dictC), h1)
    ∧ UserDefinedKey.cell_mutate_lookup class_inst dictC h1 = (Ok (VInt 1), h2).
Proof.
  unfold UserDefinedKey.cell_dictC.
  rewrite run_bind, new_UserDefinedClass_run. cbv beta iota.
  set (l := fresh (dom h)).
  set (d := <["b" := VInt 2]> (<["a" := VInt 1]> ∅) : gmap string value).
  set (h1 := <[l := OInst UserDefinedClass d]> h).
  (* the display *)
  unfold dict_display, new_dict. rewrite run_bind, run_bind, run_alloc. cbv beta iota.
  set (dl := fresh (dom h1)). set (h2 := <[dl := ODict new_keys]> h1).
  assert (dl ≠ l) as Hne by (apply fresh_ne; subst h1; rewrite lookup_insert_eq; eauto).
  assert (h2 !! l = Some (OInst UserDefinedClass d)) as Hl2.
  { subst h2 h1. rewrite lookup_insert_ne by done. apply lookup_insert_eq. }
  rewrite run_bind.
  rewrite (dict_setitem_new h2 h2 dl (VRef l) (VInt 1) _ (lookup_insert_eq _ _ _)
             (hash_UserDefinedClass _ _ _ Hl2)).
  cbv beta iota. rewrite run_ret. cbv beta iota.
  set (h3 := <[dl := ODict _]> h2).
  assert (h3 !! l = Some (OInst UserDefinedClass d)) as Hl3.
  { subst h3. by rewrite lookup_insert_ne. }
  exists (VRef l), (VRef dl), h3. eexists. split; [reflexivity|].
  (* the assignment and the lookup *)
  unfold UserDefinedKey.cell_mutate_lookup.
  rewrite run_bind.
  erewrite DataclassesProofs.setattr_store; [|exact Hl3|reflexivity..].
  cbv beta iota.
  set (h4 := <[l := _]> h3).
  assert (h4 !! dl = Some (ODict (single_entry (_Py_HashPointer (id_ l)) (VRef l) (VInt 1)))) as Hdl4.
  { subst h4 h3. rewrite lookup_insert_ne by done. apply lookup_insert_eq. }
  assert (h4 !! l = Some (OInst UserDefinedClass (<["a" := VInt 10]> d))) as Hl4.
  { subst h4. apply lookup_insert_eq. }
  rewrite (dict_getitem_run h4 h4 dl _ (VRef l) _ _ Hdl4 (hash_UserDefinedClass _ _ _ Hl4)
             (lookdict_found _ _ _ _ _ eq_refl)).
  reflexivity.
Qed.

End DictionaryKeysProofs.

(** ** Further properties of the code of the notebooks *)

Section RunMore.
Import Py.

Lemma run_lift_raise {A} (f : heap → outcome A) (h : heap) (e : exn) :
  f h = Raise e → lift f h = (Raise e, h).
Proof. intros E. unfold lift. by rewrite E. Qed.


End RunMore.

Module CallByAssignmentProperties.
Import Py CallByAssignment CallByAssignmentProofs.

Lemma accumulated_prefixes (t : list_type) (xs : list Z) :
  ∀ items,
    accumulated t items xs
    = (λ k, OList t (items ++ (VInt <$> take k xs))) <$> seq 1 (length xs).
Proof.
  induction xs as [|x xs IH]; intros items; [reflexivity|].
  cbn [accumulated length seq]. rewrite fmap_cons. f_equal.
  rewrite IH, <- (fmap_S_seq 1), <- list_fmap_compose.
  apply list_fmap_ext. intros _ k _. cbn.
  by rewrite <- app_assoc.
Qed.

(** X1.  From any heap, after the two [def]s, any number of calls
    without [y]: the k-th of the calls [func1(x1)], ..., [func1(xn)] shows
    the list of the first k arguments, since the default list keeps every
    argument of every earlier call; the k-th of the calls [func2(x1)], ...,
    [func2(xn)] shows the one-element tuple [(xk,)], whatever was passed
    before. *)
Theorem defaults_over_any_number_of_calls (h : heap) (xs : list Z) :
  (∃ h', (def_func1 ≫= λ f, calls (func1 f) xs) h
         = (Ok ((λ k, OList builtin_list (VInt <$> take k xs)) <$> seq 1 (length xs)), h'))
  ∧ (∃ h', (def_func2 ≫= λ f, calls (func2 f) xs) h
           = (Ok ((λ x, OTuple [VInt x]) <$> xs), h')).
Proof.
  split.
  - rewrite run_bind, def_func1_run. cbv beta iota.
    destruct (func1_accumulates xs (<[fresh (dom h) := OList builtin_list []]> h)
                (fresh (dom h)) builtin_list []) as (h' & E & _); [apply lookup_insert_eq|].
    exists h'. rewrite E. by rewrite accumulated_prefixes.
  - rewrite run_bind, def_func2_run. cbv beta iota.
    destruct (func2_independent xs (<[fresh (dom h) := OTuple []]> h) (fresh (dom h)) [])
      as (h' & E & _); [apply lookup_insert_eq|].
    exists h'. exact E.
Qed.

(** X2.  The argument is the caller's object, not a copy.  A call
    [func1(x, y)] with a list [y] of the caller returns that very object,
    which now ends with [x], and leaves every other object, the default of
    the function among them, as it was.  A call [func2(x, y)] with a tuple
    [y] of the caller returns a new object, the tuple of the elements of
    [y] and then [x], and leaves every object that existed, [y] among
    them, as it was. *)
Theorem argument_of_the_caller (h : heap) (f : function) (ll lt : loc) (t : list_type)
    (litems titems : list value) (x : value) :
  h !! ll = Some (OList t litems) →
  h !! lt = Some (OTuple titems) →
  (∃ h', func1 f x (Some (VRef ll)) h = (Ok (VRef ll), h')
         ∧ h' !! ll = Some (OList t (litems ++ [x]))
         ∧ ∀ l o, l ≠ ll → h !! l = Some o → h' !! l = Some o)
  ∧ (∃ r h', func2 f x (Some (VRef lt)) h = (Ok (VRef r), h')
             ∧ h !! r = None
             ∧ h' !! r = Some (OTuple (titems ++ [x]))
             ∧ ∀ l o, h !! l = Some o → h' !! l = Some o).
Proof.
  intros Hl Ht. split.
  - exact (func1_default h ll t litems x Hl).
  - exact (func2_default h lt titems x Ht).
Qed.

Lemma argument_of_the_caller_witness :
  (∃ h', func1 (Function VNone) (VInt 2) (Some (VRef 0%nat)) Scenarios.heap_list_tuple
         = (Ok (VRef 0%nat), h')
         ∧ h' !! 0%nat = Some (OList builtin_list ([VInt 1] ++ [VInt 2]))
         ∧ ∀ l o, l ≠ 0%nat → Scenarios.heap_list_tuple !! l = Some o → h' !! l = Some o)
  ∧ (∃ r h', func2 (Function VNone) (VInt 2) (Some (VRef 1%nat)) Scenarios.heap_list_tuple
             = (Ok (VRef r), h')
             ∧ Scenarios.heap_list_tuple !! r = None
             ∧ h' !! r = Some (OTuple ([VInt 1] ++ [VInt 2]))
             ∧ ∀ l o, Scenarios.heap_list_tuple !! l = Some o → h' !! l = Some o).
Proof.
  apply (argument_of_the_caller Scenarios.heap_list_tuple (Function VNone) 0%nat 1%nat
           builtin_list [VInt 1] [VInt 1] (VInt 2)); reflexivity.
Defined.

(** [y += rhs] on a tuple [y] and a list [rhs]. *)
Lemma iadd_tuple_list (h : heap) (ly lr : loc) (t : list_type) (items more : list value) :
  h !! ly = Some (OTuple items) →
  h !! lr = Some (OList t more) →
  iadd (VRef ly) (VRef lr) h
  = (Raise (TypeError ("can only concatenate tuple (not " +:+ dquote +:+ list_type_name t
                       +:+ dquote +:+ ") to tuple")), h).
Proof.
  intros Hy Hr. unfold iadd.
  rewrite run_bind, (run_deref _ _ _ Hy). cbv beta iota.
  rewrite run_bind, run_bind, (run_deref _ _ _ Hr). cbv beta iota.
  rewrite run_ret. cbv beta iota.
  unfold type_name. rewrite !run_bind, (run_deref _ _ _ Hr). reflexivity.
Qed.

(** [y += rhs] on a list [y] and a tuple [rhs]. *)
Lemma iadd_list_tuple (h : heap) (ly lr : loc) (t : list_type) (items more : list value) :
  h !! ly = Some (OList t items) →
  h !! lr = Some (OTuple more) →
  iadd (VRef ly) (VRef lr) h = (Ok (VRef ly), <[ly := OList t (items ++ more)]> h).
Proof.
  intros Hy Hr. unfold iadd, iterate.
  rewrite run_bind, (run_deref _ _ _ Hy). cbv beta iota.
  rewrite run_bind, run_bind, (run_deref _ _ _ Hr). cbv beta iota.
  reflexivity.
Qed.

(** X3.  The annotations of [y] are not enforced.  [func1(x, y)] with a
    tuple [y] raises TypeError, since a list cannot be concatenated to a
    tuple, and changes no object that existed; [func2(x, y)] with a list
    [y] extends that list in place with [x] and returns it, as [func1]
    does. *)
Theorem argument_of_the_other_type (h : heap) (f : function) (lt ll : loc)
    (titems litems : list value) (x : value) :
  h !! lt = Some (OTuple titems) →
  h !! ll = Some (OList builtin_list litems) →
  (∃ h', func1 f x (Some (VRef lt)) h
         = (Raise (TypeError ("can only concatenate tuple (not " +:+ dquote +:+ "list" +:+ dquote
                              +:+ ") to tuple")), h')
         ∧ ∀ l o, h !! l = Some o → h' !! l = Some o)
  ∧ (∃ h', func2 f x (Some (VRef ll)) h = (Ok (VRef ll), h')
           ∧ h' !! ll = Some (OList builtin_list (litems ++ [x]))
           ∧ ∀ l o, l ≠ ll → h !! l = Some o → h' !! l = Some o).
Proof.
  intros Ht Hl. split.
  - eexists. split.
    + unfold func1, bind_y, new_list. cbn [default]. unfold id.
      rewrite run_bind, run_alloc. cbv beta iota.
      rewrite run_bind.
      erewrite (iadd_tuple_list _ lt _ builtin_list); [reflexivity | | apply lookup_insert_eq].
      rewrite lookup_insert_ne; [exact Ht|]. apply fresh_ne; eauto.
    + intros l o Hlo. rewrite lookup_insert_ne; [exact Hlo|]. apply fresh_ne; eauto.
  - eexists. split; [|split].
    + unfold func2, bind_y, new_tuple. cbn [default]. unfold id.
      rewrite run_bind, run_alloc. cbv beta iota.
      rewrite run_bind.
      erewrite iadd_list_tuple; [reflexivity | | apply lookup_insert_eq].
      rewrite lookup_insert_ne; [exact Hl|]. apply fresh_ne; eauto.
    + apply lookup_insert_eq.
    + intros l o Hne Hlo. rewrite lookup_insert_ne by congruence.
      rewrite lookup_insert_ne; [exact Hlo|]. apply fresh_ne; eauto.
Qed.

Lemma argument_of_the_other_type_witness :
  (∃ h', func1 (Function VNone) (VInt 2) (Some (VRef 1%nat)) Scenarios.heap_list_tuple
         = (Raise (TypeError ("can only concatenate tuple (not " +:+ dquote +:+ "list" +:+ dquote
                              +:+ ") to tuple")), h')
         ∧ ∀ l o, Scenarios.heap_list_tuple !! l = Some o → h' !! l = Some o)
  ∧ (∃ h', func2 (Function VNone) (VInt 2) (Some (VRef 0%nat)) Scenarios.heap_list_tuple
           = (Ok (VRef 0%nat), h')
           ∧ h' !! 0%nat = Some (OList builtin_list ([VInt 1] ++ [VInt 2]))
           ∧ ∀ l o, l ≠ 0%nat → Scenarios.heap_list_tuple !! l = Some o → h' !! l = Some o).
Proof.
  apply (argument_of_the_other_type Scenarios.heap_list_tuple (Function VNone) 1%nat 0%nat
           [VInt 1] [VInt 1] (VInt 2)); reflexivity.
Defined.

(** X4.  The list that a call of [func1] without [y] returns is the
    default itself.  From any heap: after [r = func1(a)] and
    [r.append(z)], the call [func1(b)] shows [[a, z, b]]. *)
Theorem returned_default_is_the_default (h : heap) (a b : Z) (z : value) :
  ∃ h', (f ← def_func1;
         r ← func1 f (VInt a) None;
         append r z;;
         r' ← func1 f (VInt b) None;
         shown r') h
        = (Ok (OList builtin_list [VInt a; z; VInt b]), h').
Proof.
  rewrite run_bind, def_func1_run. cbv beta iota.
  set (d := fresh (dom h)). set (h0 := <[d := _]> h).
  destruct (func1_default h0 d builtin_list [] (VInt a)) as (h1 & E1 & H1 & _);
    [apply lookup_insert_eq|].
  rewrite run_bind, E1. cbv beta iota.
  rewrite run_bind, (DataclassesProofs.append_run _ _ _ _ _ H1). cbv beta iota.
  destruct (func1_default (<[d := OList builtin_list (([] ++ [VInt a]) ++ [z])]> h1) d
              builtin_list (([] ++ [VInt a]) ++ [z]) (VInt b)) as (h2 & E2 & H2 & _);
    [apply lookup_insert_eq|].
  rewrite run_bind, E2. cbv beta iota.
  rewrite (shown_run _ _ _ H2). eexists. reflexivity.
Qed.

End CallByAssignmentProperties.

Module DictionaryKeysProperties.
Import Py Decl Compare DictionaryKeys DictionaryKeysProofs.
Local Open Scope Z_scope.

(** *** The probe sequence in a dict with one key *)

Lemma next_slot_bound (perturb i : Z) : 0 ≤ next_slot 7 perturb i < 8.
Proof.
  unfold next_slot. change 7 with (Z.ones 3). rewrite Z.land_ones by lia.
  apply Z.mod_pos_bound. lia.
Qed.

(** Once the perturbation is used up, the probe moves to another slot. *)
Lemma next_slot_moves (i : Z) : 0 ≤ i < 8 → next_slot 7 0 i ≠ i.
Proof.
  intros Hi.
  assert (i = 0 ∨ i = 1 ∨ i = 2 ∨ i = 3 ∨ i = 4 ∨ i = 5 ∨ i = 6 ∨ i = 7) as Hcases by lia.
  repeat destruct Hcases as [-> | Hcases]; try subst i; vm_compute; discriminate.
Qed.

Lemma first_slot_range (hash : Z) : 0 ≤ first_slot hash < 8.
Proof.
  unfold first_slot. change 7 with (Z.ones 3). rewrite Z.land_ones by lia.
  apply Z.mod_pos_bound. lia.
Qed.

Lemma single_entry_slot (stored : Z) (key v : value) (i : Z) :
  0 ≤ i < 8 →
  dk_indices (single_entry stored key v) !! Z.to_nat i
  = Some (if bool_decide (i = first_slot stored) then DKIX 0 else DKIX_EMPTY).
Proof.
  intros Hi. pose proof (first_slot_range stored) as Hs.
  cbn [single_entry dk_indices]. case_bool_decide as E.
  - subst i. apply list_lookup_insert_eq. rewrite length_replicate. lia.
  - rewrite list_lookup_insert_ne by lia. apply lookup_replicate_2. lia.
Qed.

(** One round of [lookdict] in a dict with one key, for a key that the
    entry does not match. *)
Lemma lookdict_loop_mismatch_step (fuel : nat) (h : heap) (stored hash : Z) (key0 key v : value)
    (perturb i : Z) :
  is_ key0 key = false →
  (stored =? hash) = false ∨ richcompare recursion_limit h Py_EQ key0 key = Ok false →
  0 ≤ i < 8 →
  lookdict_loop (S fuel) h (single_entry stored key0 v) key hash perturb i
  = if bool_decide (i = first_slot stored)
    then lookdict_loop fuel h (single_entry stored key0 v) key hash (next_perturb perturb)
           (next_slot 7 (next_perturb perturb) i)
    else Ok None.
Proof.
  intros His Hne Hi. rewrite lookdict_loop_S, (single_entry_slot _ _ _ _ Hi).
  destruct (single_entry_limit stored key0 v) as [_ ->].
  case_bool_decide; [|reflexivity].
  cbn [single_entry dk_entries lookup list_lookup me_key me_hash]. rewrite His.
  destruct Hne as [-> | ->]; [reflexivity|].
  by destruct (stored =? hash).
Qed.

(** The probe for a key that the entry does not match ends at an empty
    slot: the perturbation runs out, and then the probe leaves the slot
    of the entry. *)
Lemma lookdict_loop_mismatch (h : heap) (stored hash : Z) (key0 key v : value) :
  is_ key0 key = false →
  (stored =? hash) = false ∨ richcompare recursion_limit h Py_EQ key0 key = Ok false →
  ∀ (n fuel : nat) (perturb i : Z),
    0 ≤ perturb < 2 ^ (5 * Z.of_nat n) →
    0 ≤ i < 8 →
    (n + 2 ≤ fuel)%nat →
    lookdict_loop fuel h (single_entry stored key0 v) key hash perturb i = Ok None.
Proof.
  intros His Hne. induction n as [|n IH]; intros fuel perturb i Hp Hi Hfuel.
  - assert (perturb = 0) as -> by (change (2 ^ (5 * Z.of_nat 0)) with 1 in Hp; lia).
    destruct fuel as [|[|fuel]]; [lia..|].
    rewrite (lookdict_loop_mismatch_step _ _ _ _ _ _ _ _ _ His Hne Hi).
    case_bool_decide as E; [|reflexivity].
    change (next_perturb 0) with 0.
    rewrite (lookdict_loop_mismatch_step _ _ _ _ _ _ _ _ _ His Hne (next_slot_bound _ _)).
    rewrite bool_decide_false; [reflexivity|].
    rewrite <- E. by apply next_slot_moves.
  - destruct fuel as [|fuel]; [lia|].
    rewrite (lookdict_loop_mismatch_step _ _ _ _ _ _ _ _ _ His Hne Hi).
    case_bool_decide as E; [|reflexivity].
    apply IH; [|apply next_slot_bound|lia].
    unfold next_perturb, PERTURB_SHIFT. rewrite Z.shiftr_div_pow2 by lia.
    replace (5 * Z.of_nat (S n)) with (5 + 5 * Z.of_nat n) in Hp by lia.
    rewrite Z.pow_add_r in Hp by lia.
    split; [apply Z.div_pos; lia|].
    apply Z.div_lt_upper_bound; lia.
Qed.

Lemma u64_range (x : Z) : 0 ≤ u64 x < 2 ^ 64.
Proof. unfold u64. apply Z.mod_pos_bound. lia. Qed.

(** Looking up a key that the one entry does not match: not found. *)
Lemma lookdict_mismatch (h : heap) (stored hash : Z) (key0 key v : value) :
  is_ key0 key = false →
  (stored =? hash) = false ∨ richcompare recursion_limit h Py_EQ key0 key = Ok false →
  lookdict h (single_entry stored key0 v) key hash = Ok None.
Proof.
  intros His Hne. unfold lookdict.
  destruct (single_entry_limit stored key0 v) as [-> ->].
  apply (lookdict_loop_mismatch h stored hash key0 key v His Hne 13).
  - pose proof (u64_range hash). change (2 ^ (5 * Z.of_nat 13)) with (2 ^ 65). lia.
  - apply first_slot_range.
  - lia.
Qed.

(** *** Keys of class [HashableList] *)

(** A display with a [HashableList] of ints as key: a new dict with one
    entry; what was in the heap is as it was. *)
Lemma dict_display_HashableList_frame (h : heap) (b : loc) (ns : list Z) (v : value) :
  h !! b = Some (OList HashableList (VInt <$> ns)) →
  ∃ (dl : loc) (h' : heap),
    dict_display (VRef b) v h = (Ok (VRef dl), h')
    ∧ h !! dl = None
    ∧ h' !! dl = Some (ODict (single_entry (tuplehash (hash_int <$> ns)) (VRef b) v))
    ∧ ∀ l o, h !! l = Some o → h' !! l = Some o.
Proof.
  intros Hb. unfold dict_display, new_dict.
  rewrite run_bind, run_alloc. cbv beta iota.
  set (dl := fresh (dom h)). set (h1 := <[dl := ODict new_keys]> h).
  assert (∀ l o, h !! l = Some o → h1 !! l = Some o) as F1.
  { intros l o Hl. subst h1. rewrite lookup_insert_ne; [done|]. apply fresh_ne; eauto. }
  assert (h1 !! dl = Some (ODict new_keys)) as Hdl1 by apply lookup_insert_eq.
  set (t := fresh (dom h1)).
  rewrite run_bind.
  rewrite (dict_setitem_new _ _ _ _ _ _ Hdl1 (hash_HashableList _ _ _ (F1 _ _ Hb))).
  cbv beta iota. fold t.
  exists dl, (<[dl := ODict (single_entry (tuplehash (hash_int <$> ns)) (VRef b) v)]>
                (<[t := OTuple (VInt <$> ns)]> h1)).
  split; [reflexivity|]. split; [apply fresh_lookup|]. split; [apply lookup_insert_eq|].
  intros l o Hl.
  rewrite lookup_insert_ne by (apply fresh_ne; eauto).
  rewrite lookup_insert_ne by (apply fresh_ne; eauto).
  by apply F1.
Qed.

(** X5.  For any [HashableList] of ints used as the key of a display
    [{listB: v}], after [listB.append(x)] with an int [x]: [dictB[listB]]
    still gives [v] when the probe for the new hash starts at the slot
    where the probe for the old hash started (the low three bits of the
    two hashes agree), because the entry there holds the very object
    looked up; otherwise it raises KeyError with [listB] as key. *)
Theorem lookup_after_append_by_first_slot (h : heap) (b : loc) (ns : list Z) (x : Z) (v : value) :
  h !! b = Some (OList HashableList (VInt <$> ns)) →
  ∃ dictB h1 h2 h3,
    dict_display (VRef b) v h = (Ok dictB, h1)
    ∧ append (VRef b) (VInt x) h1 = (Ok tt, h2)
    ∧ dict_getitem dictB (VRef b) h2
      = (if bool_decide (first_slot (tuplehash (hash_int <$> (ns ++ [x])))
                         = first_slot (tuplehash (hash_int <$> ns)))
         then Ok v else Raise (KeyError (VRef b)), h3).
Proof.
  intros Hb.
  destruct (dict_display_HashableList_frame h b ns v Hb) as (dl & h1 & E & Hdl & Hdl1 & F1).
  assert (dl ≠ b) as Hne by (intros ->; congruence).
  set (h2 := <[b := OList HashableList (VInt <$> (ns ++ [x]))]> h1).
  destruct (dict_getitem_key_object h2 dl b (tuplehash (hash_int <$> ns)) v (ns ++ [x]))
    as (h3 & E3).
  { subst h2. by rewrite lookup_insert_ne. }
  { apply lookup_insert_eq. }
  exists (VRef dl), h1, h2, h3. split; [exact E|]. split; [|exact E3].
  rewrite (DataclassesProofs.append_run _ _ _ _ _ (F1 _ _ Hb)).
  subst h2. by rewrite fmap_app.
Qed.

Lemma lookup_after_append_by_first_slot_witness :
  ∃ dictB h1 h2 h3,
    dict_display (VRef 1%nat) (VInt 1) heap_listA_listB = (Ok dictB, h1)
    ∧ append (VRef 1%nat) (VInt 6) h1 = (Ok tt, h2)
    ∧ dict_getitem dictB (VRef 1%nat) h2
      = (if bool_decide (first_slot (tuplehash (hash_int <$> ([1; 2; 3] ++ [6])))
                         = first_slot (tuplehash (hash_int <$> [1; 2; 3])))
         then Ok (VInt 1) else Raise (KeyError (VRef 1%nat)), h3).
Proof.
  apply (lookup_after_append_by_first_slot heap_listA_listB 1%nat [1; 2; 3] 6 (VInt 1)).
  reflexivity.
Defined.

(** Two lists of the same elements are equal, whatever the elements. *)
Lemma richcompare_same_items (h : heap) (b c : loc) (t t' : list_type) (items : list value) :
  h !! b = Some (OList t items) →
  h !! c = Some (OList t' items) →
  richcompare recursion_limit h Py_EQ (VRef b) (VRef c) = Ok true.
Proof.
  intros Hb Hc. rewrite recursion_limit_S, richcompare_unfold.
  cbn [operand_of]. rewrite Hb, Hc. cbv zeta.
  rewrite Nat.eqb_refl. cbn [negb andb].
  change (pred recursion_limit) with (S (pred (pred recursion_limit))).
  apply compare_sequences_same.
Qed.

(** Two lists of different lengths are unequal. *)
Lemma richcompare_longer (h : heap) (b c : loc) (t t' : list_type) (items : list value) (x : value) :
  h !! b = Some (OList t (items ++ [x])) →
  h !! c = Some (OList t' items) →
  richcompare recursion_limit h Py_EQ (VRef b) (VRef c) = Ok false.
Proof.
  intros Hb Hc. rewrite recursion_limit_S, richcompare_unfold.
  cbn [operand_of]. rewrite Hb, Hc. cbv zeta.
  replace (length (items ++ [x]) =? length items)%nat with false; [reflexivity|].
  symmetry. apply Nat.eqb_neq. rewrite length_app. cbn. lia.
Qed.

(** Looking up a key that is equal to the key of the entry and has its
    hash. *)
Lemma lookdict_equal (h : heap) (stored : Z) (key0 key v : value) :
  richcompare recursion_limit h Py_EQ key0 key = Ok true →
  lookdict h (single_entry stored key0 v) key stored
  = Ok (Some (0%nat, DictEntry stored key0 v)).
Proof.
  intros Heq. unfold lookdict.
  destruct (single_entry_limit stored key0 v) as [-> ->].
  rewrite lookdict_loop_S. fold (first_slot stored).
  rewrite (single_entry_slot _ _ _ _ (first_slot_range stored)), bool_decide_true by done.
  cbn [single_entry dk_entries lookup list_lookup me_key me_hash].
  rewrite Z.eqb_refl, Heq. by destruct (is_ key0 key).
Qed.

(** X6.  For any [HashableList] of ints used as the key of a display
    [{listB: v}], and another [HashableList] that holds the same ints:
    looking the other list up gives [v], since the hashes agree and the
    lists compare equal; after [listB.append(x)] with any [x], looking it
    up raises KeyError.  The probe still reaches the entry, whose stored
    hash is that of the key looked up, but the two lists are no longer
    equal. *)
Theorem equal_list_and_the_entry (h : heap) (b c : loc) (ns : list Z) (x v : value) :
  h !! b = Some (OList HashableList (VInt <$> ns)) →
  h !! c = Some (OList HashableList (VInt <$> ns)) →
  b ≠ c →
  ∃ dictB h1,
    dict_display (VRef b) v h = (Ok dictB, h1)
    ∧ (∃ h2, dict_getitem dictB (VRef c) h1 = (Ok v, h2))
    ∧ (∃ h2 h3, append (VRef b) x h1 = (Ok tt, h2)
                ∧ dict_getitem dictB (VRef c) h2 = (Raise (KeyError (VRef c)), h3)).
Proof.
  intros Hb Hc Hbc.
  destruct (dict_display_HashableList_frame h b ns v Hb) as (dl & h1 & E & Hdl & Hdl1 & F1).
  exists (VRef dl), h1. split; [exact E|]. split.
  - eexists.
    set (h2 := <[fresh (dom h1) := OTuple (VInt <$> ns)]> h1).
    assert (∀ l o, h1 !! l = Some o → h2 !! l = Some o) as F2.
    { intros l o Hl. subst h2. rewrite lookup_insert_ne; [done|]. apply fresh_ne; eauto. }
    rewrite (dict_getitem_run h1 h2 dl _ (VRef c) _ _ Hdl1 (hash_HashableList _ _ _ (F1 _ _ Hc))
               (lookdict_equal h2 _ (VRef b) (VRef c) v
                  (richcompare_same_items h2 b c _ _ _ (F2 _ _ (F1 _ _ Hb)) (F2 _ _ (F1 _ _ Hc))))).
    reflexivity.
  - assert (dl ≠ b) as Hne by (intros ->; congruence).
    set (h2 := <[b := OList HashableList ((VInt <$> ns) ++ [x])]> h1).
    assert (h2 !! c = Some (OList HashableList (VInt <$> ns))) as Hc2.
    { subst h2. rewrite lookup_insert_ne by done. by apply F1. }
    assert (h2 !! dl = Some (ODict (single_entry (tuplehash (hash_int <$> ns)) (VRef b) v)))
      as Hdl2.
    { subst h2. by rewrite lookup_insert_ne. }
    set (h3 := <[fresh (dom h2) := OTuple (VInt <$> ns)]> h2).
    assert (∀ l o, h2 !! l = Some o → h3 !! l = Some o) as F3.
    { intros l o Hl. subst h3. rewrite lookup_insert_ne; [done|]. apply fresh_ne; eauto. }
    exists h2, h3. split.
    + by rewrite (DataclassesProofs.append_run _ _ _ _ _ (F1 _ _ Hb)).
    + rewrite (dict_getitem_run h2 h3 dl _ (VRef c) _ None Hdl2 (hash_HashableList _ _ _ Hc2));
        [reflexivity|].
      apply lookdict_mismatch.
      * cbn [is_]. by rewrite bool_decide_false.
      * right. apply (richcompare_longer h3 b c HashableList HashableList (VInt <$> ns) x).
        -- apply F3. subst h2. apply lookup_insert_eq.
        -- by apply F3.
Qed.

Lemma equal_list_and_the_entry_witness :
  ∃ dictB h1,
    dict_display (VRef 1%nat) (VInt 1) Scenarios.heap_two_HashableLists = (Ok dictB, h1)
    ∧ (∃ h2, dict_getitem dictB (VRef 2%nat) h1 = (Ok (VInt 1), h2))
    ∧ (∃ h2 h3, append (VRef 1%nat) (VInt 4) h1 = (Ok tt, h2)
                ∧ dict_getitem dictB (VRef 2%nat) h2 = (Raise (KeyError (VRef 2%nat)), h3)).
Proof.
  apply (equal_list_and_the_entry Scenarios.heap_two_HashableLists 1%nat 2%nat [1; 2; 3]
           (VInt 4) (VInt 1)); [reflexivity | reflexivity | lia].
Defined.

(** Hashing the elements stops at the first one that raises. *)
Lemma mapM_hash_raises (depth : nat) (ns : list Z) (x : value) (rest : list value)
    (e : exn) (h : heap) :
  hash (S depth) x h = (Raise e, h) →
  mapM (hash (S depth)) ((VInt <$> ns) ++ x :: rest) h = (Raise e, h).
Proof.
  intros Hx. induction ns as [|n ns IH].
  - cbn [fmap list_fmap app mapM]. by rewrite run_bind, Hx.
  - rewrite fmap_cons. cbn [app mapM].
    rewrite run_bind, hash_int_at. cbv beta iota.
    by rewrite run_bind, IH.
Qed.

(** X7.  [__hash__] of [HashableList] makes a list hashable only as far
    as its elements are.  For a [HashableList] that holds ints and then a
    builtin list, whatever follows it: [hash] raises TypeError, unhashable
    type 'list', and so does a dict display with it as key. *)
Theorem unhashable_element_makes_unhashable (h : heap) (b l : loc) (ns : list Z)
    (items rest : list value) (v : value) :
  h !! b = Some (OList HashableList ((VInt <$> ns) ++ VRef l :: rest)) →
  h !! l = Some (OList builtin_list items) →
  (∃ h', builtin_hash (VRef b) h = (Raise (TypeError "unhashable type: 'list'"), h'))
  ∧ (∃ h', dict_display (VRef b) v h = (Raise (TypeError "unhashable type: 'list'"), h')).
Proof.
  assert (∀ h, h !! b = Some (OList HashableList ((VInt <$> ns) ++ VRef l :: rest)) →
               h !! l = Some (OList builtin_list items) →
               ∃ h', builtin_hash (VRef b) h
                     = (Raise (TypeError "unhashable type: 'list'"), h')) as Hhash.
  { clear h. intros h Hb Hl. unfold builtin_hash. rewrite recursion_limit_SSS.
    rewrite (hash_ref_at _ _ _ _ Hb).
    unfold HashableList__hash__, tuple_, iterate, new_tuple.
    rewrite !run_bind, (run_deref _ _ _ Hb). cbv beta iota.
    rewrite !run_ret. cbv beta iota.
    rewrite !run_bind, (run_deref _ _ _ Hb). cbv beta iota.
    rewrite run_ret. cbv beta iota.
    rewrite run_alloc. cbv beta iota.
    set (h1 := <[fresh (dom h) := _]> h).
    assert (h1 !! l = Some (OList builtin_list items)) as Hl1.
    { subst h1. rewrite lookup_insert_ne; [done|]. apply fresh_ne; eauto. }
    rewrite (hash_ref_at _ h1 _ (OTuple ((VInt <$> ns) ++ VRef l :: rest)))
      by apply lookup_insert_eq.
    rewrite run_bind.
    rewrite (mapM_hash_raises _ ns (VRef l) rest (TypeError "unhashable type: 'list'") h1).
    - eexists. reflexivity.
    - by rewrite (hash_ref_at _ _ _ _ Hl1). }
  intros Hb Hl. split; [by apply Hhash|].
  unfold dict_display, new_dict.
  rewrite run_bind, run_alloc. cbv beta iota.
  set (dl := fresh (dom h)). set (h1 := <[dl := ODict new_keys]> h).
  assert (∀ l o, h !! l = Some o → h1 !! l = Some o) as F1.
  { intros l' o Hl'. subst h1. rewrite lookup_insert_ne; [done|]. apply fresh_ne; eauto. }
  destruct (Hhash h1 (F1 _ _ Hb) (F1 _ _ Hl)) as (h2 & E2).
  rewrite run_bind.
  rewrite (dict_setitem_raise h1 h2 dl new_keys _ _ _ (lookup_insert_eq _ _ _) E2).
  eexists. reflexivity.
Qed.

Lemma unhashable_element_makes_unhashable_witness :
  (∃ h', builtin_hash (VRef 1%nat) Scenarios.heap_nested_list
         = (Raise (TypeError "unhashable type: 'list'"), h'))
  ∧ (∃ h', dict_display (VRef 1%nat) (VInt 1) Scenarios.heap_nested_list
           = (Raise (TypeError "unhashable type: 'list'"), h')).
Proof.
  apply (unhashable_element_makes_unhashable Scenarios.heap_nested_list 1%nat 0%nat [1; 2]
           [VInt 3] [VInt 4] (VInt 1)); reflexivity.
Defined.

(** The first empty slot for a hash whose probe starts beside the one
    entry. *)
Lemma find_empty_slot_single_entry (stored now : Z) (key v : value) :
  first_slot now ≠ first_slot stored →
  find_empty_slot (single_entry stored key v) now = Some (first_slot now).
Proof.
  intros Hslot. unfold find_empty_slot.
  destruct (single_entry_limit stored key v) as [-> ->].
  rewrite find_empty_slot_loop_S. fold (first_slot now).
  rewrite (single_entry_slot _ _ _ _ (first_slot_range now)).
  by rewrite bool_decide_false.
Qed.

(** X8.  For any [HashableList] of ints used as the key of a display
    [{listB: v}], after [listB.append(x)] with an int [x] that moves the
    start of the probe to another slot: the assignment [dictB[listB] = w]
    does not replace [v].  It adds a second entry, so that iterating over
    [dictB] gives [listB] twice, and [dictB[listB]] then gives [w]. *)
Theorem assignment_after_append_adds_an_entry (h : heap) (b : loc) (ns : list Z) (x : Z)
    (v w : value) :
  h !! b = Some (OList HashableList (VInt <$> ns)) →
  first_slot (tuplehash (hash_int <$> (ns ++ [x]))) ≠ first_slot (tuplehash (hash_int <$> ns)) →
  ∃ dictB h1 h2 h3 h4,
    dict_display (VRef b) v h = (Ok dictB, h1)
    ∧ append (VRef b) (VInt x) h1 = (Ok tt, h2)
    ∧ dict_setitem dictB (VRef b) w h2 = (Ok tt, h3)
    ∧ iterate dictB h3 = (Ok [VRef b; VRef b], h3)
    ∧ dict_getitem dictB (VRef b) h3 = (Ok w, h4).
Proof.
  intros Hb Hslot.
  set (old := tuplehash (hash_int <$> ns)) in *.
  set (new := tuplehash (hash_int <$> (ns ++ [x]))) in *.
  destruct (dict_display_HashableList_frame h b ns v Hb) as (dl & h1 & E & Hdl & Hdl1 & F1).
  fold old in Hdl1.
  assert (dl ≠ b) as Hne by (intros ->; congruence).
  set (h2 := <[b := OList HashableList (VInt <$> (ns ++ [x]))]> h1).
  assert (h2 !! b = Some (OList HashableList (VInt <$> (ns ++ [x])))) as Hb2
    by apply lookup_insert_eq.
  assert (h2 !! dl = Some (ODict (single_entry old (VRef b) v))) as Hdl2.
  { subst h2. by rewrite lookup_insert_ne. }
  set (h2' := <[fresh (dom h2) := OTuple (VInt <$> (ns ++ [x]))]> h2).
  set (dk := DictKeys (<[Z.to_nat (first_slot new) := DKIX 1]> (dk_indices (single_entry old (VRef b) v)))
                      3 [DictEntry old (VRef b) v; DictEntry new (VRef b) w]).
  set (h3 := <[dl := ODict dk]> h2').
  assert (fresh (dom h2) ≠ b) as Hfb by (apply fresh_ne; eauto).
  assert (fresh (dom h2) ≠ dl) as Hfdl by (apply fresh_ne; eauto).
  assert (h3 !! b = Some (OList HashableList (VInt <$> (ns ++ [x])))) as Hb3.
  { subst h3 h2'. by rewrite !lookup_insert_ne by done. }
  assert (h3 !! dl = Some (ODict dk)) as Hdl3 by apply lookup_insert_eq.
  exists (VRef dl), h1, h2, h3. eexists.
  split; [exact E|]. split; [|split; [|split]].
  - rewrite (DataclassesProofs.append_run _ _ _ _ _ (F1 _ _ Hb)).
    subst h2. by rewrite fmap_app.
  - unfold dict_setitem, deref_dict.
    rewrite !run_bind, (run_deref _ _ _ Hdl2). cbv beta iota.
    rewrite run_ret. cbv beta iota.
    rewrite run_bind, (hash_HashableList _ _ _ Hb2). cbv beta iota. fold new. fold h2'.
    rewrite run_bind, (run_lift _ _ _ (lookdict_missing h2' old new (VRef b) (VRef b) v Hslot)).
    cbv beta iota.
    rewrite (find_empty_slot_single_entry old new _ _ Hslot).
    reflexivity.
  - unfold iterate. by rewrite run_bind, (run_deref _ _ _ Hdl3).
  - rewrite (dict_getitem_run h3 _ dl dk (VRef b) new (Some (1%nat, DictEntry new (VRef b) w))
               Hdl3 (hash_HashableList _ _ _ Hb3)); [reflexivity|].
    unfold lookdict.
    replace (probe_limit dk) with (S 28)
      by (unfold probe_limit, dk; cbn [dk_indices single_entry];
          by rewrite !length_insert, length_replicate).
    replace (DK_MASK dk) with 7
      by (unfold DK_MASK, dk; cbn [dk_indices single_entry];
          by rewrite !length_insert, length_replicate).
    rewrite lookdict_loop_S. fold (first_slot new).
    pose proof (first_slot_range new).
    unfold dk at 1. cbn [dk_indices single_entry].
    rewrite list_lookup_insert_eq
      by (rewrite length_insert, length_replicate; lia).
    unfold dk. cbn [dk_entries lookup list_lookup me_key is_].
    by rewrite bool_decide_true.
Qed.

Lemma assignment_after_append_adds_an_entry_witness :
  ∃ dictB h1 h2 h3 h4,
    dict_display (VRef 1%nat) (VInt 1) heap_listA_listB = (Ok dictB, h1)
    ∧ append (VRef 1%nat) (VInt 4) h1 = (Ok tt, h2)
    ∧ dict_setitem dictB (VRef 1%nat) (VInt 2) h2 = (Ok tt, h3)
    ∧ iterate dictB h3 = (Ok [VRef 1%nat; VRef 1%nat], h3)
    ∧ dict_getitem dictB (VRef 1%nat) h3 = (Ok (VInt 2), h4).
Proof.
  apply (assignment_after_append_adds_an_entry heap_listA_listB 1%nat [1; 2; 3] 4 (VInt 1) (VInt 2));
    [reflexivity | vm_compute; discriminate].
Defined.

(** *** Keys of class [UserDefinedClass] *)

(** A display with an instance of [UserDefinedClass] as key. *)
Lemma dict_display_UserDefinedClass (h : heap) (l : loc) (d : gmap string value) (v : value) :
  h !! l = Some (OInst UserDefinedClass d) →
  dict_display (VRef l) v h
  = (Ok (VRef (fresh (dom h))),
     <[fresh (dom h) := ODict (single_entry (_Py_HashPointer (id_ l)) (VRef l) v)]> h).
Proof.
  intros Hl. unfold dict_display, new_dict.
  rewrite run_bind, run_alloc. cbv beta iota.
  set (dl := fresh (dom h)). set (h1 := <[dl := ODict new_keys]> h).
  assert (h1 !! l = Some (OInst UserDefinedClass d)) as Hl1.
  { subst h1. rewrite lookup_insert_ne; [done|]. apply fresh_ne; eauto. }
  rewrite run_bind.
  rewrite (dict_setitem_new h1 h1 dl (VRef l) v _ (lookup_insert_eq _ _ _)
             (hash_UserDefinedClass _ _ _ Hl1)).
  cbv beta iota. subst h1. by rewrite insert_insert_eq.
Qed.

(** Two instances of [UserDefinedClass] are equal only when they are one
    object. *)
Lemma richcompare_UserDefinedClass (h : heap) (l1 l2 : loc) (d1 d2 : gmap string value) :
  h !! l1 = Some (OInst UserDefinedClass d1) →
  h !! l2 = Some (OInst UserDefinedClass d2) →
  richcompare recursion_limit h Py_EQ (VRef l1) (VRef l2) = Ok (bool_decide (l1 = l2)).
Proof.
  intros H1 H2. rewrite recursion_limit_S, richcompare_unfold.
  cbn [operand_of]. by rewrite H1, H2.
Qed.

(** X9.  An instance of [UserDefinedClass] is a key by identity alone,
    since the class defines neither [__hash__] nor [__eq__].  From any
    heap, for [class_inst = UserDefinedClass(a, b)] and
    [dictC = {class_inst: v}]: after an assignment [class_inst.attr = w]
    to any attribute, [a], [b] or a new one, [dictC[class_inst]] gives
    [v]; and looking up a second instance made with the same [a] and [b]
    raises KeyError. *)
Theorem instance_is_a_key_by_identity (h : heap) (a b v w : value) (attr : string) :
  Descriptors.is_special attr = false →
  ∃ class_inst dictC h1 h2,
    UserDefinedKey.new_UserDefinedClass a b h = (Ok class_inst, h1)
    ∧ dict_display class_inst v h1 = (Ok dictC, h2)
    ∧ (∃ h3, (Descriptors.setattr class_inst attr w;; dict_getitem dictC class_inst) h2
             = (Ok v, h3))
    ∧ (∃ other h3 h4,
         UserDefinedKey.new_UserDefinedClass a b h2 = (Ok other, h3)
         ∧ dict_getitem dictC other h3 = (Raise (KeyError other), h4)).
Proof.
  intros Hsp.
  set (l := fresh (dom h)).
  set (d := <["b" := b]> (<["a" := a]> ∅) : gmap string value).
  set (h1 := <[l := OInst UserDefinedClass d]> h).
  set (dl := fresh (dom h1)).
  set (h2 := <[dl := ODict (single_entry (_Py_HashPointer (id_ l)) (VRef l) v)]> h1).
  assert (dl ≠ l) as Hne by (apply fresh_ne; subst h1; rewrite lookup_insert_eq; eauto).
  assert (h2 !! l = Some (OInst UserDefinedClass d)) as Hl2.
  { subst h2 h1. rewrite lookup_insert_ne by done. apply lookup_insert_eq. }
  exists (VRef l), (VRef dl), h1, h2.
  split; [apply new_UserDefinedClass_run|].
  split; [apply (dict_display_UserDefinedClass _ _ d); subst h1; apply lookup_insert_eq|].
  split.
  - eexists. rewrite run_bind.
    rewrite (DataclassesProofs.setattr_store _ _ _ _ attr w Hl2 eq_refl Hsp eq_refl).
    cbv beta iota.
    set (h3 := <[l := _]> h2).
    assert (h3 !! dl = Some (ODict (single_entry (_Py_HashPointer (id_ l)) (VRef l) v))) as Hdl3.
    { subst h3 h2. rewrite lookup_insert_ne by done. apply lookup_insert_eq. }
    assert (h3 !! l = Some (OInst UserDefinedClass (<[attr := w]> d))) as Hl3.
    { subst h3. apply lookup_insert_eq. }
    rewrite (dict_getitem_run h3 h3 dl _ (VRef l) _ _ Hdl3 (hash_UserDefinedClass _ _ _ Hl3)
               (lookdict_found _ _ _ _ _ eq_refl)).
    reflexivity.
  - set (l' := fresh (dom h2)).
    set (h3 := <[l' := OInst UserDefinedClass d]> h2).
    assert (l' ≠ l) as Hne' by (apply fresh_ne; eauto).
    assert (l' ≠ dl) as Hne'' by (apply fresh_ne; subst h2; rewrite lookup_insert_eq; eauto).
    assert (h3 !! l = Some (OInst UserDefinedClass d)) as Hl3.
    { subst h3. by rewrite lookup_insert_ne. }
    assert (h3 !! l' = Some (OInst UserDefinedClass d)) as Hl3' by apply lookup_insert_eq.
    assert (h3 !! dl = Some (ODict (single_entry (_Py_HashPointer (id_ l)) (VRef l) v)))
      as Hdl3.
    { subst h3 h2. rewrite lookup_insert_ne by done. apply lookup_insert_eq. }
    exists (VRef l'), h3, h3.
    split; [apply new_UserDefinedClass_run|].
    rewrite (dict_getitem_run h3 h3 dl _ (VRef l') _ None Hdl3
               (hash_UserDefinedClass _ _ _ Hl3')); [reflexivity|].
    apply lookdict_mismatch.
    + cbn [is_]. by rewrite bool_decide_false.
    + right. rewrite (richcompare_UserDefinedClass _ _ _ _ _ Hl3 Hl3').
      by rewrite bool_decide_false.
Qed.

Lemma instance_is_a_key_by_identity_witness :
  ∃ class_inst dictC h1 h2,
    UserDefinedKey.new_UserDefinedClass (VInt 1) (VInt 2) ∅ = (Ok class_inst, h1)
    ∧ dict_display class_inst (VInt 1) h1 = (Ok dictC, h2)
    ∧ (∃ h3, (Descriptors.setattr class_inst "a" (VInt 10);; dict_getitem dictC class_inst) h2
             = (Ok (VInt 1), h3))
    ∧ (∃ other h3 h4,
         UserDefinedKey.new_UserDefinedClass (VInt 1) (VInt 2) h2 = (Ok other, h3)
         ∧ dict_getitem dictC other h3 = (Raise (KeyError other), h4)).
Proof.
  apply (instance_is_a_key_by_identity ∅ (VInt 1) (VInt 2) (VInt 1) (VInt 10) "a").
  reflexivity.
Defined.

End DictionaryKeysProperties.

Module DescriptorsProperties.
Import Py Decl Compare Descriptors DescriptorsProofs.
Local Open Scope Z_scope.

(** X10.  [MyClass(value1, value2)] with two ints validates them in the
    order of the assignments in [__init__].  From any heap: when both lie
    in [0, 100] the call returns an instance on which [value1] and
    [value2] read as given; when [value1] lies outside, it raises
    ValueError for [value1], whatever [value2] is; when only [value2]
    lies outside, it raises ValueError for [value2]. *)
Theorem MyClass_validates_both_arguments (h : heap) (value1 value2 : Z) :
  (0 ≤ value1 ≤ 100 → 0 ≤ value2 ≤ 100 →
     ∃ obj h', new_MyClass (VInt value1) (VInt value2) h = (Ok obj, h')
               ∧ getattr obj "value1" h' = (Ok (VInt value1), h')
               ∧ getattr obj "value2" h' = (Ok (VInt value2), h'))
  ∧ (value1 < 0 ∨ 100 < value1 →
     ∃ h', new_MyClass (VInt value1) (VInt value2) h
           = (Raise (ValueError (pretty value1 +:+ " must be between 0 and 100")), h'))
  ∧ (0 ≤ value1 ≤ 100 → value2 < 0 ∨ 100 < value2 →
     ∃ h', new_MyClass (VInt value1) (VInt value2) h
           = (Raise (ValueError (pretty value2 +:+ " must be between 0 and 100")), h')).
Proof.
  set (l := fresh (dom h)).
  set (h0 := <[l := OInst MyClass ∅]> h).
  assert (h0 !! l = Some (OInst MyClass ∅)) as H0 by apply lookup_insert_eq.
  assert (managed "value1") as M1 by (by left).
  assert (managed "value2") as M2 by (by right).
  split; [|split].
  - intros Hv1 Hv2.
    exists (VRef l). eexists. split; [|split].
    + unfold new_MyClass, MyClass__init__.
      rewrite run_bind, run_alloc. cbv beta iota.
      rewrite !run_bind.
      rewrite (setattr_managed _ _ _ _ _ H0 M1), (set_in_range _ _ _ _ _ _ H0 Hv1).
      cbv beta iota.
      erewrite setattr_managed; [|apply lookup_insert_eq|exact M2].
      erewrite set_in_range; [|apply lookup_insert_eq|exact Hv2].
      cbv beta iota. reflexivity.
    + erewrite getattr_managed; [|apply lookup_insert_eq|exact M1]. reflexivity.
    + erewrite getattr_managed; [|apply lookup_insert_eq|exact M2]. reflexivity.
  - intros Hv1. eexists.
    unfold new_MyClass, MyClass__init__.
    rewrite run_bind, run_alloc. cbv beta iota.
    rewrite !run_bind.
    rewrite (setattr_managed _ _ _ _ _ H0 M1), (set_out_of_range _ _ _ _ Hv1).
    reflexivity.
  - intros Hv1 Hv2. eexists.
    unfold new_MyClass, MyClass__init__.
    rewrite run_bind, run_alloc. cbv beta iota.
    rewrite !run_bind.
    rewrite (setattr_managed _ _ _ _ _ H0 M1), (set_in_range _ _ _ _ _ _ H0 Hv1).
    cbv beta iota.
    erewrite setattr_managed; [|apply lookup_insert_eq|exact M2].
    rewrite (set_out_of_range _ _ _ _ Hv2).
    reflexivity.
Qed.

Lemma MyClass_validates_both_arguments_witness :
  (∃ obj h', new_MyClass (VInt 40) (VInt 65) ∅ = (Ok obj, h')
             ∧ getattr obj "value1" h' = (Ok (VInt 40), h')
             ∧ getattr obj "value2" h' = (Ok (VInt 65), h'))
  ∧ (∃ h', new_MyClass (VInt 101) (VInt 500) ∅
           = (Raise (ValueError (pretty 101 +:+ " must be between 0 and 100")), h'))
  ∧ (∃ h', new_MyClass (VInt 1) (VInt 500) ∅
           = (Raise (ValueError (pretty 500 +:+ " must be between 0 and 100")), h')).
Proof.
  split; [|split].
  - apply (proj1 (MyClass_validates_both_arguments ∅ 40 65)); lia.
  - apply (proj1 (proj2 (MyClass_validates_both_arguments ∅ 101 500))); lia.
  - apply (proj2 (proj2 (MyClass_validates_both_arguments ∅ 1 500))); lia.
Defined.

Lemma unmanaged_no_descriptor (attr : string) :
  ¬ managed attr → Dataclasses.has_descriptor MyClass attr = false.
Proof.
  intros Hm. unfold Dataclasses.has_descriptor, type_lookup.
  rewrite !bool_decide_false; [reflexivity | |]; intros ->; apply Hm; [by right | by left].
Qed.

(** X11.  Only [value1] and [value2] are validated.  On every instance
    of [MyClass], an assignment to any other attribute (the notebook assigns
    to [int_value1]) stores any value at all in the instance [__dict__],
    without a call of [__set__]; reading the attribute gives that value,
    and [value1] and [value2] read as before. *)
Theorem unmanaged_attribute_is_not_validated (h : heap) (l : loc) (d : gmap string value)
    (attr : string) (v : value) :
  h !! l = Some (OInst MyClass d) →
  ¬ managed attr →
  is_special attr = false →
  ∃ h', setattr (VRef l) attr v h = (Ok tt, h')
        ∧ h' !! l = Some (OInst MyClass (<[attr := v]> d))
        ∧ getattr (VRef l) attr h' = (Ok v, h')
        ∧ ∀ m, managed m →
            ∃ r, getattr (VRef l) m h = (Ok r, h) ∧ getattr (VRef l) m h' = (Ok r, h').
Proof.
  intros Hl Hm Hsp. pose proof (unmanaged_no_descriptor attr Hm) as Hd.
  eexists. split; [|split; [|split]].
  - exact (DataclassesProofs.setattr_store _ _ _ _ attr v Hl eq_refl Hsp Hd).
  - apply lookup_insert_eq.
  - eapply DataclassesProofs.getattr_dict;
      [apply lookup_insert_eq | exact Hsp | exact Hd | apply lookup_insert_eq].
  - intros m Hmm. exists (default (VInt 0) (d !! m)). split.
    + by apply getattr_managed.
    + erewrite getattr_managed; [|apply lookup_insert_eq|exact Hmm].
      rewrite lookup_insert_ne; [reflexivity|]. intros ->. by apply Hm.
Qed.

Lemma unmanaged_attribute_is_not_validated_witness :
  ∃ h', setattr (VRef 0%nat) "int_value1" (VInt 500) obj_40_65 = (Ok tt, h')
        ∧ h' !! 0%nat = Some (OInst MyClass (<["int_value1" := VInt 500]> dict_40_65))
        ∧ getattr (VRef 0%nat) "int_value1" h' = (Ok (VInt 500), h')
        ∧ ∀ m, managed m →
            ∃ r, getattr (VRef 0%nat) m obj_40_65 = (Ok r, obj_40_65)
                 ∧ getattr (VRef 0%nat) m h' = (Ok r, h').
Proof.
  apply (unmanaged_attribute_is_not_validated obj_40_65 0%nat dict_40_65 "int_value1" (VInt 500));
    [reflexivity | intros [E | E]; discriminate E | reflexivity].
Defined.

(** X12.  A value that [__set__] accepts goes into the [__dict__] of the
    instance under the name of the attribute, and nowhere else.  On every
    instance of [MyClass], after a valid assignment to one managed
    attribute, every managed attribute of every other instance, and the
    other managed attribute of the same instance, reads as before. *)
Theorem managed_attributes_do_not_interfere (h : heap) (l l' : loc) (d d' : gmap string value)
    (attr attr' : string) (v : Z) :
  h !! l = Some (OInst MyClass d) →
  h !! l' = Some (OInst MyClass d') →
  managed attr →
  managed attr' →
  0 ≤ v ≤ 100 →
  l ≠ l' ∨ attr ≠ attr' →
  ∃ h' r, setattr (VRef l) attr (VInt v) h = (Ok tt, h')
          ∧ getattr (VRef l') attr' h = (Ok r, h)
          ∧ getattr (VRef l') attr' h' = (Ok r, h').
Proof.
  intros Hl Hl' Hm Hm' Hv Hne.
  exists (<[l := OInst MyClass (<[attr := VInt v]> d)]> h), (default (VInt 0) (d' !! attr')).
  split; [|split].
  - rewrite (setattr_managed _ _ _ _ _ Hl Hm). by apply set_in_range.
  - by apply getattr_managed.
  - destruct (decide (l = l')) as [<- | Hll].
    + assert (d' = d) as -> by congruence.
      destruct Hne as [? | Hattr]; [done|].
      erewrite getattr_managed; [|apply lookup_insert_eq|exact Hm'].
      by rewrite lookup_insert_ne.
    + erewrite getattr_managed; [reflexivity | | exact Hm'].
      by rewrite lookup_insert_ne.
Qed.

Lemma managed_attributes_do_not_interfere_witness :
  ∃ h' r, setattr (VRef 0%nat) "value1" (VInt 7) obj_40_65 = (Ok tt, h')
          ∧ getattr (VRef 0%nat) "value2" obj_40_65 = (Ok r, obj_40_65)
          ∧ getattr (VRef 0%nat) "value2" h' = (Ok r, h').
Proof.
  apply (managed_attributes_do_not_interfere obj_40_65 0%nat 0%nat dict_40_65 dict_40_65
           "value1" "value2" 7);
    [reflexivity | reflexivity | by left | by right | lia | right; discriminate].
Defined.

(** The comparison of an int with a str or None. *)
Lemma compare_int_unordered (op : cmpop) (n : Z) (v : value) (h : heap) :
  match v with VStr _ | VNone => True | _ => False end →
  match op with Py_EQ | Py_NE => False | _ => True end →
  compare op (VInt n) v h
  = (Raise (TypeError ("'" +:+ op_symbol op +:+ "' not supported between instances of 'int' and '"
                       +:+ match v with VStr _ => "str" | _ => "NoneType" end +:+ "'")), h).
Proof.
  intros Hv Hop. apply run_lift_raise. rewrite recursion_limit_S, richcompare_unfold.
  destruct v; try done; destruct op; done.
Qed.

(** X13.  [__set__] compares the value with the bounds and does not look
    at its type.  On every instance of [MyClass] and managed attribute: a
    str or None raises the TypeError of the comparison [0 <= value], not
    ValueError, and leaves the heap as it was; a bool is accepted, True
    counting as 1 and False as 0, and is stored and read back as the bool it
    is. *)
Theorem values_that_are_not_ints (h : heap) (l : loc) (d : gmap string value) (attr : string) :
  h !! l = Some (OInst MyClass d) →
  managed attr →
  (∀ s, setattr (VRef l) attr (VStr s) h
        = (Raise (TypeError "'<=' not supported between instances of 'int' and 'str'"), h))
  ∧ setattr (VRef l) attr VNone h
    = (Raise (TypeError "'<=' not supported between instances of 'int' and 'NoneType'"), h)
  ∧ (∀ b, ∃ h', setattr (VRef l) attr (VBool b) h = (Ok tt, h')
                ∧ getattr (VRef l) attr h' = (Ok (VBool b), h')).
Proof.
  intros Hl Hm. split; [|split].
  - intros s. rewrite (setattr_managed _ _ _ _ _ Hl Hm).
    unfold ValidationDescriptor__set__. cbn [min max].
    by rewrite run_bind, (compare_int_unordered Py_LE 0 (VStr s)).
  - rewrite (setattr_managed _ _ _ _ _ Hl Hm).
    unfold ValidationDescriptor__set__. cbn [min max].
    by rewrite run_bind, (compare_int_unordered Py_LE 0 VNone).
  - intros b. eexists. split.
    + rewrite (setattr_managed _ _ _ _ _ Hl Hm).
      unfold ValidationDescriptor__set__. cbn [min max].
      unfold compare. rewrite recursion_limit_S.
      rewrite run_bind, (run_lift _ _ true) by (by destruct b). cbv beta iota.
      rewrite run_bind, (run_lift _ _ true) by (by destruct b). cbv beta iota.
      cbn [negb]. unfold instance_dict.
      rewrite !run_bind, (run_deref _ _ _ Hl). cbv beta iota.
      rewrite run_ret. cbv beta iota. rewrite run_bind. reflexivity.
    + erewrite getattr_managed; [|apply lookup_insert_eq|exact Hm].
      by rewrite lookup_insert_eq.
Qed.

Lemma values_that_are_not_ints_witness :
  (∀ s, setattr (VRef 0%nat) "value1" (VStr s) obj_40_65
        = (Raise (TypeError "'<=' not supported between instances of 'int' and 'str'"), obj_40_65))
  ∧ setattr (VRef 0%nat) "value1" VNone obj_40_65
    = (Raise (TypeError "'<=' not supported between instances of 'int' and 'NoneType'"), obj_40_65)
  ∧ (∀ b, ∃ h', setattr (VRef 0%nat) "value1" (VBool b) obj_40_65 = (Ok tt, h')
                ∧ getattr (VRef 0%nat) "value1" h' = (Ok (VBool b), h')).
Proof.
  apply (values_that_are_not_ints obj_40_65 0%nat dict_40_65 "value1"); [reflexivity | by left].
Defined.



(** X15.  On every instance of [MyClass] and managed attribute, after
    any sequence of assignments of ints, each in a [try] that catches
    ValueError: reading the attribute gives the last value of the sequence
    that lies in [0, 100], and when there is none, what the instance held
    before, or 0 when it held nothing. *)
Theorem rejected_assignments_leave_no_trace (h : heap) (l : loc) (d : gmap string value)
    (attr : string) (vs : list Z) :
  h !! l = Some (OInst MyClass d) →
  managed attr →
  ∃ h', attempts (VRef l) attr vs h = (Ok tt, h')
        ∧ getattr (VRef l) attr h'
          = (Ok (default (default (VInt 0) (d !! attr)) (VInt <$> last_valid vs)), h').
Proof. intros Hl Hm. by apply attempts_then_get. Qed.

Lemma rejected_assignments_leave_no_trace_witness :
  ∃ h', attempts (VRef 0%nat) "value1" [50; 101; 7; -1; 300] obj_40_65 = (Ok tt, h')
        ∧ getattr (VRef 0%nat) "value1" h'
          = (Ok (default (default (VInt 0) (dict_40_65 !! "value1"))
                   (VInt <$> last_valid [50; 101; 7; -1; 300])), h').
Proof.
  apply (rejected_assignments_leave_no_trace obj_40_65 0%nat dict_40_65 "value1"
           [50; 101; 7; -1; 300]); [reflexivity | by left].
Defined.

End DescriptorsProperties.

Module MyDescriptorProperties.
Import Py Compare MyDescriptorCells.













End MyDescriptorProperties.

Module DataclassesProperties.
Import Py Decl Compare Descriptors Dataclasses DataclassesProofs.
Local Open Scope Z_scope.

(** *** Comparisons *)

(** Any comparison of [(name1, age1)] with [(name2, age2)]. *)
Lemma compare_name_age (depth : nat) (h : heap) (op : cmpop) (name1 name2 : string)
    (age1 age2 : Z) :
  compare_sequences op (richcompare (S depth) h Py_EQ) (richcompare (S depth) h op)
    [VStr name1; VInt age1] [VStr name2; VInt age2]
  = Ok (of_comparison op (match String.compare name1 name2 with
                          | Eq => age1 ?= age2
                          | c => c
                          end)).
Proof.
  cbn [compare_sequences is_]. rewrite !richcompare_str, !richcompare_int.
  destruct (String.compare name1 name2); cbn [of_comparison];
    destruct (age1 ?= age2); by destruct op.
Qed.

Lemma compare_age (depth : nat) (h : heap) (op : cmpop) (age1 age2 : Z) :
  compare_sequences op (richcompare (S depth) h Py_EQ) (richcompare (S depth) h op)
    [VInt age1] [VInt age2]
  = Ok (of_comparison op (age1 ?= age2)).
Proof.
  cbn [compare_sequences is_]. rewrite !richcompare_int.
  destruct (age1 ?= age2); by destruct op.
Qed.

(** X19.  With [order=True], all six comparison operators of a dataclass
    follow one order.  From any heap, for any names and ages and any
    operator [op] of [==], [!=], [<], [<=], [>], [>=]:
    [PersonOrder(name1, age1) op PersonOrder(name2, age2)] is [op] on the
    comparison of the names, or of the ages when the names are equal;
    [PersonOrderAge(name1, age1) op PersonOrderAge(name2, age2)] is [op] on
    the comparison of the ages alone, so that two [PersonOrderAge] of one
    age are equal whatever their names. *)
Theorem six_operators_follow_one_order (h : heap) (op : cmpop) (name1 name2 : string)
    (age1 age2 : Z) :
  (∃ h', (p1 ← new PersonOrder [VStr name1; VInt age1] [];
          p2 ← new PersonOrder [VStr name2; VInt age2] [];
          compare op p1 p2) h
         = (Ok (of_comparison op (match String.compare name1 name2 with
                                  | Eq => age1 ?= age2
                                  | c => c
                                  end)), h'))
  ∧ (∃ h', (p1 ← new PersonOrderAge [VStr name1; VInt age1] [];
            p2 ← new PersonOrderAge [VStr name2; VInt age2] [];
            compare op p1 p2) h
           = (Ok (of_comparison op (age1 ?= age2)), h')).
Proof.
  split.
  - rewrite run_bind, new_PersonOrder. cbv beta iota.
    rewrite run_bind, new_PersonOrder. cbv beta iota.
    eexists. apply run_lift. rewrite recursion_limit_S, richcompare_unfold.
    destruct (two_allocations h
                (OInst PersonOrder (<["age" := VInt age1]> (<["name" := VStr name1]> ∅)))
                (OInst PersonOrder (<["age" := VInt age2]> (<["name" := VStr name2]> ∅))))
      as (H1 & H2 & _).
    cbn [operand_of]. rewrite H1, H2. cbn [dataclass_of dc_order].
    rewrite bool_decide_true by done.
    replace (true && match op with Py_EQ | Py_NE => true | _ => true end) with true
      by (by destruct op).
    rewrite !(compare_tuple_PersonOrder _ _ _ eq_refl).
    apply compare_name_age.
  - rewrite run_bind, new_PersonOrderAge. cbv beta iota.
    rewrite run_bind, new_PersonOrderAge. cbv beta iota.
    eexists. apply run_lift. rewrite recursion_limit_S, richcompare_unfold.
    destruct (two_allocations h
                (OInst PersonOrderAge (<["age" := VInt age1]> (<["name" := VStr name1]> ∅)))
                (OInst PersonOrderAge (<["age" := VInt age2]> (<["name" := VStr name2]> ∅))))
      as (H1 & H2 & _).
    cbn [operand_of]. rewrite H1, H2. cbn [dataclass_of dc_order].
    rewrite bool_decide_true by done.
    replace (true && match op with Py_EQ | Py_NE => true | _ => true end) with true
      by (by destruct op).
    rewrite !(compare_tuple_PersonOrderAge _ _ _ eq_refl).
    apply compare_age.
Qed.



(** X21.  In any heap, two instances of different classes of the
    notebooks are unequal, whatever their fields hold: [==] gives False
    and [!=] gives True, and neither raises.  A generated [__eq__] answers
    only for an operand of its own class. *)
Theorem instances_of_different_classes_are_unequal (h : heap) (c1 c2 : class) (l1 l2 : loc)
    (d1 d2 : gmap string value) :
  h !! l1 = Some (OInst c1 d1) →
  h !! l2 = Some (OInst c2 d2) →
  c1 ≠ c2 →
  compare Py_EQ (VRef l1) (VRef l2) h = (Ok false, h)
  ∧ compare Py_NE (VRef l1) (VRef l2) h = (Ok true, h).
Proof.
  intros H1 H2 Hc.
  assert (l1 ≠ l2) as Hl by (intros ->; congruence).
  split; apply run_lift; rewrite recursion_limit_S, richcompare_unfold;
    cbn [operand_of]; rewrite H1, H2; cbv zeta;
    (destruct (dataclass_of c1);
     [rewrite (bool_decide_false (c1 = c2)) by done; cbn [andb]|]);
    unfold not_implemented; cbn [is_]; by rewrite bool_decide_false.
Qed.

Lemma instances_of_different_classes_are_unequal_witness :
  compare Py_EQ (VRef 0%nat) (VRef 2%nat) heap_Jas = (Ok false, heap_Jas)
  ∧ compare Py_NE (VRef 0%nat) (VRef 2%nat) heap_Jas = (Ok true, heap_Jas).
Proof.
  apply (instances_of_different_classes_are_unequal heap_Jas DcPerson Person 0%nat 2%nat
           dict_Jas dict_Jas); (reflexivity || discriminate).
Defined.

(** *** Hashing *)

(** X22.  [@dataclass] without [frozen=True] generates [__eq__] and sets
    [__hash__] to None.  In any heap: an instance of a dataclass that is
    not frozen is unhashable, so a dict display with it as key raises
    TypeError with the name of the class; an instance of a class that is
    no dataclass, such as the hand-written [Person], is hashable by
    identity, and a display with it as key returns a dict in which it is
    found. *)
Theorem dataclass_instance_is_no_dict_key (h : heap) (c : class) (l : loc)
    (d : gmap string value) (v : value) :
  h !! l = Some (OInst c d) →
  (∀ dc, dataclass_of c = Some dc → dc_frozen dc = false →
     DictionaryKeys.builtin_hash (VRef l) h
     = (Raise (TypeError ("unhashable type: '" +:+ class_name c +:+ "'")), h)
     ∧ ∃ h', DictionaryKeys.dict_display (VRef l) v h
             = (Raise (TypeError ("unhashable type: '" +:+ class_name c +:+ "'")), h'))
  ∧ (dataclass_of c = None →
     ∃ dict h1 h2, DictionaryKeys.dict_display (VRef l) v h = (Ok dict, h1)
                   ∧ DictionaryKeys.dict_getitem dict (VRef l) h1 = (Ok v, h2)).
Proof.
  intros Hl. split.
  - assert (∀ h dc, h !! l = Some (OInst c d) → dataclass_of c = Some dc → dc_frozen dc = false →
                    DictionaryKeys.builtin_hash (VRef l) h
                    = (Raise (TypeError ("unhashable type: '" +:+ class_name c +:+ "'")), h))
      as Hhash.
    { clear h Hl. intros h dc Hl Hdc Hfr. unfold DictionaryKeys.builtin_hash.
      rewrite recursion_limit_S, (DictionaryKeysProofs.hash_ref_at _ _ _ _ Hl).
      by rewrite Hdc, Hfr. }
    intros dc Hdc Hfr. split; [by apply (Hhash h dc)|].
    unfold DictionaryKeys.dict_display, DictionaryKeys.new_dict.
    rewrite run_bind, run_alloc. cbv beta iota.
    set (dl := fresh (dom h)). set (h1 := <[dl := ODict DictionaryKeys.new_keys]> h).
    assert (h1 !! l = Some (OInst c d)) as Hl1.
    { subst h1. rewrite lookup_insert_ne; [done|]. apply fresh_ne; eauto. }
    rewrite run_bind.
    rewrite (DictionaryKeysProofs.dict_setitem_raise h1 h1 dl DictionaryKeys.new_keys _ _ _
               (lookup_insert_eq _ _ _) (Hhash h1 dc Hl1 Hdc Hfr)).
    eexists. reflexivity.
  - intros Hdc.
    assert (∀ h d, h !! l = Some (OInst c d) →
                   DictionaryKeys.builtin_hash (VRef l) h
                   = (Ok (DictionaryKeys._Py_HashPointer (DictionaryKeys.id_ l)), h)) as Hhash.
    { clear h d Hl. intros h d Hl. unfold DictionaryKeys.builtin_hash.
      rewrite recursion_limit_S, (DictionaryKeysProofs.hash_ref_at _ _ _ _ Hl).
      by rewrite Hdc. }
    unfold DictionaryKeys.dict_display, DictionaryKeys.new_dict.
    rewrite run_bind, run_alloc. cbv beta iota.
    set (dl := fresh (dom h)). set (h1 := <[dl := ODict DictionaryKeys.new_keys]> h).
    assert (dl ≠ l) as Hne by (apply fresh_ne; eauto).
    assert (h1 !! l = Some (OInst c d)) as Hl1 by (subst h1; by rewrite lookup_insert_ne).
    rewrite run_bind.
    rewrite (DictionaryKeysProofs.dict_setitem_new h1 h1 dl (VRef l) v _ (lookup_insert_eq _ _ _)
               (Hhash h1 d Hl1)).
    cbv beta iota. rewrite run_ret.
    set (h2 := <[dl := _]> h1).
    assert (h2 !! l = Some (OInst c d)) as Hl2 by (subst h2; by rewrite lookup_insert_ne).
    exists (VRef dl), h2, h2. split; [reflexivity|].
    rewrite (DictionaryKeysProofs.dict_getitem_run h2 h2 dl _ (VRef l) _ _
               (lookup_insert_eq _ _ _) (Hhash h2 d Hl2)
               (DictionaryKeysProofs.lookdict_found _ _ _ _ _ eq_refl)).
    reflexivity.
Qed.

Lemma dataclass_instance_is_no_dict_key_witness :
  (DictionaryKeys.builtin_hash (VRef 0%nat) heap_Jas
   = (Raise (TypeError "unhashable type: 'DcPerson'"), heap_Jas)
   ∧ ∃ h', DictionaryKeys.dict_display (VRef 0%nat) (VInt 1) heap_Jas
           = (Raise (TypeError "unhashable type: 'DcPerson'"), h'))
  ∧ (∃ dict h1 h2, DictionaryKeys.dict_display (VRef 2%nat) (VInt 1) heap_Jas = (Ok dict, h1)
                   ∧ DictionaryKeys.dict_getitem dict (VRef 2%nat) h1 = (Ok (VInt 1), h2)).
Proof.
  split.
  - apply (proj1 (dataclass_instance_is_no_dict_key heap_Jas DcPerson 0%nat dict_Jas (VInt 1)
                    eq_refl) (Dataclass false false [plain "first_name"; plain "last_name"; plain "age"]));
      reflexivity.
  - apply (proj2 (dataclass_instance_is_no_dict_key heap_Jas Person 2%nat dict_Jas (VInt 1)
                    eq_refl)).
    reflexivity.
Defined.

(** *** After construction *)

(** X23.  [__post_init__] runs once, in the call that makes the
    instance.  From any heap, for [person = PersonPostInit(name, age)] or
    [PersonPostInit(name, age, email)] with an int [age] that is not
    negative: a later assignment [person.age = v] of any value, a negative
    int or no int at all, returns normally, [person.age] then reads [v],
    and [person.is_adult] still reads what it was set to from the first
    age. *)
Theorem is_adult_is_set_once (h : heap) (name : value) (age : Z) (email : option value)
    (v : value) :
  0 ≤ age →
  ∃ person h1 h2,
    new PersonPostInit (call_args name (VInt age) email) [] h = (Ok person, h1)
    ∧ setattr person "age" v h1 = (Ok tt, h2)
    ∧ getattr person "age" h2 = (Ok v, h2)
    ∧ getattr person "is_adult" h2 = (Ok (VBool (age >=? 18)), h2).
Proof.
  intros Hage. exists (VRef (fresh (dom h))). eexists. eexists.
  split; [by apply new_PersonPostInit_valid|]. split; [|split].
  - eapply setattr_store; [apply lookup_insert_eq | reflexivity..].
  - eapply getattr_dict; [apply lookup_insert_eq | reflexivity | reflexivity |].
    apply lookup_insert_eq.
  - eapply getattr_dict; [apply lookup_insert_eq | reflexivity | reflexivity |].
    rewrite lookup_insert_ne by done. apply lookup_insert_eq.
Qed.

Lemma is_adult_is_set_once_witness :
  ∃ person h1 h2,
    new PersonPostInit [VStr "Alice"; VInt 25; VStr "test"] [] ∅ = (Ok person, h1)
    ∧ setattr person "age" (VInt (-5)) h1 = (Ok tt, h2)
    ∧ getattr person "age" h2 = (Ok (VInt (-5)), h2)
    ∧ getattr person "is_adult" h2 = (Ok (VBool true), h2).
Proof.
  apply (is_adult_is_set_once ∅ (VStr "Alice") 25 (Some (VStr "test")) (VInt (-5))). lia.
Defined.

(** The generated [__init__] of [PersonPostInit], and then
    [__post_init__] on what it left. *)
Lemma new_PersonPostInit_run (h : heap) (name age : value) (email : option value) :
  let l := fresh (dom h) in
  let h1 := <[l := OInst PersonPostInit
                     (dict_PersonPostInit name age (default (VStr EmptyString) email))]> h in
  new PersonPostInit (call_args name age email) [] h
  = (PersonPostInit__post_init__ (VRef l) ≫= λ _, mret (VRef l)) h1.
Proof.
  intros l h1. unfold new. cbn [dataclass_of post_init_of dc_frozen dc_fields].
  rewrite run_bind, run_alloc. cbv beta iota.
  rewrite (init_params_PersonPostInit _ eq_refl).
  rewrite run_bind, bind_arguments_PersonPostInit. cbv beta iota.
  rewrite run_bind, init_body_PersonPostInit by apply lookup_insert_eq. cbv beta iota.
  by rewrite insert_insert_eq.
Qed.

(** X24.  [__post_init__] compares [self.age] as it is.  From any heap,
    for a call [PersonPostInit(name, age)] or
    [PersonPostInit(name, age, email)]: with a str for [age], or None, the
    comparison [self.age < 0] raises TypeError and no instance is
    returned; with a bool for [age] the call returns an instance whose
    [is_adult] is False and whose [age] is that bool. *)
Theorem age_that_is_no_int (h : heap) (name : value) (email : option value) :
  (∀ s, ∃ h', new PersonPostInit (call_args name (VStr s) email) [] h
              = (Raise (TypeError "'<' not supported between instances of 'str' and 'int'"), h'))
  ∧ (∃ h', new PersonPostInit (call_args name VNone email) [] h
           = (Raise (TypeError "'<' not supported between instances of 'NoneType' and 'int'"), h'))
  ∧ (∀ b, ∃ person h', new PersonPostInit (call_args name (VBool b) email) [] h = (Ok person, h')
                       ∧ getattr person "is_adult" h' = (Ok (VBool false), h')
                       ∧ getattr person "age" h' = (Ok (VBool b), h')).
Proof.
  assert (∀ age, dict_PersonPostInit name age (default (VStr EmptyString) email) !! "age"
                 = Some age) as Hage.
  { intros age. unfold dict_PersonPostInit.
    rewrite lookup_insert_ne by done. apply lookup_insert_eq. }
  split; [|split].
  - intros s. rewrite new_PersonPostInit_run. cbv zeta.
    unfold PersonPostInit__post_init__. rewrite !run_bind.
    erewrite getattr_dict; [| apply lookup_insert_eq | reflexivity | reflexivity | apply Hage].
    cbv beta iota.
    rewrite run_bind. unfold compare. rewrite recursion_limit_S.
    erewrite run_lift_raise by reflexivity.
    eexists. reflexivity.
  - rewrite new_PersonPostInit_run. cbv zeta.
    unfold PersonPostInit__post_init__. rewrite !run_bind.
    erewrite getattr_dict; [| apply lookup_insert_eq | reflexivity | reflexivity | apply Hage].
    cbv beta iota.
    rewrite run_bind. unfold compare. rewrite recursion_limit_S.
    erewrite run_lift_raise by reflexivity.
    eexists. reflexivity.
  - intros b. rewrite new_PersonPostInit_run. cbv zeta.
    unfold PersonPostInit__post_init__. rewrite !run_bind.
    erewrite getattr_dict; [| apply lookup_insert_eq | reflexivity | reflexivity | apply Hage].
    cbv beta iota.
    rewrite run_bind. unfold compare. rewrite recursion_limit_S.
    rewrite (run_lift _ _ false) by (by destruct b). cbv beta iota.
    rewrite run_bind.
    erewrite getattr_dict; [| apply lookup_insert_eq | reflexivity | reflexivity | apply Hage].
    cbv beta iota.
    rewrite run_bind, (run_lift _ _ false) by (by destruct b). cbv beta iota.
    erewrite setattr_store; [| apply lookup_insert_eq | reflexivity..].
    cbv beta iota. rewrite run_ret.
    do 2 eexists. split; [reflexivity|]. split.
    + eapply getattr_dict; [apply lookup_insert_eq | reflexivity | reflexivity |].
      apply lookup_insert_eq.
    + eapply getattr_dict; [apply lookup_insert_eq | reflexivity | reflexivity |].
      rewrite lookup_insert_ne by done. apply Hage.
Qed.

(** *** Construction *)

Lemma plain_fields_PersonDefaultFactory (dc : dataclass) :
  dataclass_of PersonDefaultFactory = Some dc → Forall (plain_field PersonDefaultFactory) (dc_fields dc).
Proof. intros [= <-]. repeat constructor. Qed.

(** X25.  [default_factory] is called only for a call that passes no
    list.  From any heap that holds a list: two instances made by calls
    [PersonDefaultFactory(name, age, email, l)] with that list [l] both
    have [l] itself as [list_values], no copy; after
    [first.list_values.append(x)], the list [l] and [second.list_values]
    show the element added. *)
Theorem list_given_to_the_constructor_is_shared (h : heap) (lv : loc) (items : list value)
    (name1 age1 email1 name2 age2 email2 x : value) :
  h !! lv = Some (OList builtin_list items) →
  ∃ h',
    (first ← new PersonDefaultFactory [name1; age1; email1; VRef lv] [];
     second ← new PersonDefaultFactory [name2; age2; email2; VRef lv] [];
     l1 ← getattr first "list_values";
     append l1 x;;
     l2 ← getattr second "list_values";
     shown1 ← shown (VRef lv);
     shown2 ← shown l2;
     mret (l1, l2, shown1, shown2)) h
    = (Ok (VRef lv, VRef lv, OList builtin_list (items ++ [x]), OList builtin_list (items ++ [x])),
       h').
Proof.
  intros Hlv.
  pose proof (plain_fields_PersonDefaultFactory _ eq_refl) as Hplain.
  rewrite run_bind.
  rewrite (new_plain PersonDefaultFactory _ [name1; age1; email1; VRef lv] h eq_refl eq_refl
             Hplain eq_refl).
  cbv beta iota.
  set (p1 := fresh (dom h)). set (h1 := <[p1 := _]> h).
  rewrite run_bind.
  rewrite (new_plain PersonDefaultFactory _ [name2; age2; email2; VRef lv] h1 eq_refl eq_refl
             Hplain eq_refl).
  cbv beta iota.
  set (p2 := fresh (dom h1)). set (h2 := <[p2 := _]> h1).
  assert (p1 ≠ lv) as Hp1 by (apply fresh_ne; eauto).
  assert (h1 !! lv = Some (OList builtin_list items)) as Hlv1
    by (subst h1; by rewrite lookup_insert_ne).
  assert (p2 ≠ lv) as Hp2 by (apply fresh_ne; eauto).
  assert (p2 ≠ p1) as Hp21 by (apply fresh_ne; subst h1; rewrite lookup_insert_eq; eauto).
  assert (h2 !! lv = Some (OList builtin_list items)) as Hlv2
    by (subst h2; by rewrite lookup_insert_ne).
  rewrite run_bind.
  erewrite (getattr_dict _ _ _ _ "list_values" (VRef lv));
    [| subst h2; rewrite lookup_insert_ne by done; subst h1; apply lookup_insert_eq
     | reflexivity | reflexivity | reflexivity].
  cbv beta iota.
  rewrite run_bind, (append_run _ _ _ _ _ Hlv2). cbv beta iota.
  set (h3 := <[lv := _]> h2).
  rewrite run_bind.
  erewrite (getattr_dict _ _ _ _ "list_values" (VRef lv));
    [| subst h3; rewrite lookup_insert_ne by done; subst h2; apply lookup_insert_eq
     | reflexivity | reflexivity | reflexivity].
  cbv beta iota.
  rewrite run_bind, (shown_run h3 lv (OList builtin_list (items ++ [x])))
    by apply lookup_insert_eq.
  cbv beta iota.
  rewrite run_bind, (shown_run h3 lv (OList builtin_list (items ++ [x])))
    by apply lookup_insert_eq.
  eexists. reflexivity.
Qed.

Lemma list_given_to_the_constructor_is_shared_witness :
  ∃ h',
    (first ← new PersonDefaultFactory [VStr "Eve"; VInt 45; VStr "e"; VRef 0%nat] [];
     second ← new PersonDefaultFactory [VStr "Dave"; VInt 40; VStr "d"; VRef 0%nat] [];
     l1 ← getattr first "list_values";
     append l1 (VInt 2);;
     l2 ← getattr second "list_values";
     shown1 ← shown (VRef 0%nat);
     shown2 ← shown l2;
     mret (l1, l2, shown1, shown2)) Scenarios.heap_list_tuple
    = (Ok (VRef 0%nat, VRef 0%nat, OList builtin_list ([VInt 1] ++ [VInt 2]),
           OList builtin_list ([VInt 1] ++ [VInt 2])), h').
Proof.
  apply (list_given_to_the_constructor_is_shared Scenarios.heap_list_tuple 0%nat [VInt 1]
           (VStr "Eve") (VInt 45) (VStr "e") (VStr "Dave") (VInt 40) (VStr "d") (VInt 2)).
  reflexivity.
Defined.

Lemma assign_all_other (fields : list field) :
  ∀ (vs : list value) (d : gmap string value) (name : string),
    name ∉ f_name <$> fields →
    assign_all d fields vs !! name = d !! name.
Proof.
  induction fields as [|f fields IH]; intros vs d name Hn; [reflexivity|].
  destruct vs as [|v vs]; [reflexivity|].
  rewrite fmap_cons, not_elem_of_cons in Hn. destruct Hn as [Hne Hn].
  unfold assign_all. cbn [zip zip_with fold_left fst snd].
  fold (assign_all (<[f_name f := v]> d) fields vs).
  rewrite IH by done. by rewrite lookup_insert_ne.
Qed.

Lemma assign_all_lookup (fields : list field) :
  ∀ (vs : list value) (d : gmap string value) (i : nat) (f : field) (v : value),
    NoDup (f_name <$> fields) →
    fields !! i = Some f →
    vs !! i = Some v →
    assign_all d fields vs !! f_name f = Some v.
Proof.
  induction fields as [|f0 fields IH]; intros vs d i f v Hnd Hf Hv; [done|].
  destruct vs as [|v0 vs]; [done|].
  rewrite fmap_cons in Hnd. apply NoDup_cons in Hnd as [Hn Hnd].
  unfold assign_all. cbn [zip zip_with fold_left fst snd].
  fold (assign_all (<[f_name f0 := v0]> d) fields vs).
  destruct i as [|i].
  - injection Hf as <-. injection Hv as <-.
    rewrite assign_all_other by done. apply lookup_insert_eq.
  - by apply (IH vs _ i).
Qed.

(** X26.  The generated [__init__] stores each argument under the name
    of its field.  From any heap, for every dataclass of the notebooks
    without [__post_init__], the frozen one among them, and a call with
    one positional argument for each field: the call returns an instance
    on which every field reads as the argument given for it, and changes
    no object that existed. *)
Theorem fields_read_as_constructed (h : heap) (c : class) (dc : dataclass) (vs : list value)
    (i : nat) (f : field) (v : value) :
  dataclass_of c = Some dc →
  c ≠ PersonPostInit →
  length vs = length (dc_fields dc) →
  dc_fields dc !! i = Some f →
  vs !! i = Some v →
  ∃ obj h', new c vs [] h = (Ok obj, h')
            ∧ getattr obj (f_name f) h' = (Ok v, h')
            ∧ ∀ l o, h !! l = Some o → h' !! l = Some o.
Proof.
  intros Hdc Hc Hlen Hf Hv.
  assert (post_init_of c = None ∧ Forall (plain_field c) (dc_fields dc)
          ∧ NoDup (f_name <$> dc_fields dc)) as (Hpost & Hplain & Hnd).
  { destruct c; try done; injection Hdc as <-; cbn [dc_fields];
      (split; [reflexivity|]); (split; [repeat constructor|]); compute_done. }
  exists (VRef (fresh (dom h))). eexists. split; [by apply new_plain|]. split.
  - destruct (proj1 (Forall_lookup _ _) Hplain i f Hf) as (_ & Hsp & Hd).
    eapply getattr_dict; [apply lookup_insert_eq | exact Hsp | exact Hd |].
    by apply (assign_all_lookup _ _ _ i).
  - intros l o Hl. rewrite lookup_insert_ne; [done|]. apply fresh_ne; eauto.
Qed.

Lemma fields_read_as_constructed_witness :
  ∃ obj h', new PersonFrozen [VStr "Alice"; VInt 30] [] ∅ = (Ok obj, h')
            ∧ getattr obj "age" h' = (Ok (VInt 30), h')
            ∧ ∀ l o, (∅ : heap) !! l = Some o → h' !! l = Some o.
Proof.
  apply (fields_read_as_constructed ∅ PersonFrozen (Dataclass false true [plain "name"; plain "age"])
           [VStr "Alice"; VInt 30] 1 (plain "age") (VInt 30));
    (reflexivity || discriminate).
Defined.

End DataclassesProperties.

Module DataclassUtilitiesProperties.
Import Py Decl Compare Descriptors Dataclasses DataclassesProofs DataclassUtilities.
Local Open Scope Z_scope.

(** *** [replace] *)

(** Whether a name is among the names of some keyword arguments. *)
Ltac among :=
  cbn [fmap list_fmap fst app]; rewrite ?elem_of_cons, elem_of_nil; intuition discriminate.

Lemma instance_fields_run (h : heap) (l : loc) (c : class) (d : gmap string value) :
  h !! l = Some (OInst c d) →
  instance_fields (VRef l) h
  = (Ok (match dataclass_of c with
         | Some dc => Some (c, dc_fields dc)
         | None => None
         end), h).
Proof.
  intros Hl. unfold instance_fields, class_of.
  by rewrite !run_bind, (run_deref _ _ _ Hl).
Qed.

(** The keyword call that [replace] makes for a [PersonPostInit] of which
    the age is replaced. *)
Lemma new_PersonPostInit_keywords (h : heap) (name age email : value) :
  let l := fresh (dom h) in
  let h1 := <[l := OInst PersonPostInit (dict_PersonPostInit name age email)]> h in
  new PersonPostInit [] [("age", age); ("name", name); ("email", email)] h
  = (PersonPostInit__post_init__ (VRef l) ≫= λ _, mret (VRef l)) h1.
Proof.
  intros l h1. unfold new. cbn [dataclass_of post_init_of dc_frozen dc_fields].
  rewrite run_bind, run_alloc. cbv beta iota.
  rewrite (init_params_PersonPostInit _ eq_refl).
  rewrite run_bind.
  replace (bind_arguments PersonPostInit _ [] _ _)
    with (Ok [Some name; Some age; Some email], <[l := OInst PersonPostInit ∅]> h)
    by reflexivity.
  cbv beta iota.
  rewrite run_bind, (init_body_PersonPostInit _ _ name age (Some email))
    by apply lookup_insert_eq.
  cbv beta iota. by rewrite insert_insert_eq.
Qed.

Lemma replace_changes_age (h : heap) (l : loc) (d : gmap string value) (name email age' : value) :
  h !! l = Some (OInst PersonPostInit d) →
  d !! "name" = Some name →
  d !! "email" = Some email →
  replace_changes (VRef l)
    [plain "name"; plain "age"; Field "email" (DefaultValue (VStr EmptyString)) true true true;
     Field "is_adult" MISSING false true true]
    [("age", age')] h
  = (Ok [("age", age'); ("name", name); ("email", email)], h).
Proof.
  intros Hl Hname Hemail. cbn [replace_changes plain f_init f_name negb].
  rewrite bool_decide_false by among.
  rewrite run_bind, (getattr_dict _ _ _ _ "name" _ Hl eq_refl eq_refl Hname). cbv beta iota.
  rewrite bool_decide_true by among.
  rewrite bool_decide_false by among.
  rewrite run_bind, (getattr_dict _ _ _ _ "email" _ Hl eq_refl eq_refl Hemail). cbv beta iota.
  rewrite bool_decide_false by among.
  reflexivity.
Qed.

Lemma replace_changes_is_adult (h : heap) (l : loc) (d : gmap string value)
    (name age email v : value) :
  h !! l = Some (OInst PersonPostInit d) →
  d !! "name" = Some name →
  d !! "age" = Some age →
  d !! "email" = Some email →
  replace_changes (VRef l)
    [plain "name"; plain "age"; Field "email" (DefaultValue (VStr EmptyString)) true true true;
     Field "is_adult" MISSING false true true]
    [("is_adult", v)] h
  = (Raise (ValueError
              "field is_adult is declared with init=False, it cannot be specified with replace()"),
     h).
Proof.
  intros Hl Hname Hage Hemail. cbn [replace_changes plain f_init f_name negb].
  rewrite bool_decide_false by among.
  rewrite run_bind, (getattr_dict _ _ _ _ "name" _ Hl eq_refl eq_refl Hname). cbv beta iota.
  rewrite bool_decide_false by among.
  rewrite run_bind, (getattr_dict _ _ _ _ "age" _ Hl eq_refl eq_refl Hage). cbv beta iota.
  rewrite bool_decide_false by among.
  rewrite run_bind, (getattr_dict _ _ _ _ "email" _ Hl eq_refl eq_refl Hemail). cbv beta iota.
  rewrite bool_decide_true by among.
  reflexivity.
Qed.

(** X27.  [replace] makes the new object by a call of the class, so
    [__post_init__] runs again.  From any heap, for
    [person = PersonPostInit(name, age, email)] with an int [age] that is
    not negative: [replace(person, age=age')] with an int [age'] that is
    not negative returns another object, with the name and the email of
    [person], the new age, and [is_adult] computed from the new age, and
    [person] reads as before; with a negative [age'] it raises the
    ValueError of [__post_init__]; and [replace(person, is_adult=v)]
    raises ValueError, since the field has [init=False], and leaves the
    heap as it was. *)
Theorem replace_runs_post_init_again (h : heap) (name email : value) (age age' : Z) :
  0 ≤ age →
  ∃ person h1,
    new PersonPostInit [name; VInt age; email] [] h = (Ok person, h1)
    ∧ (0 ≤ age' →
       ∃ copy h2,
         replace person [("age", VInt age')] h1 = (Ok copy, h2)
         ∧ copy ≠ person
         ∧ getattr copy "name" h2 = (Ok name, h2)
         ∧ getattr copy "age" h2 = (Ok (VInt age'), h2)
         ∧ getattr copy "email" h2 = (Ok email, h2)
         ∧ getattr copy "is_adult" h2 = (Ok (VBool (age' >=? 18)), h2)
         ∧ getattr person "age" h2 = (Ok (VInt age), h2)
         ∧ getattr person "is_adult" h2 = (Ok (VBool (age >=? 18)), h2))
    ∧ (age' < 0 →
       ∃ h2, replace person [("age", VInt age')] h1
             = (Raise (ValueError ("Age " +:+ pretty age' +:+ " is not valid")), h2))
    ∧ (∀ v, replace person [("is_adult", v)] h1
            = (Raise (ValueError
                        "field is_adult is declared with init=False, it cannot be specified with replace()"),
               h1)).
Proof.
  intros Hage.
  set (l := fresh (dom h)).
  set (d := <["is_adult" := VBool (age >=? 18)]> (dict_PersonPostInit name (VInt age) email)).
  set (h1 := <[l := OInst PersonPostInit d]> h).
  assert (h1 !! l = Some (OInst PersonPostInit d)) as Hl by apply lookup_insert_eq.
  assert (d !! "name" = Some name ∧ d !! "age" = Some (VInt age) ∧ d !! "email" = Some email)
    as (Hn & Ha & He).
  { subst d. unfold dict_PersonPostInit. by rewrite !lookup_insert_ne, !lookup_insert_eq by done. }
  exists (VRef l), h1. split.
  { exact (new_PersonPostInit_valid h name age (Some email) Hage). }
  assert (∀ changes, replace (VRef l) changes h1
                     = (replace_changes (VRef l)
                          [plain "name"; plain "age";
                           Field "email" (DefaultValue (VStr EmptyString)) true true true;
                           Field "is_adult" MISSING false true true] changes
                        ≫= λ changes, new PersonPostInit [] changes) h1) as Hreplace.
  { intros changes. unfold replace. by rewrite run_bind, (instance_fields_run _ _ _ _ Hl). }
  set (l' := fresh (dom h1)).
  set (h1' := <[l' := OInst PersonPostInit (dict_PersonPostInit name (VInt age') email)]> h1).
  assert (l' ≠ l) as Hne by (apply fresh_ne; eauto).
  split; [|split].
  - intros Hage'.
    set (d' := <["is_adult" := VBool (age' >=? 18)]> (dict_PersonPostInit name (VInt age') email)).
    exists (VRef l'), (<[l' := OInst PersonPostInit d']> h1').
    assert (<[l' := OInst PersonPostInit d']> h1' !! l = Some (OInst PersonPostInit d)) as Hl2.
    { subst h1'. by rewrite !lookup_insert_ne. }
    split; [|split; [congruence|]].
    + rewrite Hreplace, run_bind, (replace_changes_age _ _ _ _ _ _ Hl Hn He). cbv beta iota.
      rewrite new_PersonPostInit_keywords. cbv zeta. fold l' h1'.
      rewrite run_bind.
      erewrite post_init_valid; [| apply lookup_insert_eq | apply dict_PersonPostInit_age | done].
      reflexivity.
    + subst d'. unfold dict_PersonPostInit.
      repeat split;
        (eapply getattr_dict;
         [first [apply lookup_insert_eq | exact Hl2] | reflexivity | reflexivity |]);
        try (by rewrite !lookup_insert_ne, ?lookup_insert_eq by done);
        try (subst d; unfold dict_PersonPostInit;
             by rewrite ?lookup_insert_ne, ?lookup_insert_eq by done).
  - intros Hage'.
    rewrite Hreplace, run_bind, (replace_changes_age _ _ _ _ _ _ Hl Hn He). cbv beta iota.
    rewrite new_PersonPostInit_keywords. cbv zeta. fold l' h1'.
    rewrite run_bind.
    erewrite post_init_negative; [| apply lookup_insert_eq | apply dict_PersonPostInit_age | done].
    eexists. reflexivity.
  - intros v.
    by rewrite Hreplace, run_bind, (replace_changes_is_adult _ _ _ _ _ _ _ Hl Hn Ha He).
Qed.

Lemma replace_runs_post_init_again_witness :
  ∃ person h1,
    new PersonPostInit [VStr "Alice"; VInt 25; VStr "test"] [] ∅ = (Ok person, h1)
    ∧ ∃ copy h2,
        replace person [("age", VInt 10)] h1 = (Ok copy, h2)
        ∧ copy ≠ person
        ∧ getattr copy "name" h2 = (Ok (VStr "Alice"), h2)
        ∧ getattr copy "age" h2 = (Ok (VInt 10), h2)
        ∧ getattr copy "email" h2 = (Ok (VStr "test"), h2)
        ∧ getattr copy "is_adult" h2 = (Ok (VBool false), h2)
        ∧ getattr person "age" h2 = (Ok (VInt 25), h2)
        ∧ getattr person "is_adult" h2 = (Ok (VBool true), h2).
Proof.
  destruct (replace_runs_post_init_again ∅ (VStr "Alice") (VStr "test") 25 10)
    as (person & h1 & E & Hcopy & _); [lia|].
  exists person, h1. split; [exact E|]. apply Hcopy. lia.
Defined.

Lemma plain_fields_of_PersonDefaultFactory :
  Forall (plain_field PersonDefaultFactory)
    [plain "name";
     Field "age" MISSING true false true;
     Field "email" (DefaultValue (VStr EmptyString)) true true true;
     Field "list_values" DefaultFactory_list true true true].
Proof. repeat constructor. Qed.

(** The keyword call that [replace] makes for a [PersonDefaultFactory]
    of which the name is replaced. *)
Lemma new_PersonDefaultFactory_keywords (h : heap) (name age email list_values : value) :
  new PersonDefaultFactory []
    [("name", name); ("age", age); ("email", email); ("list_values", list_values)] h
  = (Ok (VRef (fresh (dom h))),
     <[fresh (dom h) :=
         OInst PersonDefaultFactory (dict_PersonDefaultFactory name age email list_values)]> h).
Proof.
  unfold new. cbn [dataclass_of post_init_of dc_frozen].
  rewrite run_bind, run_alloc. cbv beta iota.
  rewrite (init_params_PersonDefaultFactory _ eq_refl). cbn [dc_fields].
  rewrite run_bind.
  replace (bind_arguments PersonDefaultFactory _ [] _ _)
    with (Ok (Some <$> [name; age; email; list_values]),
          <[fresh (dom h) := OInst PersonDefaultFactory ∅]> h)
    by reflexivity.
  cbv beta iota.
  change false with (frozen PersonDefaultFactory).
  rewrite run_bind.
  rewrite (init_body_all_supplied PersonDefaultFactory _ _ plain_fields_of_PersonDefaultFactory
             [name; age; email; list_values] ∅) by (done || apply lookup_insert_eq).
  cbv beta iota. rewrite insert_insert_eq. reflexivity.
Qed.

(** X28.  [replace] copies the fields that are not replaced as they are,
    without copying what they refer to.  In any heap, for a
    [PersonDefaultFactory] instance: [replace(person, name=v)] returns a new
    instance with the name [v], and with the age, the email and the
    [list_values] of [person]; its [list_values] is the list object of
    [person], which the two instances then share.  No object that
    existed is changed. *)
Theorem replace_is_shallow (h : heap) (p : loc) (name age email list_values name' : value) :
  h !! p = Some (OInst PersonDefaultFactory
                   (dict_PersonDefaultFactory name age email list_values)) →
  ∃ copy h',
    replace (VRef p) [("name", name')] h = (Ok (VRef copy), h')
    ∧ h !! copy = None
    ∧ h' !! copy = Some (OInst PersonDefaultFactory
                           (dict_PersonDefaultFactory name' age email list_values))
    ∧ ∀ l o, h !! l = Some o → h' !! l = Some o.
Proof.
  intros Hp. exists (fresh (dom h)). eexists. split; [|split; [|split]].
  - unfold replace. rewrite run_bind, (instance_fields_run _ _ _ _ Hp). cbv beta iota.
    cbn [dataclass_of dc_fields].
    rewrite run_bind.
    cbn [replace_changes plain f_init f_name negb].
    rewrite bool_decide_true by among.
    rewrite bool_decide_false by among.
    rewrite run_bind, (getattr_dict _ _ _ _ "age" age Hp eq_refl eq_refl eq_refl). cbv beta iota.
    rewrite bool_decide_false by among.
    rewrite run_bind, (getattr_dict _ _ _ _ "email" email Hp eq_refl eq_refl eq_refl).
    cbv beta iota.
    rewrite bool_decide_false by among.
    rewrite run_bind, (getattr_dict _ _ _ _ "list_values" list_values Hp eq_refl eq_refl eq_refl).
    cbv beta iota. rewrite run_ret. cbv beta iota.
    apply new_PersonDefaultFactory_keywords.
  - apply fresh_lookup.
  - apply lookup_insert_eq.
  - intros l o Hl. rewrite lookup_insert_ne; [done|]. apply fresh_ne; eauto.
Qed.

Lemma replace_is_shallow_witness :
  ∃ copy h',
    replace (VRef 1%nat) [("name", VStr "Dave")] Scenarios.heap_Eve = (Ok (VRef copy), h')
    ∧ Scenarios.heap_Eve !! copy = None
    ∧ h' !! copy = Some (OInst PersonDefaultFactory
                           (dict_PersonDefaultFactory (VStr "Dave") (VInt 45) (VStr "e")
                              (VRef 0%nat)))
    ∧ ∀ l o, Scenarios.heap_Eve !! l = Some o → h' !! l = Some o.
Proof.
  apply (replace_is_shallow Scenarios.heap_Eve 1%nat (VStr "Eve") (VInt 45) (VStr "e")
           (VRef 0%nat) (VStr "Dave")).
  reflexivity.
Defined.

(** *** [astuple] *)

(** One step of [_astuple_inner] on a reference. *)
Lemma _astuple_inner_ref (depth : nat) (h : heap) (l : loc) (o : obj) :
  h !! l = Some o →
  _astuple_inner (S depth) (VRef l) h =
    match o with
    | OInst c _ =>
        match dataclass_of c with
        | Some dc =>
            (mapM (λ f, v ← getattr (VRef l) (f_name f); _astuple_inner depth v) (dc_fields dc)
             ≫= new_tuple) h
        | None => stuck h
        end
    | OTuple items => (mapM (_astuple_inner depth) items ≫= new_tuple) h
    | OList t items => (mapM (_astuple_inner depth) items ≫= λ result, alloc (OList t result)) h
    | ODict _ => stuck h
    end.
Proof.
  intros Hl. cbn [_astuple_inner]. rewrite run_bind, (run_deref _ _ _ Hl). cbv beta iota.
  destruct o as [items|t items|dk|c d]; try reflexivity.
  by destruct (dataclass_of c).
Qed.

Lemma mapM_astuple_ints (depth : nat) (ns : list Z) (h : heap) :
  mapM (_astuple_inner (S depth)) (VInt <$> ns) h = (Ok (VInt <$> ns), h).
Proof.
  induction ns as [|n ns IH]; [reflexivity|].
  rewrite fmap_cons. cbn [mapM].
  rewrite run_bind. change (_astuple_inner (S depth) (VInt n) h) with (Ok (VInt n), h).
  cbv beta iota. by rewrite run_bind, IH.
Qed.

(** X29.  [astuple] gives every field, in the order of declaration, and
    copies the lists it meets.  In any heap, for a [PersonDefaultFactory]
    instance with a str name, an int age, a str email and a list of ints
    as [list_values]: [astuple(person)] returns a new tuple of the name,
    the age (although the field has [repr=False]), the email, and a new
    list that holds the same ints.  The list of the instance is another
    object, and no object that existed is changed. *)
Theorem astuple_copies_the_list (h : heap) (p lv : loc) (name email : string) (age : Z)
    (ns : list Z) :
  h !! p = Some (OInst PersonDefaultFactory
                   (dict_PersonDefaultFactory (VStr name) (VInt age) (VStr email) (VRef lv))) →
  h !! lv = Some (OList builtin_list (VInt <$> ns)) →
  ∃ t lv' h',
    astuple (VRef p) h = (Ok (VRef t), h')
    ∧ h' !! t = Some (OTuple [VStr name; VInt age; VStr email; VRef lv'])
    ∧ h' !! lv' = Some (OList builtin_list (VInt <$> ns))
    ∧ h !! lv' = None
    ∧ ∀ l o, h !! l = Some o → h' !! l = Some o.
Proof.
  intros Hp Hlv.
  set (lv' := fresh (dom h)).
  set (h1 := <[lv' := OList builtin_list (VInt <$> ns)]> h).
  set (t := fresh (dom h1)).
  exists t, lv', (<[t := OTuple [VStr name; VInt age; VStr email; VRef lv']]> h1).
  assert (t ≠ lv') as Hne by (apply fresh_ne; subst h1; rewrite lookup_insert_eq; eauto).
  split; [|split; [|split; [|split]]].
  - unfold astuple, is_dataclass.
    rewrite !run_bind, (instance_fields_run _ _ _ _ Hp). cbn [dataclass_of]. cbv beta iota.
    rewrite run_ret. cbv beta iota.
    rewrite DictionaryKeysProofs.recursion_limit_SSS, (_astuple_inner_ref _ _ _ _ Hp). cbn [dataclass_of dc_fields].
    rewrite run_bind. cbn [mapM plain f_name].
    rewrite run_bind, run_bind.
    rewrite (getattr_dict _ _ _ _ "name" (VStr name) Hp eq_refl eq_refl eq_refl). cbv beta iota.
    change (_astuple_inner _ (VStr name) h) with (Ok (VStr name), h). cbv beta iota.
    rewrite run_bind, run_bind, run_bind.
    rewrite (getattr_dict _ _ _ _ "age" (VInt age) Hp eq_refl eq_refl eq_refl). cbv beta iota.
    change (_astuple_inner _ (VInt age) h) with (Ok (VInt age), h). cbv beta iota.
    rewrite run_bind, run_bind, run_bind.
    rewrite (getattr_dict _ _ _ _ "email" (VStr email) Hp eq_refl eq_refl eq_refl). cbv beta iota.
    change (_astuple_inner _ (VStr email) h) with (Ok (VStr email), h). cbv beta iota.
    rewrite run_bind, run_bind, run_bind.
    rewrite (getattr_dict _ _ _ _ "list_values" (VRef lv) Hp eq_refl eq_refl eq_refl).
    cbv beta iota.
    rewrite (_astuple_inner_ref _ _ _ _ Hlv).
    rewrite run_bind, mapM_astuple_ints. cbv beta iota.
    rewrite run_alloc. cbv beta iota. fold lv' h1.
    rewrite run_bind, run_ret. cbv beta iota.
    rewrite !run_ret. cbv beta iota.
    reflexivity.
  - apply lookup_insert_eq.
  - rewrite lookup_insert_ne by done. apply lookup_insert_eq.
  - apply fresh_lookup.
  - intros l o Hl.
    assert (h1 !! l = Some o) as Hl1.
    { subst h1. rewrite lookup_insert_ne; [done|]. apply fresh_ne; eauto. }
    rewrite lookup_insert_ne; [done|]. apply fresh_ne; eauto.
Qed.

Lemma astuple_copies_the_list_witness :
  ∃ t lv' h',
    astuple (VRef 1%nat) Scenarios.heap_Eve = (Ok (VRef t), h')
    ∧ h' !! t = Some (OTuple [VStr "Eve"; VInt 45; VStr "e"; VRef lv'])
    ∧ h' !! lv' = Some (OList builtin_list (VInt <$> [1]))
    ∧ Scenarios.heap_Eve !! lv' = None
    ∧ ∀ l o, Scenarios.heap_Eve !! l = Some o → h' !! l = Some o.
Proof.
  apply (astuple_copies_the_list Scenarios.heap_Eve 1%nat 0%nat "Eve" "e" 45 [1]); reflexivity.
Defined.

(** *** The checks of the decorator *)

Lemma _get_field_accepts (h : heap) (f : field) :
  (∀ v, f_default f = DefaultValue v → mutable_default h v = None) →
  _get_field f h = (Ok tt, h).
Proof.
  intros Hf. unfold _get_field. destruct (f_default f) as [|v|]; try reflexivity.
  rewrite run_bind. unfold lift. by rewrite (Hf v eq_refl).
Qed.

Lemma _get_field_refuses (h : heap) (f : field) (l : loc) (items : list value) :
  f_default f = DefaultValue (VRef l) →
  h !! l = Some (OList builtin_list items) →
  _get_field f h
  = (Raise (ValueError ("mutable default <class 'list'> for field " +:+ f_name f
                        +:+ " is not allowed: use default_factory")), h).
Proof.
  intros Hf Hl. unfold _get_field. rewrite Hf, run_bind. unfold lift, mutable_default.
  by rewrite Hl.
Qed.

Lemma mapM_get_field_refuses (h : heap) (before after : list field) (f : field) (e : exn) :
  Forall (λ g, ∀ v, f_default g = DefaultValue v → mutable_default h v = None) before →
  _get_field f h = (Raise e, h) →
  mapM _get_field (before ++ f :: after) h = (Raise e, h).
Proof.
  intros Hbefore Hf. induction Hbefore as [|g before Hg _ IH]; cbn [app mapM].
  - by rewrite run_bind, Hf.
  - rewrite run_bind, (_get_field_accepts _ _ Hg). cbv beta iota.
    by rewrite run_bind, IH.
Qed.

(** X30.  The decorator refuses a list as the default of a field.  In
    any heap: a declaration in which a field has a list as default, the
    fields before it having none, is refused with ValueError, whose
    message names that field, whatever else the declaration holds; every
    dataclass that the notebooks go on to use passes the checks; and the cell
    that declares [PersonMutableDefault] prints the message for
    [list_values]. *)
Theorem mutable_default_is_refused (h : heap) :
  (∀ dc before f after l items,
     dc_fields dc = before ++ f :: after →
     Forall (λ g, ∀ v, f_default g = DefaultValue v → mutable_default h v = None) before →
     f_default f = DefaultValue (VRef l) →
     h !! l = Some (OList builtin_list items) →
     _process_class dc h
     = (Raise (ValueError ("mutable default <class 'list'> for field " +:+ f_name f
                           +:+ " is not allowed: use default_factory")), h))
  ∧ (∀ c dc, dataclass_of c = Some dc → _process_class dc h = (Ok dc, h))
  ∧ (∃ h', cell_PersonMutableDefault h
           = (Ok (Some ("mutable default <class 'list'> for field list_values "
                        +:+ "is not allowed: use default_factory")), h')).
Proof.
  split; [|split].
  - intros dc before f after l items Hfields Hbefore Hf Hl.
    unfold _process_class. rewrite Hfields, run_bind.
    by rewrite (mapM_get_field_refuses h before after f _ Hbefore
                  (_get_field_refuses _ _ _ _ Hf Hl)).
  - intros c dc Hdc. destruct c; try done; by injection Hdc as <-.
  - unfold cell_PersonMutableDefault, try_except, class_PersonMutableDefault, new_list.
    rewrite !run_bind, run_alloc. cbv beta iota.
    rewrite run_ret. cbv beta iota.
    rewrite run_bind.
    set (d := fresh (dom h)). set (h1 := <[d := OList builtin_list []]> h).
    set (dc := Dataclass _ _ _).
    assert (_process_class dc h1
            = (Raise (ValueError ("mutable default <class 'list'> for field list_values "
                                  +:+ "is not allowed: use default_factory")), h1)) as ->.
    { unfold _process_class, dc. cbn [dc_fields]. rewrite run_bind.
      pose proof (mapM_get_field_refuses h1
                    [plain "name"; Field "age" MISSING true false true;
                     Field "email" (DefaultValue (VStr EmptyString)) true true true] []
                    (Field "list_values" (DefaultValue (VRef d)) true true true)
                    (ValueError ("mutable default <class 'list'> for field list_values "
                                 +:+ "is not allowed: use default_factory"))) as E.
      cbn [app] in E. rewrite E; [reflexivity | |].
      - repeat constructor; intros v; cbn [f_default plain]; intros [= <-]; reflexivity.
      - exact (_get_field_refuses h1 (Field "list_values" (DefaultValue (VRef d)) true true true)
                 d [] eq_refl (lookup_insert_eq _ _ _)). }
    cbv beta iota. eexists. reflexivity.
Qed.

Lemma mutable_default_is_refused_witness :
  _process_class
    (Dataclass false false
       [plain "first_name"; plain "last_name"; plain "age";
        Field "married" (DefaultValue (VBool false)) true true true;
        Field "friends" (DefaultValue (VRef 0%nat)) true true true])
    {[ 0%nat := OList builtin_list [] ]}
  = (Raise (ValueError ("mutable default <class 'list'> for field " +:+ "friends"
                        +:+ " is not allowed: use default_factory")),
     {[ 0%nat := OList builtin_list [] ]}).
Proof.
  apply (proj1 (mutable_default_is_refused {[ 0%nat := OList builtin_list [] ]})
           (Dataclass false false
              [plain "first_name"; plain "last_name"; plain "age";
               Field "married" (DefaultValue (VBool false)) true true true;
               Field "friends" (DefaultValue (VRef 0%nat)) true true true])
           [plain "first_name"; plain "last_name"; plain "age";
            Field "married" (DefaultValue (VBool false)) true true true]
           (Field "friends" (DefaultValue (VRef 0%nat)) true true true) [] 0%nat []);
    [reflexivity
    | repeat constructor; intros v E; try discriminate E; injection E as <-; reflexivity
    | reflexivity
    | reflexivity].
Defined.

End DataclassUtilitiesProperties.

(** ** The model against the outputs the notebooks record *)

Module Examples.
Import Py Decl Compare DictionaryKeys Descriptors Dataclasses.
Local Open Scope Z_scope.

(** [hash(())], [hash((1, 2, 3))], [hash(-1)], [hash(2**61 - 1)] on the
    interpreter of the notebooks. *)
Example hash_of_tuples :
  tuplehash [] = 5740354900026072187
  ∧ tuplehash (hash_int <$> [1; 2; 3]) = 529344067295497451
  ∧ hash_int (-1) = -2
  ∧ hash_int (2 ^ 61 - 1) = 0.
Proof. vm_compute. repeat split. Qed.

(** CallByAssignment.ipynb: [[1]], [(1,)], [[1, 2]], [(2,)]. *)
Example call_by_assignment_output :
  (CallByAssignment.cells 1 2 ∅).1
  = Ok [OList builtin_list [VInt 1]; OTuple [VInt 1];
        OList builtin_list [VInt 1; VInt 2]; OTuple [VInt 2]].
Proof. vm_compute. reflexivity. Qed.

(** DictionaryKeys.ipynb: the TypeError, then 1, then the KeyError, and 1
    for the user defined class. *)
Example dictionary_keys_output :
  ((cell_listA ≫= cell_dict) ∅).1 = Raise (TypeError "unhashable type: 'list'")
  ∧ ((cell_listB_dictB ≫= λ '(listB, dictB), cell_lookup dictB listB) ∅).1 = Ok (VInt 1)
  ∧ ((cell_listB_dictB ≫= λ '(listB, dictB), cell_append listB;; cell_lookup dictB listB) ∅).1
    = Raise (KeyError (VRef 1%nat))
  ∧ ((UserDefinedKey.cell_dictC
      ≫= λ '(class_inst, dictC), UserDefinedKey.cell_mutate_lookup class_inst dictC) ∅).1
    = Ok (VInt 1).
Proof. vm_compute. repeat split. Qed.

(** Descriptors.ipynb: 40, 65, 40, 65; [obj.int_value1 = 50] in between
    is an assignment to a name that no descriptor manages. *)
Example descriptors_output :
  (Descriptors.cells ∅).1 = Ok [VInt 40; VInt 65; VInt 40; VInt 65].
Proof. vm_compute. reflexivity. Qed.

Example new_MyClass_40_65 :
  new_MyClass (VInt 40) (VInt 65) ∅ = (Ok (VRef 0%nat), obj_40_65).
Proof. vm_compute. reflexivity. Qed.

(** A value that does not compare with the bounds is a TypeError from the
    comparison, not a ValueError. *)
Example descriptor_str_value :
  (new_MyClass (VStr "a") (VInt 65) ∅).1
  = Raise (TypeError "'<=' not supported between instances of 'int' and 'str'").
Proof. vm_compute. reflexivity. Qed.

(** Dataclasses.ipynb: False and True for the two equalities, [[1]] and
    [[]] for the two [list_values], False and True for the two orderings,
    and the two messages printed. *)
Example dataclasses_output :
  (cell_Person_eq (VStr "Jas") (VStr "Gujral") (VInt 35) ∅).1 = Ok false
  ∧ (cell_DcPerson_eq (VStr "Jas") (VStr "Gujral") (VInt 35) ∅).1 = Ok true
  ∧ (cell_default_factory ∅).1 = Ok (OList builtin_list [VInt 1], OList builtin_list [])
  ∧ (cell_PersonOrder "Alice" 30 "Bob" 25 ∅).1 = Ok false
  ∧ (cell_PersonOrderAge "Alice" 30 "Bob" 25 ∅).1 = Ok true
  ∧ (cell_PersonFrozen ∅).1 = Ok (VRef 0%nat, Some "cannot assign to field 'age'")
  ∧ (cell_PersonPostInit ∅).1
    = Ok (Some "PersonPostInit.__init__() got an unexpected keyword argument 'is_adult'",
          VBool true).
Proof. vm_compute. repeat split. Qed.

(** The messages of the other ways a call of a generated [__init__]
    fails. *)
Example init_argument_errors :
  (new PersonPostInit [VStr "Alice"] [] ∅).1
  = Raise (TypeError "PersonPostInit.__init__() missing 1 required positional argument: 'age'")
  ∧ (new PersonPostInit [] [] ∅).1
    = Raise (TypeError "PersonPostInit.__init__() missing 2 required positional arguments: 'name' and 'age'")
  ∧ (new PersonPostInit [VStr "Alice"; VInt 25; VStr "test"; VNone] [] ∅).1
    = Raise (TypeError "PersonPostInit.__init__() takes from 3 to 4 positional arguments but 5 were given")
  ∧ (new PersonPostInit [VStr "Alice"; VInt 25] [("age", VInt 4)] ∅).1
    = Raise (TypeError "PersonPostInit.__init__() got multiple values for argument 'age'")
  ∧ (new PersonOrder [VStr "Alice"; VInt 25; VStr "test"] [] ∅).1
    = Raise (TypeError "PersonOrder.__init__() takes 3 positional arguments but 4 were given").
Proof. vm_compute. repeat split. Qed.

End Examples.
